(** * Bongo Cat monitor: the resilience core of the Electron main process

    A shallow embedding of the supervisory code of [main.js] (power
    management, reconnect and keyboard-recovery back-off, stats forwarding)
    and of [SystemMonitor.updateInterval] from [src/system-monitor.js];
    further of the life cycle, the CPU smoothing window and the memory
    figures of the system monitor, of [ensureMacKeyServerExecutable] and
    the interval timers of [main.js] and of the monitor, and of the
    display-sleep field of the settings form in [renderer/app.js].

    Conventions.
    - JavaScript numbers that the code only counts, compares and doubles
      (attempt counters, millisecond delays, interval lengths) are [Z]; all
      values that occur stay far below 2^53, where doubles are exact.
    - Byte and page counts are [Z] too, exact up to 2^53; where the code
      reads such a count from text, the model answers [None] for a count or
      a byte figure beyond that.
    - [null]/[undefined] are [None]; truthiness is written out where the
      code relies on it (an empty string is falsy).
    - An [async] function is a [Task]: its synchronous segments are state
      transformers and every [await] is a node that hands the continuation
      the world as it is when the promise settles. *)

From stdpp Require Import base strings gmap list.
From Stdlib Require Import ZArith Lia.

Local Open Scope Z_scope.

(** What the serial collaborator reports: [getAvailablePorts()] yields
    [PortInfo]s, [getConnectionStatus()] a [ConnectionStatus]. *)
Record PortInfo : Type := { path : string; manufacturer : option string }.

Record ConnectionStatus : Type :=
  { isConnected : bool; port : option string }.

(** Truthiness of a value that is [null] or a string. *)
Definition truthy_string (s : option string) : bool :=
  match s with
  | Some x => negb (String.eqb x "")
  | None => false
  end.

(* ===================================================================== *)
(** ** System monitor: property lookup and [updateInterval] *)
(* ===================================================================== *)

Module SystemMonitor.

(** The JavaScript values that the fields of a [SystemMonitor] hold. *)
Inductive value : Type :=
| VUndefined
| VNull
| VBool (b : bool)
| VNum (n : Z)
| VArr (l : list Z)
| VOpaque (tag : string).   (* event emitter, stats object, interval handle *)

Definition truthy (v : value) : bool :=
  match v with
  | VUndefined | VNull => false
  | VBool b => b
  | VNum n => negb (n =? 0)
  | VArr _ | VOpaque _ => true
  end.

Inductive error : Type :=
| TypeError (msg : string)
| Error (msg : string).

Inductive completion (A : Type) : Type :=
| Normal (a : A)
| Throw (e : error).
Arguments Normal {A} a.
Arguments Throw {A} e.

(** The methods that [class SystemMonitor] puts on its prototype. *)
Inductive method : Type :=
| startMonitoring | stopMonitoring | _getMacMemoryBreakdown
| updateSystemStats | getCurrentStats | getDetailedSystemInfo
| getPerformanceSummary | isActive | updateInterval | getStatus.

Definition prototype (name : string) : option method :=
  if String.eqb name "startMonitoring" then Some startMonitoring
  else if String.eqb name "stopMonitoring" then Some stopMonitoring
  else if String.eqb name "_getMacMemoryBreakdown" then Some _getMacMemoryBreakdown
  else if String.eqb name "updateSystemStats" then Some updateSystemStats
  else if String.eqb name "getCurrentStats" then Some getCurrentStats
  else if String.eqb name "getDetailedSystemInfo" then Some getDetailedSystemInfo
  else if String.eqb name "getPerformanceSummary" then Some getPerformanceSummary
  else if String.eqb name "isActive" then Some isActive
  else if String.eqb name "updateInterval" then Some updateInterval
  else if String.eqb name "getStatus" then Some getStatus
  else None.

(** What [obj.name] evaluates to: an own property wins over the prototype. *)
Inductive property : Type :=
| Data (v : value)
| Method (m : method).

Definition get (o : gmap string value) (name : string) : property :=
  match o !! name with
  | Some v => Data v
  | None =>
      match prototype name with
      | Some m => Method m
      | None => Data VUndefined
      end
  end.

Definition field (o : gmap string value) (name : string) : value :=
  match o !! name with
  | Some v => v
  | None => VUndefined
  end.

(** [constructor(eventEmitter)]: the own properties of a fresh instance.
    Note the data property [updateInterval], of the same name as the
    prototype method. *)
Definition constructor (eventEmitter : string) : gmap string value :=
  <["maxCpuSamples" := VNum 5]>
  (<["cpuLoadArray" := VArr []]>
  (<["lastStats" := VOpaque "lastStats"]>
  (<["updateInterval" := VNum 1000]>
  (<["monitoringInterval" := VNull]>
  (<["isMonitoring" := VBool false]>
  (<["eventEmitter" := VOpaque eventEmitter]> ∅)))))).

(** [stopMonitoring()]. *)
Definition stopMonitoring_body (this : gmap string value)
  : completion (gmap string value * value) :=
  if negb (truthy (field this "isMonitoring")) then
    Normal (this, VOpaque "{success:true}")
  else
    let this1 :=
      if truthy (field this "monitoringInterval")
      then <["monitoringInterval" := VNull]> this   (* clearInterval first *)
      else this in
    let this2 := <["isMonitoring" := VBool false]> this1 in
    let this3 := <["cpuLoadArray" := VArr []]> this2 in
    Normal (this3, VOpaque "{success:true}").

(** [startMonitoring(interval = 1000)] up to its first [await]: the call
    returns a promise; the rest runs in [startMonitoring_finish]. *)
Definition startMonitoring_begin (this : gmap string value) (args : list value)
  : completion (gmap string value * value) :=
  if truthy (field this "isMonitoring") then
    Normal (this, VOpaque "Promise")
  else
    let interval :=
      match args with
      | [] | VUndefined :: _ => VNum 1000
      | v :: _ => v
      end in
    Normal (<["updateInterval" := interval]> this, VOpaque "Promise").

(** ... and after [await this.updateSystemStats()] (which never rejects):
    the interval timer is installed and the flag raised. *)
Definition startMonitoring_finish (handle : string) (this : gmap string value)
  : gmap string value :=
  <["isMonitoring" := VBool true]>
  (<["monitoringInterval" := VOpaque handle]> this).

(** [obj.name(args)] for a given table of method bodies: a value that is not
    a function cannot be called. *)
Definition dispatch
    (bodies : method -> gmap string value -> list value ->
              completion (gmap string value * value))
    (o : gmap string value) (name : string) (args : list value)
  : completion (gmap string value * value) :=
  match get o name with
  | Method m => bodies m o args
  | Data _ => Throw (TypeError (name +:+ " is not a function"))
  end.

(** The methods that [updateInterval] itself calls on [this]. *)
Definition leaf_bodies (m : method) (this : gmap string value)
    (args : list value) : completion (gmap string value * value) :=
  match m with
  | stopMonitoring => stopMonitoring_body this
  | startMonitoring => startMonitoring_begin this args
  | isActive => Normal (this, field this "isMonitoring")
  | _ => Normal (this, VOpaque "Promise")   (* sampling code, not modelled *)
  end.

(** [ToNumber], as the relational operators apply it ([None] is NaN). *)
Definition to_number (v : value) : option Z :=
  match v with
  | VUndefined => None
  | VNull => Some 0
  | VBool b => Some (if b then 1 else 0)
  | VNum n => Some n
  | VArr [] => Some 0
  | VArr [n] => Some n
  | VArr _ => None
  | VOpaque _ => None
  end.

Definition js_lt (v : value) (bound : Z) : bool :=
  match to_number v with Some n => n <? bound | None => false end.

Definition js_gt (v : value) (bound : Z) : bool :=
  match to_number v with Some n => n >? bound | None => false end.

(** [updateInterval(newInterval)], the prototype method. *)
Definition updateInterval_body (this : gmap string value) (args : list value)
  : completion (gmap string value * value) :=
  let newInterval := hd VUndefined args in
  if js_lt newInterval 100 || js_gt newInterval 10000 then
    Throw (Error "Interval must be between 100ms and 10000ms")
  else
    let this1 := <["updateInterval" := newInterval]> this in
    if truthy (field this1 "isMonitoring") then
      match dispatch leaf_bodies this1 "stopMonitoring" [] with
      | Throw e => Throw e
      | Normal (this2, _) =>
          match dispatch leaf_bodies this2 "startMonitoring" [newInterval] with
          | Throw e => Throw e
          | Normal (this3, _) => Normal (this3, VUndefined)
          end
      end
    else Normal (this1, VUndefined).

Definition bodies (m : method) (this : gmap string value) (args : list value)
  : completion (gmap string value * value) :=
  match m with
  | updateInterval => updateInterval_body this args
  | _ => leaf_bodies m this args
  end.

(** [systemMonitor.name(args)], as the IPC handlers call it. *)
Definition call (o : gmap string value) (name : string) (args : list value)
  : completion (gmap string value * value) :=
  dispatch bodies o name args.

(** The guard of the settings handlers around the call:
    [settings.updateInterval && systemMonitor && systemMonitor.isActive()],
    then [try { systemMonitor.updateInterval(..) } catch { log }]. *)
Definition apply_updateInterval (systemMonitor : option (gmap string value))
    (setting : value) : completion (option (gmap string value) * bool) :=
  match systemMonitor with
  | None => Normal (None, false)
  | Some o =>
      if truthy setting then
        match call o "isActive" [] with
        | Normal (o1, active) =>
            if truthy active then
              match call o1 "updateInterval" [setting] with
              | Normal (o2, _) => Normal (Some o2, false)
              | Throw _ => Normal (Some o1, true)     (* caught and logged *)
              end
            else Normal (Some o1, false)
        | Throw e => Throw e
        end
      else Normal (Some o, false)
  end.

(** *** CPU smoothing window *)

(** [this.cpuLoadArray.push(cpuUsage)] followed by
    [if (this.cpuLoadArray.length > this.maxCpuSamples) this.cpuLoadArray.shift()].
    The samples themselves are not looked at. *)
Definition push_sample {A : Type} (maxCpuSamples : nat) (cpuUsage : A)
    (cpuLoadArray : list A) : list A :=
  let pushed := cpuLoadArray ++ [cpuUsage] in
  if (maxCpuSamples <? length pushed)%nat then tail pushed else pushed.

(** The window after a run of samples. *)
Definition push_samples {A : Type} (maxCpuSamples : nat) (samples : list A)
    (cpuLoadArray : list A) : list A :=
  foldl (fun window cpuUsage => push_sample maxCpuSamples cpuUsage window)
    cpuLoadArray samples.

(** What [updateSystemStats] does to the monitor.  A sampling that went
    through ([sample] holds the new stats object and the CPU reading)
    pushes the reading into the window and stores the stats; one that
    raised, also on a window that is no array, is caught: the monitor keeps
    what it had.  The readings are only stored here, never looked at. *)
Definition updateSystemStats_body (sample : option (string * Z))
    (this : gmap string value) : gmap string value :=
  match sample with
  | None => this
  | Some (stats, cpuUsage) =>
      match field this "cpuLoadArray", field this "maxCpuSamples" with
      | VArr window, VNum maxCpuSamples =>
          <["lastStats" := VOpaque stats]>
            (<["cpuLoadArray" :=
                 VArr (push_sample (Z.to_nat maxCpuSamples) cpuUsage window)]>
               this)
      | _, _ => this
      end
  end.

(** *** The life of a monitor *)

(** [await monitor.startMonitoring(interval)] as a whole.  The first
    sampling cannot reject ([updateSystemStats] catches what it raises), so
    a call that finds the monitor idle always gets to install its interval
    timer; [handle] is what [setInterval] returns. *)
Definition startMonitoring_call (handle : string)
    (sample : option (string * Z)) (o : gmap string value)
    (args : list value) : completion (gmap string value) :=
  match call o "startMonitoring" args with
  | Throw e => Throw e
  | Normal (o1, _) =>
      if truthy (field o "isMonitoring") then Normal o1
      else
        Normal (startMonitoring_finish handle
                  (updateSystemStats_body sample o1))
  end.

Definition stopMonitoring_call (o : gmap string value)
  : completion (gmap string value) :=
  match call o "stopMonitoring" [] with
  | Throw e => Throw e
  | Normal (o1, _) => Normal o1
  end.

(** What happens to the monitor of the main process: it is started (at
    launch and on ['start-monitoring']) and stopped (on ['stop-monitoring']
    and before quitting), and it samples (on every tick of its interval
    and on a stats request while idle), each call running to its end
    before the next. *)
Inductive Op : Type :=
| Start (handle : string) (sample : option (string * Z)) (args : list value)
| Stop
| Sample (sample : option (string * Z)).

Definition perform (op : Op) (o : gmap string value)
  : completion (gmap string value) :=
  match op with
  | Start handle sample args => startMonitoring_call handle sample o args
  | Stop => stopMonitoring_call o
  | Sample sample => Normal (updateSystemStats_body sample o)
  end.

Fixpoint lifecycle (ops : list Op) (o : gmap string value)
  : completion (gmap string value) :=
  match ops with
  | [] => Normal o
  | op :: rest =>
      match perform op o with
      | Normal o1 => lifecycle rest o1
      | Throw e => Throw e
      end
  end.

(** The monitoring flag and the interval handle as they belong together:
    a handle is held exactly while the flag is up. *)
Definition flag_matches_handle (o : gmap string value) : Prop :=
  exists b,
    o !! "isMonitoring" = Some (VBool b)
    /\ if b then exists handle, o !! "monitoringInterval" = Some (VOpaque handle)
       else o !! "monitoringInterval" = Some VNull.

(** The smoothing window holds at most five readings. *)
Definition window_is_bounded (o : gmap string value) : Prop :=
  exists window,
    o !! "cpuLoadArray" = Some (VArr window) /\ (length window <= 5)%nat.

(** What every monitor that the main process can hold satisfies: the
    three methods it calls are found on the prototype, the number stored by
    the constructor hides [updateInterval], flag and handle agree, and the
    window is bounded by the five of [maxCpuSamples]. *)
Definition monitor_inv (o : gmap string value) : Prop :=
  o !! "startMonitoring" = None
  /\ o !! "stopMonitoring" = None
  /\ o !! "isActive" = None
  /\ is_Some (o !! "updateInterval")
  /\ flag_matches_handle o
  /\ o !! "maxCpuSamples" = Some (VNum 5)
  /\ window_is_bounded o.

(** *** Memory figures of [updateSystemStats]

    Byte and page counts are integers; a field that is missing (or not a
    number) is [None], so that [x || 0] is [default 0 x] and arithmetic on
    a missing field is NaN, which no comparison finds positive. *)
Record MemoryInfo : Type := {
  total : option Z;
  used : option Z;
  active : option Z;
  wired : option Z;
  compressed : option Z;
  buffers : option Z;
  cached : option Z;
  buffcache : option Z
}.

(** [x || 0]. *)
Definition or0 (x : option Z) : Z := default 0 x.

(** The arithmetic of [_getMacMemoryBreakdown] on the page counts that
    [parsePages] returned and the page size. *)
Record PageCounts : Type := {
  pageSize : Z;
  activePages : Z;
  speculativePages : Z;
  wiredPages : Z;
  compressedPages : Z;
  inactivePages : Z;
  fileBackedPages : Z;
  purgeablePages : Z;
  anonymousPages : Z
}.

Record MacBreakdown : Type := {
  activeBytes : Z;
  wiredBytes : Z;
  compressedBytes : Z;
  inactiveBytes : Z;
  fileBackedBytes : Z;
  purgeableBytes : Z;
  anonymousBytes : Z;
  appBytes : Z;
  usedBytes : Z
}.

Definition mac_breakdown (p : PageCounts) : MacBreakdown :=
  let activeBytes := (activePages p + speculativePages p) * pageSize p in
  let inactiveBytes := inactivePages p * pageSize p in
  let compressedBytes := compressedPages p * pageSize p in
  let wiredBytes := wiredPages p * pageSize p in
  let fileBackedBytes := fileBackedPages p * pageSize p in
  let purgeableBytes := purgeablePages p * pageSize p in
  let anonymousBytes := anonymousPages p * pageSize p in
  let appBytes := anonymousBytes + compressedBytes in
  let appBytes :=
    if (appBytes =? 0) && negb ((activeBytes =? 0) && (inactiveBytes =? 0))
    then Z.max 0 (activeBytes + inactiveBytes - fileBackedBytes)
         + compressedBytes
    else appBytes in
  {| activeBytes := activeBytes;
     wiredBytes := wiredBytes;
     compressedBytes := compressedBytes;
     inactiveBytes := inactiveBytes;
     fileBackedBytes := fileBackedBytes;
     purgeableBytes := purgeableBytes;
     anonymousBytes := anonymousBytes;
     appBytes := appBytes;
     usedBytes := appBytes + wiredBytes |}.

(** Where the used-bytes figure of a sample comes from. *)
Inductive MemorySource : Type :=
| FromUsedField          (* [memoryInfo.used || 0] *)
| FromVmStat             (* the breakdown of [vm_stat] *)
| FromSystemInformation  (* active + wired + compressed *)
| FromUsedLessCache.     (* used - buffers - cached *)

(** The used-bytes figure before it is clamped.  [macBreakdown] is what
    [_getMacMemoryBreakdown().catch(() => null)] yields. *)
Definition raw_used_bytes (darwin : bool) (memoryInfo : MemoryInfo)
    (macBreakdown : option MacBreakdown) : Z * MemorySource :=
  let totalBytes := or0 (total memoryInfo) in
  let usedBytes := or0 (used memoryInfo) in
  if 0 <? totalBytes then
    if darwin then
      match macBreakdown with
      | Some b =>
          if 0 <? SystemMonitor.usedBytes b
          then (SystemMonitor.usedBytes b, FromVmStat)
          else
            let computedUsed :=
              or0 (active memoryInfo) + or0 (wired memoryInfo)
              + or0 (compressed memoryInfo) in
            if 0 <? computedUsed then (computedUsed, FromSystemInformation)
            else (usedBytes, FromUsedField)
      | None =>
          let computedUsed :=
            or0 (active memoryInfo) + or0 (wired memoryInfo)
            + or0 (compressed memoryInfo) in
          if 0 <? computedUsed then (computedUsed, FromSystemInformation)
          else (usedBytes, FromUsedField)
      end
    else
      let buffers := or0 (buffers memoryInfo) in
      let cached :=
        or0 (cached memoryInfo) + or0 (buffcache memoryInfo) in
      match used memoryInfo with
      | Some u =>
          let computedUsed := u - buffers - cached in
          if 0 <? computedUsed then (computedUsed, FromUsedLessCache)
          else (usedBytes, FromUsedField)
      | None => (usedBytes, FromUsedField)
      end
  else (usedBytes, FromUsedField).

(** The used-bytes figure after the clamp, from which the percentage
    [memory] is computed: [Math.min(Math.max(usedBytes, 0), totalBytes)]
    when the total is positive. *)
Definition clamped_used_bytes (darwin : bool) (memoryInfo : MemoryInfo)
    (macBreakdown : option MacBreakdown) : Z :=
  let totalBytes := or0 (total memoryInfo) in
  let usedBytes := fst (raw_used_bytes darwin memoryInfo macBreakdown) in
  if 0 <? totalBytes then Z.min (Z.max usedBytes 0) totalBytes
  else usedBytes.

(** Whether [breakdownDetails] was assigned a breakdown; both breakdowns
    carry a [usedBytes] of their own, the figure before the clamp. *)
Definition has_breakdown (source : MemorySource) : bool :=
  match source with
  | FromVmStat | FromSystemInformation => true
  | FromUsedField | FromUsedLessCache => false
  end.

(** [memoryDetails.usedBytes] and [memoryDetails.totalBytes] of a sample.
    The object is [{ usedBytes, totalBytes, ...breakdownDetails }]: the
    spread comes last, so the [usedBytes] of an assigned breakdown takes
    the place of the clamped figure. *)
Definition memory_details (darwin : bool) (memoryInfo : MemoryInfo)
    (macBreakdown : option MacBreakdown) : Z * Z :=
  let totalBytes := or0 (total memoryInfo) in
  let '(raw, source) := raw_used_bytes darwin memoryInfo macBreakdown in
  let usedBytes := clamped_used_bytes darwin memoryInfo macBreakdown in
  (if has_breakdown source then raw else usedBytes, totalBytes).

End SystemMonitor.

(* ===================================================================== *)
(** ** Stats multiplexer: the closure of [setupEventForwarding] *)
(* ===================================================================== *)

Module StatsMultiplexer.
Section Multiplexer.

(** The payloads are opaque to the main process: it stores the reference it
    was handed and passes it on. *)
Context {SystemStats TypingStats : Type}.

Inductive UiMessage : Type :=
| UiSystemStats (stats : SystemStats)
| UiTypingStats (stats : TypingStats).

Record State : Type := {
  lastSystemStats : SystemStats;
  lastTypingStats : TypingStats;
  esp32SerialManager : option ConnectionStatus;
  mainWindow : bool;          (* mainWindow && !mainWindow.isDestroyed() *)
  sent : list (SystemStats * TypingStats);   (* sendCombinedStats calls *)
  forwarded : list UiMessage                 (* webContents.send calls *)
}.

(** [eventEmitter.on('system-stats', ...)]. *)
Definition on_system_stats (stats : SystemStats) (st : State) : State :=
  {| lastSystemStats := stats;
     lastTypingStats := lastTypingStats st;
     esp32SerialManager := esp32SerialManager st;
     mainWindow := mainWindow st;
     sent := sent st;
     forwarded := if mainWindow st
                  then forwarded st ++ [UiSystemStats stats]
                  else forwarded st |}.

(** [eventEmitter.on('typing-stats', ...)]. *)
Definition on_typing_stats (stats : TypingStats) (st : State) : State :=
  {| lastSystemStats := lastSystemStats st;
     lastTypingStats := stats;
     esp32SerialManager := esp32SerialManager st;
     mainWindow := mainWindow st;
     sent := sent st;
     forwarded := if mainWindow st
                  then forwarded st ++ [UiTypingStats stats]
                  else forwarded st |}.

(** The callback of [statsInterval = setInterval(..., 1000)]. *)
Definition stats_tick (st : State) : State :=
  match esp32SerialManager st with
  | Some status =>
      if isConnected status then
        {| lastSystemStats := lastSystemStats st;
           lastTypingStats := lastTypingStats st;
           esp32SerialManager := esp32SerialManager st;
           mainWindow := mainWindow st;
           sent := sent st ++ [(lastSystemStats st, lastTypingStats st)];
           forwarded := forwarded st |}
      else st
  | None => st
  end.

(** What can happen between two looks at the state: a collaborator emits
    stats, the 1000 ms interval ticks, or the environment changes the
    connection status or the window. *)
Inductive Event : Type :=
| SystemStatsEmitted (stats : SystemStats)
| TypingStatsEmitted (stats : TypingStats)
| Tick
| ConnectionStatusIs (status : ConnectionStatus)
| WindowIs (alive : bool).

Definition step (e : Event) (st : State) : State :=
  match e with
  | SystemStatsEmitted stats => on_system_stats stats st
  | TypingStatsEmitted stats => on_typing_stats stats st
  | Tick => stats_tick st
  | ConnectionStatusIs status =>
      {| lastSystemStats := lastSystemStats st;
         lastTypingStats := lastTypingStats st;
         esp32SerialManager :=
           match esp32SerialManager st with
           | Some _ => Some status
           | None => None
           end;
         mainWindow := mainWindow st;
         sent := sent st;
         forwarded := forwarded st |}
  | WindowIs alive =>
      {| lastSystemStats := lastSystemStats st;
         lastTypingStats := lastTypingStats st;
         esp32SerialManager := esp32SerialManager st;
         mainWindow := alive;
         sent := sent st;
         forwarded := forwarded st |}
  end.

Definition run (evs : list Event) (st : State) : State :=
  foldl (fun s e => step e s) st evs.

(** The words of the specification: the most recent snapshot of each kind
    that was emitted in a trace, or the one held before it. *)
Fixpoint latest_system_stats (evs : list Event) (before : SystemStats)
  : SystemStats :=
  match evs with
  | [] => before
  | SystemStatsEmitted stats :: rest => latest_system_stats rest stats
  | _ :: rest => latest_system_stats rest before
  end.

Fixpoint latest_typing_stats (evs : list Event) (before : TypingStats)
  : TypingStats :=
  match evs with
  | [] => before
  | TypingStatsEmitted stats :: rest => latest_typing_stats rest stats
  | _ :: rest => latest_typing_stats rest before
  end.

(** The ticks of a trace that find the device connected. *)
Fixpoint connected_ticks (evs : list Event) (st : State) : nat :=
  match evs with
  | [] => 0
  | e :: rest =>
      (match e, esp32SerialManager st with
       | Tick, Some status => if isConnected status then 1 else 0
       | _, _ => 0
       end + connected_ticks rest (step e st))%nat
  end.

(** The message that an emitted snapshot is forwarded as. *)
Definition message_of (e : Event) : option UiMessage :=
  match e with
  | SystemStatsEmitted stats => Some (UiSystemStats stats)
  | TypingStatsEmitted stats => Some (UiTypingStats stats)
  | _ => None
  end.

End Multiplexer.
Arguments State : clear implicits.
Arguments Event : clear implicits.
Arguments UiMessage : clear implicits.
End StatsMultiplexer.

(* ===================================================================== *)
(** ** Power management, reconnect and keyboard recovery *)
(* ===================================================================== *)

Module Supervisor.

Definition RESUME_RETRY_BASE_DELAY_MS : Z := 1000.
Definition RESUME_RETRY_MAX_DELAY_MS : Z := 30000.
Definition RESUME_RETRY_LIMIT : Z := 10.
Definition KEYBOARD_RECOVERY_BASE_DELAY_MS : Z := 2000.
Definition KEYBOARD_RECOVERY_MAX_DELAY_MS : Z := 60000.
Definition KEYBOARD_RECOVERY_LIMIT : Z := 5.

(** *** Collaborator state that the main process reads *)

(** The session object of the keyboard monitor.  The main process reads and
    writes the first three fields only. *)
Record Session : Type := {
  totalKeystrokes : Z;
  startTime : option Z;
  lastKeystrokeTime : Z;
  wpm : Z;
  sessionActive : bool
}.

(** The introspectable state of the keyboard monitor: the result of
    [isActive?.()], whether [keyboardListener && keyboardListener.kill] is
    truthy, [fallbackMode], and [currentSession]. *)
Record KeyboardMonitor : Type := {
  kmIsActive : bool;
  keyboardListener : bool;
  fallbackMode : bool;
  currentSession : option Session
}.

(** The payload of a ['connection-change'] event. *)
Record ConnectionChange : Type :=
  { connected : bool; changePort : option string }.

Inductive UiMessage : Type :=
| UiConnectionChange (data : option ConnectionChange)
| UiKeyboardFallback (data : string)
| IpcRestartReply (success fallback : bool).

(** *** Timers of the event loop *)

Inductive TimerKind : Type := ResumeReconnect | KeyboardRecovery.

#[global] Instance TimerKind_eq_dec : EqDecision TimerKind.
Proof. solve_decision. Defined.

(** An armed single-shot timer: the handle [setTimeout] returned, the
    callback it runs and the delay it was armed with. *)
Record Timer : Type := { tid : nat; tkind : TimerKind; tdelay : Z }.

(** *** The module-level state of [main.js] and its surroundings *)

Record World : Type := {
  systemSuspended : bool;
  pendingResumePort : option string;
  resumeReconnectTimer : option nat;
  resumeReconnectAttempts : Z;
  keyboardRecoveryTimer : option nat;
  keyboardRecoveryAttempts : Z;
  esp32SerialManager : option ConnectionStatus;
  keyboardMonitor : option KeyboardMonitor;
  mainWindow : bool;            (* mainWindow && !mainWindow.isDestroyed() *)
  timers : list Timer;          (* armed and not yet fired or cleared *)
  nextTimerId : nat;
  uiLog : list UiMessage        (* webContents.send and IPC replies *)
}.

Definition set_systemSuspended (v : bool) (w : World) : World :=
  {| systemSuspended := v;
     pendingResumePort := pendingResumePort w;
     resumeReconnectTimer := resumeReconnectTimer w;
     resumeReconnectAttempts := resumeReconnectAttempts w;
     keyboardRecoveryTimer := keyboardRecoveryTimer w;
     keyboardRecoveryAttempts := keyboardRecoveryAttempts w;
     esp32SerialManager := esp32SerialManager w;
     keyboardMonitor := keyboardMonitor w;
     mainWindow := mainWindow w;
     timers := timers w;
     nextTimerId := nextTimerId w;
     uiLog := uiLog w |}.

Definition set_pendingResumePort (v : option string) (w : World) : World :=
  {| systemSuspended := systemSuspended w;
     pendingResumePort := v;
     resumeReconnectTimer := resumeReconnectTimer w;
     resumeReconnectAttempts := resumeReconnectAttempts w;
     keyboardRecoveryTimer := keyboardRecoveryTimer w;
     keyboardRecoveryAttempts := keyboardRecoveryAttempts w;
     esp32SerialManager := esp32SerialManager w;
     keyboardMonitor := keyboardMonitor w;
     mainWindow := mainWindow w;
     timers := timers w;
     nextTimerId := nextTimerId w;
     uiLog := uiLog w |}.

Definition set_resumeReconnectTimer (v : option nat) (w : World) : World :=
  {| systemSuspended := systemSuspended w;
     pendingResumePort := pendingResumePort w;
     resumeReconnectTimer := v;
     resumeReconnectAttempts := resumeReconnectAttempts w;
     keyboardRecoveryTimer := keyboardRecoveryTimer w;
     keyboardRecoveryAttempts := keyboardRecoveryAttempts w;
     esp32SerialManager := esp32SerialManager w;
     keyboardMonitor := keyboardMonitor w;
     mainWindow := mainWindow w;
     timers := timers w;
     nextTimerId := nextTimerId w;
     uiLog := uiLog w |}.

Definition set_resumeReconnectAttempts (v : Z) (w : World) : World :=
  {| systemSuspended := systemSuspended w;
     pendingResumePort := pendingResumePort w;
     resumeReconnectTimer := resumeReconnectTimer w;
     resumeReconnectAttempts := v;
     keyboardRecoveryTimer := keyboardRecoveryTimer w;
     keyboardRecoveryAttempts := keyboardRecoveryAttempts w;
     esp32SerialManager := esp32SerialManager w;
     keyboardMonitor := keyboardMonitor w;
     mainWindow := mainWindow w;
     timers := timers w;
     nextTimerId := nextTimerId w;
     uiLog := uiLog w |}.

Definition set_keyboardRecoveryTimer (v : option nat) (w : World) : World :=
  {| systemSuspended := systemSuspended w;
     pendingResumePort := pendingResumePort w;
     resumeReconnectTimer := resumeReconnectTimer w;
     resumeReconnectAttempts := resumeReconnectAttempts w;
     keyboardRecoveryTimer := v;
     keyboardRecoveryAttempts := keyboardRecoveryAttempts w;
     esp32SerialManager := esp32SerialManager w;
     keyboardMonitor := keyboardMonitor w;
     mainWindow := mainWindow w;
     timers := timers w;
     nextTimerId := nextTimerId w;
     uiLog := uiLog w |}.

Definition set_keyboardRecoveryAttempts (v : Z) (w : World) : World :=
  {| systemSuspended := systemSuspended w;
     pendingResumePort := pendingResumePort w;
     resumeReconnectTimer := resumeReconnectTimer w;
     resumeReconnectAttempts := resumeReconnectAttempts w;
     keyboardRecoveryTimer := keyboardRecoveryTimer w;
     keyboardRecoveryAttempts := v;
     esp32SerialManager := esp32SerialManager w;
     keyboardMonitor := keyboardMonitor w;
     mainWindow := mainWindow w;
     timers := timers w;
     nextTimerId := nextTimerId w;
     uiLog := uiLog w |}.

Definition set_keyboardMonitor (v : option KeyboardMonitor) (w : World)
  : World :=
  {| systemSuspended := systemSuspended w;
     pendingResumePort := pendingResumePort w;
     resumeReconnectTimer := resumeReconnectTimer w;
     resumeReconnectAttempts := resumeReconnectAttempts w;
     keyboardRecoveryTimer := keyboardRecoveryTimer w;
     keyboardRecoveryAttempts := keyboardRecoveryAttempts w;
     esp32SerialManager := esp32SerialManager w;
     keyboardMonitor := v;
     mainWindow := mainWindow w;
     timers := timers w;
     nextTimerId := nextTimerId w;
     uiLog := uiLog w |}.

Definition set_timers (v : list Timer) (next : nat) (w : World) : World :=
  {| systemSuspended := systemSuspended w;
     pendingResumePort := pendingResumePort w;
     resumeReconnectTimer := resumeReconnectTimer w;
     resumeReconnectAttempts := resumeReconnectAttempts w;
     keyboardRecoveryTimer := keyboardRecoveryTimer w;
     keyboardRecoveryAttempts := keyboardRecoveryAttempts w;
     esp32SerialManager := esp32SerialManager w;
     keyboardMonitor := keyboardMonitor w;
     mainWindow := mainWindow w;
     timers := v;
     nextTimerId := next;
     uiLog := uiLog w |}.

Definition set_uiLog (v : list UiMessage) (w : World) : World :=
  {| systemSuspended := systemSuspended w;
     pendingResumePort := pendingResumePort w;
     resumeReconnectTimer := resumeReconnectTimer w;
     resumeReconnectAttempts := resumeReconnectAttempts w;
     keyboardRecoveryTimer := keyboardRecoveryTimer w;
     keyboardRecoveryAttempts := keyboardRecoveryAttempts w;
     esp32SerialManager := esp32SerialManager w;
     keyboardMonitor := keyboardMonitor w;
     mainWindow := mainWindow w;
     timers := timers w;
     nextTimerId := nextTimerId w;
     uiLog := v |}.

(** The environment changes what the collaborators report (never whether
    they exist: the globals are assigned once, in [initializeModules]). *)
Definition set_collaborators (status : ConnectionStatus)
    (km : KeyboardMonitor) (window : bool) (w : World) : World :=
  {| systemSuspended := systemSuspended w;
     pendingResumePort := pendingResumePort w;
     resumeReconnectTimer := resumeReconnectTimer w;
     resumeReconnectAttempts := resumeReconnectAttempts w;
     keyboardRecoveryTimer := keyboardRecoveryTimer w;
     keyboardRecoveryAttempts := keyboardRecoveryAttempts w;
     esp32SerialManager :=
       match esp32SerialManager w with Some _ => Some status | None => None end;
     keyboardMonitor :=
       match keyboardMonitor w with Some _ => Some km | None => None end;
     mainWindow := window;
     timers := timers w;
     nextTimerId := nextTimerId w;
     uiLog := uiLog w |}.

(** [setTimeout(callback, delayMs)]: a fresh handle, the timer is armed. *)
Definition setTimeout (k : TimerKind) (delayMs : Z) (w : World)
  : nat * World :=
  (nextTimerId w,
   set_timers
     (timers w ++ [{| tid := nextTimerId w; tkind := k; tdelay := delayMs |}])
     (S (nextTimerId w)) w).

(** [clearTimeout(handle)]: the timer, if still armed, is dropped; a handle
    that already fired or was cleared changes nothing. *)
Definition clearTimeout (h : nat) (w : World) : World :=
  set_timers (filter (fun t => tid t <> h) (timers w)) (nextTimerId w) w.

(** The armed timers of one kind. *)
Definition outstanding (k : TimerKind) (w : World) : list Timer :=
  filter (fun t => tkind t = k) (timers w).

(** *** Asynchronous functions *)

Inductive Call : Type :=
| GetAvailablePorts
| ConnectToDevice (port : option string)
| Disconnect
| StopMonitoring
| StartMonitoring.

(** How an awaited promise settles.  Only [getAvailablePorts] delivers a
    value that the main process looks at. *)
Inductive Settled : Type :=
| Fulfilled (ports : list PortInfo)
| Rejected (reason : string).

Inductive Task : Type :=
| Done (w : World)
| Failed (reason : string) (w : World)
| Await (c : Call) (w : World) (k : Settled -> World -> Task).

(** [promise.catch(error => console.error(...))]. *)
Fixpoint catch_log (t : Task) : Task :=
  match t with
  | Done w => Done w
  | Failed _ w => Done w
  | Await c w k => Await c w (fun r w' => catch_log (k r w'))
  end.

(** [try { await t; onDone } catch (error) { onFail }]. *)
Fixpoint try_await (t : Task) (onDone : World -> Task)
    (onFail : string -> World -> Task) : Task :=
  match t with
  | Done w => onDone w
  | Failed e w => onFail e w
  | Await c w k => Await c w (fun r w' => try_await (k r w') onDone onFail)
  end.

(** The world in which a task rests: its result, or the state it left when
    it suspended. *)
Definition world_of (t : Task) : World :=
  match t with
  | Done w | Failed _ w | Await _ w _ => w
  end.

(** *** The retry timers *)

Definition clearResumeReconnectTimer (w : World) : World :=
  match resumeReconnectTimer w with
  | Some h => set_resumeReconnectTimer None (clearTimeout h w)
  | None => w
  end.

Definition clearKeyboardRecoveryTimer (w : World) : World :=
  match keyboardRecoveryTimer w with
  | Some h => set_keyboardRecoveryTimer None (clearTimeout h w)
  | None => w
  end.

Definition scheduleResumeReconnect (delayMs : Z) (w : World) : World :=
  if systemSuspended w then w
  else
    let w1 := clearResumeReconnectTimer w in
    let '(h, w2) := setTimeout ResumeReconnect delayMs w1 in
    set_resumeReconnectTimer (Some h) w2.

Definition scheduleKeyboardRecovery (delayMs : Z) (w : World) : World :=
  if systemSuspended w || negb (bool_decide (is_Some (keyboardMonitor w)))
  then w
  else
    let w1 := clearKeyboardRecoveryTimer w in
    let '(h, w2) := setTimeout KeyboardRecovery delayMs w1 in
    set_keyboardRecoveryTimer (Some h) w2.

(** [Math.min(base * Math.pow(2, attemptNumber - 1), max)]; the attempt
    number is at least 1 wherever the code computes a delay. *)
Definition backoff (base max attemptNumber : Z) : Z :=
  Z.min (base * 2 ^ (attemptNumber - 1)) max.

(** *** Device reconnect after resume *)

(** The [catch] block of [attemptResumeReconnect]. *)
Definition resumeReconnect_failed (attemptNumber : Z) (w : World) : World :=
  if RESUME_RETRY_LIMIT <=? attemptNumber then
    clearResumeReconnectTimer w
  else
    scheduleResumeReconnect
      (backoff RESUME_RETRY_BASE_DELAY_MS RESUME_RETRY_MAX_DELAY_MS
         attemptNumber) w.

(** The three assignments after a connection that succeeded (or that is
    found to exist already). *)
Definition resumeReconnect_succeeded (w : World) : World :=
  clearResumeReconnectTimer
    (set_resumeReconnectAttempts 0 (set_pendingResumePort None w)).

(** After [await esp32SerialManager.connectToDevice(pendingResumePort)]:
    a promise that fulfils counts as success, whatever its value. *)
Definition resumeReconnect_afterConnect (attemptNumber : Z) (r : Settled)
    (w : World) : Task :=
  match r with
  | Fulfilled _ => Done (resumeReconnect_succeeded w)
  | Rejected _ => Done (resumeReconnect_failed attemptNumber w)
  end.

(** [port.path === pendingResumePort]. *)
Definition port_matches (pending : option string) (p : PortInfo) : bool :=
  bool_decide (Some (path p) = pending).

(** After [await esp32SerialManager.getAvailablePorts()]. *)
Definition resumeReconnect_afterPorts (attemptNumber : Z) (r : Settled)
    (w : World) : Task :=
  match r with
  | Fulfilled ports =>
      match List.find (port_matches (pendingResumePort w)) ports with
      | Some _ =>
          Await (ConnectToDevice (pendingResumePort w)) w
            (resumeReconnect_afterConnect attemptNumber)
      | None => Done (resumeReconnect_failed attemptNumber w)
      end
  | Rejected _ => Done (resumeReconnect_failed attemptNumber w)
  end.

Definition attemptResumeReconnect (w : World) : Task :=
  match esp32SerialManager w with
  | None => Done w
  | Some status =>
      if negb (truthy_string (pendingResumePort w)) || systemSuspended w then
        Done w
      else if isConnected status then
        Done (resumeReconnect_succeeded w)
      else
        let attemptNumber := resumeReconnectAttempts w + 1 in
        Await GetAvailablePorts
          (set_resumeReconnectAttempts attemptNumber w)
          (resumeReconnect_afterPorts attemptNumber)
  end.

(** *** Keyboard listener restart and recovery *)

(** The three assignments into [keyboardMonitor.currentSession]:
    [x || 0] on a number is [x]; [x ?? null] keeps a timestamp and turns a
    missing one into [null]. *)
Definition restore_session (previous current : Session) : Session :=
  {| totalKeystrokes :=
       if totalKeystrokes previous =? 0 then 0 else totalKeystrokes previous;
     startTime := startTime previous;
     lastKeystrokeTime :=
       if lastKeystrokeTime previous =? 0 then 0
       else lastKeystrokeTime previous;
     wpm := wpm current;
     sessionActive := sessionActive current |}.

Definition splice_session (previousSession : option Session) (w : World)
  : World :=
  match previousSession, keyboardMonitor w with
  | Some previous, Some km =>
      match currentSession km with
      | Some current =>
          set_keyboardMonitor
            (Some {| kmIsActive := kmIsActive km;
                     keyboardListener := keyboardListener km;
                     fallbackMode := fallbackMode km;
                     currentSession :=
                       Some (restore_session previous current) |}) w
      | None => w
      end
  | _, _ => w
  end.

(** [restartKeyboardMonitoring({ force })].  A [keyboardMonitor] that is
    [null] when a method is called on it raises inside the [try]. *)
Definition restartKeyboardMonitoring (force : bool) (w : World) : Task :=
  match keyboardMonitor w with
  | None => Failed "Keyboard monitor not initialized" w
  | Some km =>
      if negb force && negb (kmIsActive km) then Done w
      else
        let previousSession := currentSession km in
        Await StopMonitoring w (fun r1 w1 =>
          match r1 with
          | Rejected e => Failed e w1
          | Fulfilled _ =>
              match keyboardMonitor w1 with
              | None => Failed "TypeError" w1
              | Some _ =>
                  Await StartMonitoring w1 (fun r2 w2 =>
                    match r2 with
                    | Rejected e => Failed e w2
                    | Fulfilled _ =>
                        match previousSession, keyboardMonitor w2 with
                        | Some _, None => Failed "TypeError" w2
                        | _, _ =>
                            Done (clearKeyboardRecoveryTimer
                                    (set_keyboardRecoveryAttempts 0
                                       (splice_session previousSession w2)))
                        end
                    end)
              end
          end)
  end.

(** The [catch] block of [attemptKeyboardRecovery]. *)
Definition keyboardRecovery_failed (attemptNumber : Z) (w : World) : World :=
  if KEYBOARD_RECOVERY_LIMIT <=? attemptNumber then
    clearKeyboardRecoveryTimer w
  else
    scheduleKeyboardRecovery
      (backoff KEYBOARD_RECOVERY_BASE_DELAY_MS KEYBOARD_RECOVERY_MAX_DELAY_MS
         attemptNumber) w.

Definition keyboardRecovery_succeeded (w : World) : World :=
  clearKeyboardRecoveryTimer (set_keyboardRecoveryAttempts 0 w).

Definition keyboardRecovery_afterStart (attemptNumber : Z) (r : Settled)
    (w : World) : Task :=
  match r with
  | Fulfilled _ => Done (keyboardRecovery_succeeded w)
  | Rejected _ => Done (keyboardRecovery_failed attemptNumber w)
  end.

Definition keyboardRecovery_afterStop (attemptNumber : Z) (r : Settled)
    (w : World) : Task :=
  match r with
  | Fulfilled _ =>
      match keyboardMonitor w with
      | None => Done (keyboardRecovery_failed attemptNumber w)
      | Some _ =>
          Await StartMonitoring w (keyboardRecovery_afterStart attemptNumber)
      end
  | Rejected _ => Done (keyboardRecovery_failed attemptNumber w)
  end.

Definition attemptKeyboardRecovery (w : World) : Task :=
  match keyboardMonitor w with
  | None => Done w
  | Some km =>
      if systemSuspended w then Done w
      else if keyboardListener km && negb (fallbackMode km) then
        Done (set_keyboardRecoveryAttempts 0 (clearKeyboardRecoveryTimer w))
      else
        let attemptNumber := keyboardRecoveryAttempts w + 1 in
        Await StopMonitoring
          (set_keyboardRecoveryAttempts attemptNumber w)
          (keyboardRecovery_afterStop attemptNumber)
  end.

(** *** Event handlers *)

Definition ui_send (m : UiMessage) (w : World) : World :=
  if mainWindow w then set_uiLog (uiLog w ++ [m]) w else w.

(** [eventEmitter.on('connection-change', ...)]:
    [if (data?.connected && data.port) pendingResumePort = data.port]. *)
Definition on_connection_change (data : option ConnectionChange) (w : World)
  : World :=
  let w1 :=
    match data with
    | Some d =>
        if connected d && truthy_string (changePort d)
        then set_pendingResumePort (changePort d) w
        else w
    | None => w
    end in
  ui_send (UiConnectionChange data) w1.

(** [eventEmitter.on('keyboard-fallback', ...)]. *)
Definition on_keyboard_fallback (data : string) (w : World) : World :=
  scheduleKeyboardRecovery KEYBOARD_RECOVERY_BASE_DELAY_MS
    (ui_send (UiKeyboardFallback data) w).

(** [powerMonitor.on('suspend', async () => ...)]. *)
Definition on_suspend (w : World) : Task :=
  let w1 :=
    set_resumeReconnectAttempts 0
      (clearResumeReconnectTimer (set_systemSuspended true w)) in
  match esp32SerialManager w1 with
  | None => Done w1
  | Some status =>
      if isConnected status && truthy_string (port status) then
        Await Disconnect (set_pendingResumePort (port status) w1)
          (fun _ w2 => Done w2)
      else if truthy_string (port status) then
        Done (set_pendingResumePort (port status) w1)
      else Done w1
  end.

(** [powerMonitor.on('resume', () => ...)]: the restart is called without
    options, so with [force = false]. *)
Definition on_resume (w : World) : Task :=
  let w1 := set_resumeReconnectAttempts 0 (set_systemSuspended false w) in
  let w2 :=
    if truthy_string (pendingResumePort w1)
       && bool_decide (is_Some (esp32SerialManager w1))
    then scheduleResumeReconnect RESUME_RETRY_BASE_DELAY_MS w1
    else w1 in
  catch_log (restartKeyboardMonitoring false w2).

(** [ipcMain.handle('restart-keyboard-monitoring', ...)]. *)
Definition ipc_restart_keyboard_monitoring (w : World) : Task :=
  match keyboardMonitor w with
  | None => Failed "Keyboard monitor not initialized" w
  | Some _ =>
      let w1 :=
        clearKeyboardRecoveryTimer (set_keyboardRecoveryAttempts 0 w) in
      try_await (restartKeyboardMonitoring true w1)
        (fun w2 =>
           match keyboardMonitor w2 with
           | None =>     (* reading [fallbackMode] of null raises *)
               Done (set_uiLog (uiLog w2 ++ [IpcRestartReply false false])
                       (scheduleKeyboardRecovery
                          KEYBOARD_RECOVERY_BASE_DELAY_MS w2))
           | Some km =>
               let fallbackActive := fallbackMode km in
               let w3 :=
                 if fallbackActive
                 then scheduleKeyboardRecovery
                        KEYBOARD_RECOVERY_BASE_DELAY_MS w2
                 else w2 in
               Done (set_uiLog
                       (uiLog w3 ++
                          [IpcRestartReply (negb fallbackActive)
                             fallbackActive]) w3)
           end)
        (fun _ w2 =>
           Done (set_uiLog (uiLog w2 ++ [IpcRestartReply false false])
                   (scheduleKeyboardRecovery
                      KEYBOARD_RECOVERY_BASE_DELAY_MS w2)))
  end.

(** [cleanupPowerHandlers], on ['before-quit'] and ['will-quit']. *)
Definition cleanupPowerHandlers (w : World) : World :=
  set_keyboardRecoveryAttempts 0
    (set_resumeReconnectAttempts 0
       (set_systemSuspended false
          (clearKeyboardRecoveryTimer (clearResumeReconnectTimer w)))).

(** A timer fires: it leaves the queue and its callback runs. *)
Definition fire (h : nat) (w : World) : Task :=
  match List.find (fun t => Nat.eqb (tid t) h) (timers w) with
  | None => Done w
  | Some t =>
      let w1 := clearTimeout h w in
      match tkind t with
      | ResumeReconnect => catch_log (attemptResumeReconnect w1)
      | KeyboardRecovery => catch_log (attemptKeyboardRecovery w1)
      end
  end.

(** *** The event loop *)

(** What the outside world can make happen. *)
Inductive Event : Type :=
| Suspend
| Resume
| TimerFires (h : nat)
| KeyboardFallback (data : string)
| ConnectionChanged (data : option ConnectionChange)
| RestartKeyboardRequested
| Quit
| Collaborators (status : ConnectionStatus) (km : KeyboardMonitor)
    (window : bool).

Definition handler (e : Event) (w : World) : Task :=
  match e with
  | Suspend => on_suspend w
  | Resume => on_resume w
  | TimerFires h => fire h w
  | KeyboardFallback data => Done (on_keyboard_fallback data w)
  | ConnectionChanged data => Done (on_connection_change data w)
  | RestartKeyboardRequested => ipc_restart_keyboard_monitoring w
  | Quit => Done (cleanupPowerHandlers w)
  | Collaborators status km window =>
      Done (set_collaborators status km window w)
  end.

(** A suspended asynchronous function: the call it waits for and what it
    does once that call settles. *)
Record Pending : Type :=
  { pendingCall : Call; resumeWith : Settled -> World -> Task }.

Record System : Type := { world : World; inflight : list Pending }.

(** A task runs until it finishes or reaches its next [await]. *)
Definition spawn (t : Task) (others : list Pending) : System :=
  match t with
  | Done w | Failed _ w => {| world := w; inflight := others |}
  | Await c w k =>
      {| world := w;
         inflight := others ++ [{| pendingCall := c; resumeWith := k |}] |}
  end.

(** One turn of the event loop: an event is handled, or the promise that
    the [i]-th suspended function awaits settles. *)
Inductive Turn : Type :=
| Handle (e : Event)
| Settle (i : nat) (r : Settled).

Definition turn (t : Turn) (s : System) : System :=
  match t with
  | Handle e => spawn (handler e (world s)) (inflight s)
  | Settle i r =>
      match inflight s !! i with
      | Some p => spawn (resumeWith p r (world s)) (delete i (inflight s))
      | None => s
      end
  end.

Definition turns (ts : list Turn) (s : System) : System :=
  foldl (fun s t => turn t s) s ts.

(** The state after [initializeModules]: both collaborators exist, no
    timer was ever armed. *)
Definition initial (status : ConnectionStatus) (km : KeyboardMonitor)
    (window : bool) : World :=
  {| systemSuspended := false;
     pendingResumePort := None;
     resumeReconnectTimer := None;
     resumeReconnectAttempts := 0;
     keyboardRecoveryTimer := None;
     keyboardRecoveryAttempts := 0;
     esp32SerialManager := Some status;
     keyboardMonitor := Some km;
     mainWindow := window;
     timers := [];
     nextTimerId := 0;
     uiLog := [] |}.

Definition boot (status : ConnectionStatus) (km : KeyboardMonitor)
    (window : bool) : System :=
  {| world := initial status km window; inflight := [] |}.

(** *** Attempts that run one at a time

    When every collaborator call settles before the next event arrives, a
    handler runs to completion: each [await] is answered by how the call
    settles and by what the collaborators report afterwards.  A call that
    is never answered leaves the function suspended for good. *)
Record Reply : Type := {
  outcome : Settled;
  statusAfter : ConnectionStatus;
  monitorAfter : KeyboardMonitor;
  windowAfter : bool
}.

Fixpoint complete (replies : list Reply) (t : Task) {struct t} : World :=
  match t with
  | Done w | Failed _ w => w
  | Await _ w k =>
      match replies with
      | [] => w
      | r :: rest =>
          complete rest
            (k (outcome r)
               (set_collaborators (statusAfter r) (monitorAfter r)
                  (windowAfter r) w))
      end
  end.

Definition occurs (e : Event * list Reply) (w : World) : World :=
  complete (snd e) (handler (fst e) w).

Definition history (es : list (Event * list Reply)) (w : World) : World :=
  foldl (fun w e => occurs e w) w es.

(** *** Properties of worlds and tasks *)

(** The handle variable of a retry state, its counter and its limit. *)
Definition handle_of (k : TimerKind) (w : World) : option nat :=
  match k with
  | ResumeReconnect => resumeReconnectTimer w
  | KeyboardRecovery => keyboardRecoveryTimer w
  end.

Definition attempts_of (k : TimerKind) (w : World) : Z :=
  match k with
  | ResumeReconnect => resumeReconnectAttempts w
  | KeyboardRecovery => keyboardRecoveryAttempts w
  end.

Definition limit_of (k : TimerKind) : Z :=
  match k with
  | ResumeReconnect => RESUME_RETRY_LIMIT
  | KeyboardRecovery => KEYBOARD_RECOVERY_LIMIT
  end.

Definition clear_timer (k : TimerKind) : World -> World :=
  match k with
  | ResumeReconnect => clearResumeReconnectTimer
  | KeyboardRecovery => clearKeyboardRecoveryTimer
  end.

Definition schedule (k : TimerKind) : Z -> World -> World :=
  match k with
  | ResumeReconnect => scheduleResumeReconnect
  | KeyboardRecovery => scheduleKeyboardRecovery
  end.

(** The timer queue is well formed: handles are unique and below the next
    fresh one, an armed timer of a retry state is the one whose handle that
    state holds, and the two retry states never hold the same handle. *)
Definition timers_wf (w : World) : Prop :=
  NoDup (tid <$> timers w) /\
  (forall t, t ∈ timers w -> (tid t < nextTimerId w)%nat) /\
  (forall t, t ∈ timers w -> handle_of (tkind t) w = Some (tid t)) /\
  (forall k h, handle_of k w = Some h -> (h < nextTimerId w)%nat) /\
  (forall h, resumeReconnectTimer w = Some h ->
             keyboardRecoveryTimer w <> Some h).

(** A property holds of a task now and whenever it is resumed in a world
    that has the property. *)
Fixpoint task_keeps (P : World -> Prop) (t : Task) : Prop :=
  match t with
  | Done w | Failed _ w => P w
  | Await _ w k => P w /\ forall r w', P w' -> task_keeps P (k r w')
  end.

Definition system_keeps (P : World -> Prop) (s : System) : Prop :=
  P (world s) /\
  forall p, p ∈ inflight s ->
    forall r w', P w' -> task_keeps P (resumeWith p r w').

(** A failed attempt armed the timer of retry state [k] with [delay]: the
    state holds the fresh handle and that timer is in the queue. *)
Definition armed_with (k : TimerKind) (delay : Z) (before after : World)
  : Prop :=
  handle_of k after = Some (nextTimerId before) /\
  {| tid := nextTimerId before; tkind := k; tdelay := delay |}
    ∈ timers after.

(** Retry budget: the counter is within its limit, and a timer is armed
    only while the counter is below the limit. *)
Definition within_budget (k : TimerKind) (w : World) : Prop :=
  0 <= attempts_of k w <= limit_of k /\
  (outstanding k w <> [] -> attempts_of k w < limit_of k).

Definition budget_ok (k : TimerKind) (w : World) : Prop :=
  timers_wf w /\ within_budget k w.

Definition is_fallback (e : Event * list Reply) : bool :=
  match fst e with
  | KeyboardFallback _ => true
  | _ => false
  end.

(** The two retry states side by side. *)
Definition base_of (k : TimerKind) : Z :=
  match k with
  | ResumeReconnect => RESUME_RETRY_BASE_DELAY_MS
  | KeyboardRecovery => KEYBOARD_RECOVERY_BASE_DELAY_MS
  end.

Definition max_of (k : TimerKind) : Z :=
  match k with
  | ResumeReconnect => RESUME_RETRY_MAX_DELAY_MS
  | KeyboardRecovery => KEYBOARD_RECOVERY_MAX_DELAY_MS
  end.

Definition attempt (k : TimerKind) : World -> Task :=
  match k with
  | ResumeReconnect => attemptResumeReconnect
  | KeyboardRecovery => attemptKeyboardRecovery
  end.

Definition failed (k : TimerKind) : Z -> World -> World :=
  match k with
  | ResumeReconnect => resumeReconnect_failed
  | KeyboardRecovery => keyboardRecovery_failed
  end.

(** The guard at the head of the two scheduling functions. *)
Definition can_schedule (k : TimerKind) (w : World) : bool :=
  match k with
  | ResumeReconnect => negb (systemSuspended w)
  | KeyboardRecovery =>
      negb (systemSuspended w
            || negb (bool_decide (is_Some (keyboardMonitor w))))
  end.

(** The world a task ends in when its awaits are answered in turn, if the
    answers suffice for it to end. *)
Fixpoint result (replies : list Reply) (t : Task) {struct t}
  : option World :=
  match t with
  | Done w | Failed _ w => Some w
  | Await _ w k =>
      match replies with
      | [] => None
      | r :: rest =>
          result rest
            (k (outcome r)
               (set_collaborators (statusAfter r) (monitorAfter r)
                  (windowAfter r) w))
      end
  end.

(** A history in which a ['keyboard-fallback'] event only arrives while the
    keyboard counter is below its limit. *)
Fixpoint fallbacks_within_budget (es : list (Event * list Reply))
    (w : World) : Prop :=
  match es with
  | [] => True
  | e :: rest =>
      (is_fallback e = true ->
       keyboardRecoveryAttempts w < KEYBOARD_RECOVERY_LIMIT)
      /\ fallbacks_within_budget rest (occurs e w)
  end.

(** The calls a task issues when each [await] is answered in turn. *)
Fixpoint calls (replies : list Reply) (t : Task) {struct t}
  : list Call :=
  match t with
  | Done _ | Failed _ _ => []
  | Await c w k =>
      c :: match replies with
           | [] => []
           | r :: rest =>
               calls rest
                 (k (outcome r)
                    (set_collaborators (statusAfter r) (monitorAfter r)
                       (windowAfter r) w))
           end
  end.

(** *** How an attempt fails

    What the awaited calls of an attempt answer when the attempt ends in
    its [catch] block.  A reconnect attempt for the port [p]: the port
    query is rejected, or it lists no port whose path is [p], or it lists
    one and [connectToDevice] is rejected.  A recovery attempt:
    [stopMonitoring] is rejected, or it fulfils and [startMonitoring] is
    rejected. *)
Definition lists_port (p : string) (ports : list PortInfo) : bool :=
  bool_decide (p ∈ (path <$> ports)).

Definition reconnect_answers_fail (p : string) (replies : list Reply)
  : bool :=
  match replies with
  | [r] =>
      match outcome r with
      | Rejected _ => true
      | Fulfilled ports => negb (lists_port p ports)
      end
  | [r1; r2] =>
      match outcome r1, outcome r2 with
      | Fulfilled ports, Rejected _ => lists_port p ports
      | _, _ => false
      end
  | _ => false
  end.

Definition recovery_answers_fail (replies : list Reply) : bool :=
  match replies with
  | [r] =>
      match outcome r with
      | Rejected _ => true
      | Fulfilled _ => false
      end
  | [r1; r2] =>
      match outcome r1, outcome r2 with
      | Fulfilled _, Rejected _ => true
      | _, _ => false
      end
  | _ => false
  end.

Definition answers_fail (k : TimerKind) (w : World) (replies : list Reply)
  : bool :=
  match k with
  | ResumeReconnect =>
      match pendingResumePort w with
      | Some p => reconnect_answers_fail p replies
      | None => false
      end
  | KeyboardRecovery => recovery_answers_fail replies
  end.

(** An attempt is due: the system is awake and there is something to do, a
    remembered port with the device disconnected, or a listener that is
    dead or in fallback mode. *)
Definition attempt_is_due (k : TimerKind) (w : World) : Prop :=
  systemSuspended w = false
  /\ match k with
     | ResumeReconnect =>
         exists status p,
           esp32SerialManager w = Some status
           /\ isConnected status = false
           /\ pendingResumePort w = Some p /\ p <> ""
     | KeyboardRecovery =>
         exists km,
           keyboardMonitor w = Some km
           /\ (keyboardListener km = false \/ fallbackMode km = true)
     end.

(** Whatever timer of retry state [k] a step leaves armed was armed before
    the step, or is the fresh one with delay [d]. *)
Definition arms_only (k : TimerKind) (d : Z) (w0 w : World) : Prop :=
  timers_wf w0 ->
  forall t, t ∈ outstanding k w ->
    t ∈ outstanding k w0
    \/ t = {| tid := nextTimerId w0; tkind := k; tdelay := d |}.

(** *** Further properties of worlds and tasks *)

(** A relation holds between the world in which a task starts, or is
    resumed, and the world it leaves at its next [await] or at its end. *)
Fixpoint task_steps (R : World -> World -> Prop) (w0 : World) (t : Task)
  : Prop :=
  match t with
  | Done w | Failed _ w => R w0 w
  | Await _ w k => R w0 w /\ forall r w', task_steps R w' (k r w')
  end.

Definition inflight_steps (R : World -> World -> Prop) (s : System) : Prop :=
  forall p, p ∈ inflight s ->
    forall r w', task_steps R w' (resumeWith p r w').

(** The remembered port is [null] or a string that is not empty. *)
Definition pending_port_ok (w : World) : Prop :=
  pendingResumePort w <> Some "".

(** Across a suspended stretch nothing is armed: the flag stays up, no
    handle is handed out and the queue can only lose timers. *)
Definition stays_quiet (w0 w : World) : Prop :=
  systemSuspended w0 = true ->
  systemSuspended w = true
  /\ nextTimerId w = nextTimerId w0
  /\ forall t, t ∈ timers w -> t ∈ timers w0.

(** What a retry state consists of: counter, handle and armed timer. *)
Definition retry_state (k : TimerKind) (w : World)
  : Z * option nat * list Timer :=
  (attempts_of k w, handle_of k w, outstanding k w).

(** A step leaves the device side (the remembered port and the reconnect
    retry state) as it was; likewise for the keyboard retry state. *)
Definition keeps_device (w0 w : World) : Prop :=
  timers_wf w0 ->
  timers_wf w
  /\ systemSuspended w = systemSuspended w0
  /\ pendingResumePort w = pendingResumePort w0
  /\ retry_state ResumeReconnect w = retry_state ResumeReconnect w0.

Definition keeps_keyboard (w0 w : World) : Prop :=
  timers_wf w0 ->
  timers_wf w
  /\ systemSuspended w = systemSuspended w0
  /\ retry_state KeyboardRecovery w = retry_state KeyboardRecovery w0.

(** The kind of the armed timer with a given handle. *)
Definition kind_of_timer (h : nat) (w : World) : option TimerKind :=
  match List.find (fun t => Nat.eqb (tid t) h) (timers w) with
  | Some t => Some (tkind t)
  | None => None
  end.

(** Events that belong to the keyboard supervisor, and to the device
    supervisor. *)
Definition keyboard_event (e : Event) (w : World) : bool :=
  match e with
  | KeyboardFallback _ | RestartKeyboardRequested => true
  | TimerFires h => bool_decide (kind_of_timer h w = Some KeyboardRecovery)
  | _ => false
  end.

Definition device_event (e : Event) (w : World) : bool :=
  match e with
  | ConnectionChanged _ => true
  | TimerFires h => bool_decide (kind_of_timer h w = Some ResumeReconnect)
  | _ => false
  end.

(** The turns that lower the suspended flag. *)
Definition wakes (t : Turn) : bool :=
  match t with
  | Handle Resume | Handle Quit => true
  | _ => false
  end.

(** *** A run of reconnect attempts that fail

    The armed reconnect timer fires and the calls of the attempt it starts
    are answered by [replies]; with no timer armed nothing happens. *)
Definition reconnect_timer_fires (w : World) (replies : list Reply) : World :=
  match resumeReconnectTimer w with
  | Some h => occurs (TimerFires h, replies) w
  | None => w
  end.

Definition reconnect_timer_keeps_firing (rs : list (list Reply)) (w : World)
  : World :=
  foldl reconnect_timer_fires w rs.

(** The attempt for port [p] fails in one of its three ways and the device
    is still disconnected when it ends. *)
Definition reconnect_is_refused (p : string) (replies : list Reply) : bool :=
  reconnect_answers_fail p replies
  && match last replies with
     | Some r => negb (isConnected (statusAfter r))
     | None => false
     end.

(** The reconnect supervisor has [n] failed attempts behind it and waits
    for the next one; from the tenth failure on it has given up. *)
Definition reconnect_pending (p : string) (n : Z) (w : World) : Prop :=
  timers_wf w
  /\ systemSuspended w = false
  /\ (exists status,
        esp32SerialManager w = Some status /\ isConnected status = false)
  /\ pendingResumePort w = Some p
  /\ resumeReconnectAttempts w = n
  /\ if n <? RESUME_RETRY_LIMIT
     then exists t,
            outstanding ResumeReconnect w = [t]
            /\ resumeReconnectTimer w = Some (tid t)
            /\ (0 < n ->
                tdelay t
                = backoff RESUME_RETRY_BASE_DELAY_MS
                    RESUME_RETRY_MAX_DELAY_MS n)
     else outstanding ResumeReconnect w = []
          /\ resumeReconnectTimer w = None.

End Supervisor.

(* ===================================================================== *)
(** ** The helper binary of the key listener *)
(* ===================================================================== *)

Module MacKeyServer.

(** An octal literal, most significant digit first: [octal [7;5;5]] is
    [0o755]. *)
Definition octal (digits : list Z) : Z :=
  fold_left (fun acc d => 8 * acc + d) digits 0.

(** What [ensureMacKeyServerExecutable] sees of the host: the [st_mode] of
    every file that exists, and the module-level flag. *)
Record Host : Type := {
  files : gmap string Z;
  macKeyServerReady : bool
}.

Section Ensure.

(** [fs.statSync] and [fs.chmodSync] may throw on a path. *)
Context (statFails chmodFails : string -> bool).

(** The [for] loop over [candidatePaths].  A [chmod] that goes through
    replaces the permission bits; the file-type bits of [st_mode] stay, so
    the new [st_mode] is [stats.mode | 0o755]. *)
Fixpoint ensure_candidates (candidatePaths : list string) (h : Host)
  : Host :=
  match candidatePaths with
  | [] => h          (* 'MacKeyServer binary not found' *)
  | candidate :: rest =>
      if String.eqb candidate "" then ensure_candidates rest h
      else
        match files h !! candidate with
        | None => ensure_candidates rest h
        | Some mode =>
            if statFails candidate then ensure_candidates rest h
            else
              let hasExecute := negb (Z.land mode (octal [1; 1; 1]) =? 0) in
              if hasExecute then
                {| files := files h; macKeyServerReady := true |}
              else if chmodFails candidate then ensure_candidates rest h
              else
                {| files :=
                     <[candidate := Z.lor mode (octal [7; 5; 5])]> (files h);
                   macKeyServerReady := true |}
        end
  end.

Definition ensureMacKeyServerExecutable (darwin : bool)
    (candidatePaths : list string) (h : Host) : Host :=
  if negb darwin || macKeyServerReady h then h
  else ensure_candidates candidatePaths h.

(** A candidate that the loop can settle on. *)
Definition usable (h : Host) (candidate : string) : Prop :=
  candidate <> ""
  /\ statFails candidate = false
  /\ exists mode,
       files h !! candidate = Some mode
       /\ (Z.land mode (octal [1; 1; 1]) <> 0
           \/ chmodFails candidate = false).

End Ensure.

End MacKeyServer.

(* ===================================================================== *)
(** ** The interval timers of the main process and of its monitor *)
(* ===================================================================== *)

Module Intervals.

(** Who installed an interval: the stats forwarding of
    [setupEventForwarding], [ensureTimeUpdateTimer], or
    [SystemMonitor.startMonitoring]. *)
Inductive Owner : Type := StatsForwarding | TimeUpdate | Monitor.

#[global] Instance Owner_eq_dec : EqDecision Owner.
Proof. solve_decision. Defined.

(** The two variables of [main.js], the three fields of the monitor that
    [startMonitoring] and [stopMonitoring] use, the [startMonitoring] calls
    that are suspended in their [await] (for each, whether the
    ['start-monitoring'] handler awaits it), and the intervals that run:
    under its handle, the owner and the period of each. *)
Record State : Type := {
  statsInterval : option nat;
  timeUpdateTimer : option nat;
  isMonitoring : bool;
  monitoringInterval : option nat;
  updateInterval : Z;
  starting : list bool;
  running : gmap nat (Owner * Z);
  nextHandle : nat
}.

(** After [initializeModules] has made the monitor. *)
Definition initial : State :=
  {| statsInterval := None; timeUpdateTimer := None;
     isMonitoring := false; monitoringInterval := None;
     updateInterval := 1000; starting := [];
     running := ∅; nextHandle := 0 |}.

Definition set_statsInterval (v : option nat) (s : State) : State :=
  {| statsInterval := v; timeUpdateTimer := timeUpdateTimer s;
     isMonitoring := isMonitoring s;
     monitoringInterval := monitoringInterval s;
     updateInterval := updateInterval s; starting := starting s;
     running := running s; nextHandle := nextHandle s |}.

Definition set_timeUpdateTimer (v : option nat) (s : State) : State :=
  {| statsInterval := statsInterval s; timeUpdateTimer := v;
     isMonitoring := isMonitoring s;
     monitoringInterval := monitoringInterval s;
     updateInterval := updateInterval s; starting := starting s;
     running := running s; nextHandle := nextHandle s |}.

(** The fields of the monitor. *)
Definition set_monitor (flag : bool) (h : option nat) (interval : Z)
    (calls : list bool) (s : State) : State :=
  {| statsInterval := statsInterval s; timeUpdateTimer := timeUpdateTimer s;
     isMonitoring := flag; monitoringInterval := h;
     updateInterval := interval; starting := calls;
     running := running s; nextHandle := nextHandle s |}.

(** [setInterval(callback, period)]: a fresh handle, the interval runs. *)
Definition setInterval (o : Owner) (period : Z) (s : State) : nat * State :=
  (nextHandle s,
   {| statsInterval := statsInterval s; timeUpdateTimer := timeUpdateTimer s;
      isMonitoring := isMonitoring s;
      monitoringInterval := monitoringInterval s;
      updateInterval := updateInterval s; starting := starting s;
      running := <[nextHandle s := (o, period)]> (running s);
      nextHandle := S (nextHandle s) |}).

(** [clearInterval(handle)]. *)
Definition clearInterval (h : nat) (s : State) : State :=
  {| statsInterval := statsInterval s; timeUpdateTimer := timeUpdateTimer s;
     isMonitoring := isMonitoring s;
     monitoringInterval := monitoringInterval s;
     updateInterval := updateInterval s; starting := starting s;
     running := delete h (running s);
     nextHandle := nextHandle s |}.

(** The [if (!statsInterval) statsInterval = setInterval(..., 1000)] of
    [setupEventForwarding]. *)
Definition ensureStatsInterval (s : State) : State :=
  match statsInterval s with
  | Some _ => s
  | None =>
      let '(h, s1) := setInterval StatsForwarding 1000 s in
      set_statsInterval (Some h) s1
  end.

Definition ensureTimeUpdateTimer (s : State) : State :=
  match timeUpdateTimer s with
  | Some _ => s
  | None =>
      let '(h, s1) := setInterval TimeUpdate 60000 s in
      set_timeUpdateTimer (Some h) s1
  end.

(** [systemMonitor.startMonitoring(interval)] up to its [await]: a monitor
    that runs answers at once; otherwise the interval length is stored and
    the call waits for its first sample.  [awaited] tells whether the call
    comes from the ['start-monitoring'] handler, which goes on to
    [ensureTimeUpdateTimer()] once the call has answered with success. *)
Definition startMonitoring_called (awaited : bool) (interval : Z)
    (s : State) : State :=
  if isMonitoring s then
    if awaited then ensureTimeUpdateTimer s else s
  else
    set_monitor false (monitoringInterval s) interval
      (starting s ++ [awaited]) s.

(** ... and from its [await] on, for the [i]-th of the suspended calls
    (the first sample cannot fail: [updateSystemStats] catches what it
    raises): the interval is installed with the length that
    [this.updateInterval] holds by now, its handle stored over whatever
    [monitoringInterval] held, and the flag raised.  There being no such
    call, nothing happens. *)
Definition startMonitoring_resumed (i : nat) (s : State) : State :=
  match (starting s !! i : option bool) with
  | None => s
  | Some awaited =>
      let '(h, s1) := setInterval Monitor (updateInterval s) s in
      let s2 :=
        set_monitor true (Some h) (updateInterval s1)
          (delete i (starting s1)) s1 in
      if awaited then ensureTimeUpdateTimer s2 else s2
  end.

(** [systemMonitor.stopMonitoring()]. *)
Definition stopMonitoring (s : State) : State :=
  if negb (isMonitoring s) then s
  else
    let s1 :=
      match monitoringInterval s with
      | Some h => clearInterval h s
      | None => s
      end in
    set_monitor false None (updateInterval s1) (starting s1) s1.

(** The two [clearInterval]s of the ['will-quit'] handler. *)
Definition will_quit (s : State) : State :=
  let s1 :=
    match statsInterval s with
    | Some h => set_statsInterval None (clearInterval h s)
    | None => s
    end in
  match timeUpdateTimer s1 with
  | Some h => set_timeUpdateTimer None (clearInterval h s1)
  | None => s1
  end.

(** Where intervals are installed and cleared: [setupEventForwarding]
    (which ends in [ensureTimeUpdateTimer]); a ['start-monitoring'] request
    that gets as far as calling [startMonitoring]; the start that the timer
    of [setupEventForwarding] makes with 2000 ms; the first sample of a
    suspended start coming in; ['stop-monitoring']; the ['before-quit']
    handler, which stops a monitor that [isActive()]; and ['will-quit']. *)
Inductive Event : Type :=
| SetupEventForwarding
| StartRequested (interval : Z)
| AutoStart
| FirstSampleTaken (i : nat)
| StopRequested
| BeforeQuit
| WillQuit.

Definition step (e : Event) (s : State) : State :=
  match e with
  | SetupEventForwarding => ensureTimeUpdateTimer (ensureStatsInterval s)
  | StartRequested interval => startMonitoring_called true interval s
  | AutoStart => startMonitoring_called false 2000 s
  | FirstSampleTaken i => startMonitoring_resumed i s
  | StopRequested => stopMonitoring s
  | BeforeQuit => if isMonitoring s then stopMonitoring s else s
  | WillQuit => will_quit s
  end.

Definition run (evs : list Event) (s : State) : State :=
  foldl (fun s e => step e s) s evs.

(** Requests that are served one at a time: a start gets its first sample
    and runs to its end before anything else happens. *)
Inductive Request : Type :=
| Setup
| Start (interval : Z)
| StartAtLaunch
| Stop
| QuitBegins
| QuitEnds.

Definition serve (r : Request) : list Event :=
  match r with
  | Setup => [SetupEventForwarding]
  | Start interval => [StartRequested interval; FirstSampleTaken 0]
  | StartAtLaunch => [AutoStart; FirstSampleTaken 0]
  | Stop => [StopRequested]
  | QuitBegins => [BeforeQuit]
  | QuitEnds => [WillQuit]
  end.

Definition serve_all (rs : list Request) : list Event :=
  concat (serve <$> rs).

(** The intervals of [main.js] that run are the ones that its two
    variables hold, with their periods; every handle was handed out, and
    the monitor holds no handle but of an interval of its own. *)
Definition intervals_inv (s : State) : Prop :=
  (forall h i, running s !! h = Some i -> (h < nextHandle s)%nat)
  /\ (forall h p,
        running s !! h = Some (StatsForwarding, p)
        <-> statsInterval s = Some h /\ p = 1000)
  /\ (forall h p,
        running s !! h = Some (TimeUpdate, p)
        <-> timeUpdateTimer s = Some h /\ p = 60000)
  /\ (forall h,
        monitoringInterval s = Some h ->
        (h < nextHandle s)%nat
        /\ forall i, running s !! h = Some i -> i.1 = Monitor).

(** With starts that do not overlap, the interval of the monitor that runs
    is the one that [monitoringInterval] holds. *)
Definition monitor_is_held (s : State) : Prop :=
  starting s = []
  /\ (forall h p,
        running s !! h = Some (Monitor, p)
        <-> monitoringInterval s = Some h /\ p = updateInterval s)
  /\ (isMonitoring s = true <-> is_Some (monitoringInterval s)).

End Intervals.

(* ===================================================================== *)
(** ** The string functions of JavaScript that the code relies on *)
(* ===================================================================== *)

Module Js.

(** A string is the sequence of its code units; the model covers strings
    whose code units are below 256. *)

Definition code (c : Ascii.ascii) : Z := Z.of_N (Ascii.N_of_ascii c).

(** White space and line terminators, as [trim], [parseInt] and the
    [\s] of a regular expression see them: TAB, LF, VT, FF, CR, SP and
    NBSP. *)
Definition is_white_space (c : Ascii.ascii) : bool :=
  ((9 <=? code c) && (code c <=? 13)) || (code c =? 32) || (code c =? 160).

(** [\d]. *)
Definition is_digit (c : Ascii.ascii) : bool :=
  (48 <=? code c) && (code c <=? 57).

Definition digit_of (c : Ascii.ascii) : option Z :=
  if is_digit c then Some (code c - 48) else None.

Fixpoint skip_white_space (s : string) : string :=
  match s with
  | String c rest => if is_white_space c then skip_white_space rest else s
  | EmptyString => s
  end.

(** The value of the longest prefix of decimal digits, on top of what was
    read so far; [None] while no digit was read. *)
Fixpoint digits_value (s : string) (read : option Z) : option Z :=
  match s with
  | String c rest =>
      match digit_of c with
      | Some d => digits_value rest (Some (10 * default 0 read + d))
      | None => read
      end
  | EmptyString => read
  end.

(** [parseInt(s, 10)] as a mathematical integer; [None] is NaN.  After
    the white space an optional sign (code unit 45 is [-], 43 is [+]) and
    the digits. *)
Definition parseInt (s : string) : option Z :=
  match skip_white_space s with
  | String c rest =>
      if code c =? 45 then Z.opp <$> digits_value rest None
      else if code c =? 43 then digits_value rest None
      else digits_value (String c rest) None
  | EmptyString => None
  end.

(** [String(n)] for an integer [n] of fewer than 22 digits, where no
    exponent is printed. *)
Definition digit_char (d : Z) : Ascii.ascii :=
  Ascii.ascii_of_N (Z.to_N (48 + d)).

Fixpoint print_digits (fuel : nat) (n : Z) (printed : string) : string :=
  match fuel with
  | O => printed
  | S fuel' =>
      let printed' := String (digit_char (n mod 10)) printed in
      if n <? 10 then printed' else print_digits fuel' (n / 10) printed'
  end.

Definition number_to_string (n : Z) : string :=
  if n <? 0 then String (Ascii.ascii_of_N 45) (print_digits 21 (- n) "")
  else print_digits 21 n "".

(** [s.trim()]. *)
Fixpoint trim_end (s : string) : string :=
  match s with
  | String c rest =>
      let rest' := trim_end rest in
      if is_white_space c && String.eqb rest' "" then "" else String c rest'
  | EmptyString => ""
  end.

Definition trim (s : string) : string := trim_end (skip_white_space s).

(** [s.split('\n')]: code unit 10 separates. *)
Fixpoint split_lines (s : string) : list string :=
  match s with
  | String c rest =>
      if code c =? 10 then "" :: split_lines rest
      else
        match split_lines rest with
        | line :: lines => String c line :: lines
        | [] => [String c ""]
        end
  | EmptyString => [""]
  end.

(** [s.startsWith(label)]. *)
Fixpoint startsWith (label s : string) : bool :=
  match label, s with
  | EmptyString, _ => true
  | String a label', String b s' => Ascii.eqb a b && startsWith label' s'
  | String _ _, EmptyString => false
  end.

(** [s.replace('.', '')]: the first full stop (code unit 46) goes. *)
Fixpoint remove_first_dot (s : string) : string :=
  match s with
  | String c rest =>
      if code c =? 46 then rest else String c (remove_first_dot rest)
  | EmptyString => ""
  end.

(** The longest prefix whose code units all satisfy [p], and what follows
    it. *)
Fixpoint take_while (p : Ascii.ascii -> bool) (s : string) : string :=
  match s with
  | String c rest => if p c then String c (take_while p rest) else ""
  | EmptyString => ""
  end.

Fixpoint drop_while (p : Ascii.ascii -> bool) (s : string) : string :=
  match s with
  | String c rest => if p c then drop_while p rest else s
  | EmptyString => ""
  end.

Fixpoint drop_prefix (n : nat) (s : string) : string :=
  match n, s with
  | S n', String _ rest => drop_prefix n' rest
  | _, _ => s
  end.

(** A string of decimal digits only. *)
Fixpoint all_digits (s : string) : bool :=
  match s with
  | String c rest => is_digit c && all_digits rest
  | EmptyString => true
  end.

End Js.

(* ===================================================================== *)
(** ** The settings form of the renderer *)
(* ===================================================================== *)

Module Renderer.

(** [Math.max(0, Math.min(120, parseInt(value, 10) || 0))], the
    [parsedDisplaySleep] of [applyAppSettings] and [saveAppSettings]. *)
Definition parsedDisplaySleep (value : string) : Z :=
  Z.max 0 (Z.min 120 (default 0 (Js.parseInt value))).

(** [displaySleepTimeout.value = settings.displaySleepTimeout] followed by
    the parse that [applyAppSettings] does: what the form hands back for
    a setting it was given. *)
Definition displaySleep_round_trip (setting : Z) : Z :=
  parsedDisplaySleep (Js.number_to_string setting).

End Renderer.

(* ===================================================================== *)
(** ** Reading the output of [vm_stat] *)
(* ===================================================================== *)

Module VmStat.
Import Js.

(** [[\d\.]]. *)
Definition is_count_char (c : Ascii.ascii) : bool :=
  is_digit c || (code c =? 46).

(** [line.match(/:\s*([\d\.]+)/)]: the capture of the leftmost match.  A
    colon (code unit 58) matches when, after all the white space that
    follows it, a digit or a full stop comes; the capture is the longest
    run of those. *)
Fixpoint match_count (line : string) : option string :=
  match line with
  | String c rest =>
      if code c =? 58 then
        let capture := take_while is_count_char (skip_white_space rest) in
        if String.eqb capture "" then match_count rest else Some capture
      else match_count rest
  | EmptyString => None
  end.

(** [/page size of (\d+) bytes/] tried at the head of a string ... *)
Definition match_page_size_here (s : string) : option string :=
  if startsWith "page size of " s then
    let after := drop_prefix 13 s in
    let digits := take_while is_digit after in
    if negb (String.eqb digits "")
       && startsWith " bytes" (drop_while is_digit after)
    then Some digits else None
  else None.

(** ... and at every position from the left. *)
Fixpoint match_page_size (line : string) : option string :=
  match match_page_size_here line with
  | Some digits => Some digits
  | None =>
      match line with
      | String _ rest => match_page_size rest
      | EmptyString => None
      end
  end.

(** [stdout.split('\n').map(line => line.trim()).filter(line => line.length)]. *)
Definition lines_of (stdout : string) : list string :=
  filter (fun line => line <> "") (trim <$> split_lines stdout).

(** *** Numbers read from text

    [parseInt] yields the double nearest to the integer that the digits
    denote.  A double holds every integer up to 2^53 exactly; of a longer
    run of digits it holds a rounded value or [Infinity], and the byte
    arithmetic goes on from there to rounded values and [NaN].  The model
    follows the code as long as every number is exact, and answers [None]
    where one is not. *)
Definition exact (n : Z) : option Z :=
  if Z.abs n <=? 2 ^ 53 then Some n else None.

(** [pageSizeMatch ? parseInt(pageSizeMatch[1], 10) : 4096]; the capture
    is a run of digits, which [parseInt] always reads. *)
Definition pageSize_of (lines : list string) : option Z :=
  match lines with
  | first :: _ =>
      match match_page_size first with
      | Some digits => exact (default 0 (parseInt digits))
      | None => Some 4096
      end
  | [] => Some 4096
  end.

(** [parsePages(label)]. *)
Definition parsePages (lines : list string) (label : string) : option Z :=
  match List.find (startsWith label) lines with
  | None => Some 0
  | Some line =>
      match match_count line with
      | None => Some 0
      | Some capture =>
          exact (default 0 (parseInt (remove_first_dot capture)))
      end
  end.

Definition pageCounts_of (stdout : string)
  : option SystemMonitor.PageCounts :=
  let lines := lines_of stdout in
  pageSize ← pageSize_of lines;
  activePages ← parsePages lines "Pages active";
  speculativePages ← parsePages lines "Pages speculative";
  wiredPages ← parsePages lines "Pages wired down";
  compressedPages ← parsePages lines "Pages occupied by compressor";
  inactivePages ← parsePages lines "Pages inactive";
  fileBackedPages ← parsePages lines "File-backed pages";
  purgeablePages ← parsePages lines "Pages purgeable";
  anonymousPages ← parsePages lines "Anonymous pages";
  Some {| SystemMonitor.pageSize := pageSize;
          SystemMonitor.activePages := activePages;
          SystemMonitor.speculativePages := speculativePages;
          SystemMonitor.wiredPages := wiredPages;
          SystemMonitor.compressedPages := compressedPages;
          SystemMonitor.inactivePages := inactivePages;
          SystemMonitor.fileBackedPages := fileBackedPages;
          SystemMonitor.purgeablePages := purgeablePages;
          SystemMonitor.anonymousPages := anonymousPages |}.

(** Every sum, product and difference that [_getMacMemoryBreakdown] can
    form on these counts is exact. *)
Definition arithmetic_is_exact (p : SystemMonitor.PageCounts) : bool :=
  let pageSize := SystemMonitor.pageSize p in
  let activeBytes :=
    (SystemMonitor.activePages p + SystemMonitor.speculativePages p)
    * pageSize in
  let inactiveBytes := SystemMonitor.inactivePages p * pageSize in
  let compressedBytes := SystemMonitor.compressedPages p * pageSize in
  let wiredBytes := SystemMonitor.wiredPages p * pageSize in
  let fileBackedBytes := SystemMonitor.fileBackedPages p * pageSize in
  let purgeableBytes := SystemMonitor.purgeablePages p * pageSize in
  let anonymousBytes := SystemMonitor.anonymousPages p * pageSize in
  forallb (fun n => Z.abs n <=? 2 ^ 53)
    [SystemMonitor.activePages p + SystemMonitor.speculativePages p;
     activeBytes; inactiveBytes; compressedBytes; wiredBytes;
     fileBackedBytes; purgeableBytes; anonymousBytes;
     anonymousBytes + compressedBytes;
     activeBytes + inactiveBytes;
     activeBytes + inactiveBytes - fileBackedBytes;
     Z.max 0 (activeBytes + inactiveBytes - fileBackedBytes)
     + compressedBytes;
     SystemMonitor.appBytes (SystemMonitor.mac_breakdown p)
     + SystemMonitor.wiredBytes (SystemMonitor.mac_breakdown p)].

(** [_getMacMemoryBreakdown()] on what [vm_stat] printed. *)
Definition getMacMemoryBreakdown (stdout : string)
  : option SystemMonitor.MacBreakdown :=
  p ← pageCounts_of stdout;
  if arithmetic_is_exact p then Some (SystemMonitor.mac_breakdown p)
  else None.

(** A string of digits and full stops only. *)
Fixpoint all_count_chars (s : string) : bool :=
  match s with
  | String c rest => is_count_char c && all_count_chars rest
  | EmptyString => true
  end.

(** A label without a colon. *)
Fixpoint no_colon (s : string) : bool :=
  match s with
  | String c rest => negb (code c =? 58) && no_colon rest
  | EmptyString => true
  end.

Fixpoint all_white_space (s : string) : bool :=
  match s with
  | String c rest => is_white_space c && all_white_space rest
  | EmptyString => true
  end.

(** A line as [vm_stat] prints it: the label, a colon, padding, the count
    and a full stop. *)
Definition count_line (label padding : string) (n : Z) : string :=
  label +:+ ":" +:+ padding +:+ number_to_string n +:+ ".".

End VmStat.

(* ===================================================================== *)
(** ** Concrete inputs used by the examples below *)
(* ===================================================================== *)

Module Examples.
Import Supervisor.

Definition disconnected : ConnectionStatus :=
  {| isConnected := false; port := None |}.

Definition connected_on (p : string) : ConnectionStatus :=
  {| isConnected := true; port := Some p |}.

Definition session42 : Session :=
  {| totalKeystrokes := 42; startTime := Some 1700000000000;
     lastKeystrokeTime := 1700000060000; wpm := 55; sessionActive := true |}.

(** What a freshly started listener holds. *)
Definition fresh_session : Session :=
  {| totalKeystrokes := 0; startTime := None; lastKeystrokeTime := 0;
     wpm := 0; sessionActive := false |}.

(** A listener whose hook died: fallback mode, 42 keystrokes so far. *)
Definition broken_monitor : KeyboardMonitor :=
  {| kmIsActive := false; keyboardListener := false; fallbackMode := true;
     currentSession := Some session42 |}.

(** The same, with [isActive()] still reporting [true]. *)
Definition degraded_monitor : KeyboardMonitor :=
  {| kmIsActive := true; keyboardListener := false; fallbackMode := true;
     currentSession := Some session42 |}.

Definition healthy_monitor : KeyboardMonitor :=
  {| kmIsActive := true; keyboardListener := true; fallbackMode := false;
     currentSession := Some session42 |}.

(** A listener right after a successful start. *)
Definition restarted_monitor : KeyboardMonitor :=
  {| kmIsActive := true; keyboardListener := true; fallbackMode := false;
     currentSession := Some fresh_session |}.

(** The collaborator answers a call and reports the given state after. *)
Definition reply (r : Settled) (status : ConnectionStatus)
    (km : KeyboardMonitor) : Reply :=
  {| outcome := r; statusAfter := status; monitorAfter := km;
     windowAfter := true |}.

Definition ok : Settled := Fulfilled [].
Definition refused : Settled := Rejected "refused".

Definition com3 : PortInfo :=
  {| path := "COM3"; manufacturer := Some "Silicon Labs" |}.
Definition com4 : PortInfo :=
  {| path := "COM4"; manufacturer := None |}.

Definition stopped_monitor : KeyboardMonitor :=
  {| kmIsActive := false; keyboardListener := false; fallbackMode := false;
     currentSession := Some session42 |}.

(** A stop and a start that both go well; the started listener holds a
    fresh session. *)
Definition restart_goes_well : list Reply :=
  [reply ok disconnected stopped_monitor;
   reply ok disconnected restarted_monitor].

Definition plugged_in : ConnectionChange :=
  {| connected := true; changePort := Some "COM3" |}.

(** The keyboard hook is lost while the listener sits in fallback mode: a
    recovery timer (handle 0, 2000 ms) is armed. *)
Definition after_fallback (km : KeyboardMonitor) : World :=
  history [(KeyboardFallback "hook lost", [])] (initial disconnected km true).

(** ... then the machine sleeps and wakes up again. *)
Definition slept (km : KeyboardMonitor) (resume_replies : list Reply)
  : World :=
  history [(Suspend, []); (Resume, resume_replies)] (after_fallback km).

(** A recovery attempt whose [stopMonitoring] is refused. *)
Definition recovery_fails (h : nat) : Event * list Reply :=
  (TimerFires h, [reply refused disconnected broken_monitor]).

(** Five recovery attempts in a row fail. *)
Definition keyboard_exhausted : World :=
  history [recovery_fails 0; recovery_fails 1; recovery_fails 2;
           recovery_fails 3; recovery_fails 4]
    (after_fallback broken_monitor).

(** A reconnect attempt starts and fails before anything else happens. *)
Definition reconnect_fails (h : nat) : list Turn :=
  [Handle (TimerFires h); Settle 1 refused].

(** A first reconnect attempt hangs in [getAvailablePorts]; the machine
    sleeps and wakes, and ten further attempts fail one after the other. *)
Definition overlapping_attempts : System :=
  turns
    ([Handle (ConnectionChanged (Some plugged_in)); Handle Resume;
      Handle (TimerFires 0); Handle Suspend; Handle Resume]
     ++ reconnect_fails 1 ++ reconnect_fails 2 ++ reconnect_fails 3
     ++ reconnect_fails 4 ++ reconnect_fails 5 ++ reconnect_fails 6
     ++ reconnect_fails 7 ++ reconnect_fails 8 ++ reconnect_fails 9
     ++ reconnect_fails 10)
    (boot disconnected broken_monitor true).

(** The device was connected on COM3 when the machine went to sleep; after
    the wake-up, and before the first retry timer fires, the user has
    connected it again by hand. *)
Definition reconnected_by_hand : World :=
  history
    [(Collaborators (connected_on "COM3") healthy_monitor true, []);
     (ConnectionChanged (Some plugged_in), []);
     (Suspend, [reply ok disconnected healthy_monitor]);
     (Resume, [reply ok disconnected healthy_monitor;
               reply ok disconnected healthy_monitor]);
     (Collaborators (connected_on "COM3") healthy_monitor true, [])]
    (initial disconnected healthy_monitor true).

(** The third reconnect attempt is about to start: two have failed, the
    timer that fired left its handle behind. *)
Definition before_third_attempt : World :=
  {| systemSuspended := false;
     pendingResumePort := Some "COM3";
     resumeReconnectTimer := Some 2%nat;
     resumeReconnectAttempts := 2;
     keyboardRecoveryTimer := None;
     keyboardRecoveryAttempts := 0;
     esp32SerialManager := Some disconnected;
     keyboardMonitor := Some healthy_monitor;
     mainWindow := true;
     timers := [];
     nextTimerId := 3;
     uiLog := [] |}.

(** The third recovery attempt is about to start: two have failed, the
    timer that fired left its handle behind. *)
Definition before_third_recovery : World :=
  {| systemSuspended := false;
     pendingResumePort := None;
     resumeReconnectTimer := None;
     resumeReconnectAttempts := 0;
     keyboardRecoveryTimer := Some 2%nat;
     keyboardRecoveryAttempts := 2;
     esp32SerialManager := Some disconnected;
     keyboardMonitor := Some broken_monitor;
     mainWindow := true;
     timers := [];
     nextTimerId := 3;
     uiLog := [] |}.

(** Both retry timers are armed. *)
Definition both_armed : World :=
  {| systemSuspended := false;
     pendingResumePort := Some "COM3";
     resumeReconnectTimer := Some 0%nat;
     resumeReconnectAttempts := 1;
     keyboardRecoveryTimer := Some 1%nat;
     keyboardRecoveryAttempts := 0;
     esp32SerialManager := Some disconnected;
     keyboardMonitor := Some broken_monitor;
     mainWindow := true;
     timers := [{| tid := 0; tkind := ResumeReconnect; tdelay := 1000 |};
                {| tid := 1; tkind := KeyboardRecovery; tdelay := 2000 |}];
     nextTimerId := 2;
     uiLog := [] |}.

(** A reconnect attempt whose port query is rejected. *)
Definition reconnect_refused (h : nat) : Event * list Reply :=
  (TimerFires h, [reply refused disconnected broken_monitor]).

(** The device was seen on COM3 and the machine wakes up with the device
    gone; nine reconnect attempts fail one after the other ... *)
Definition nine_failures : list (Event * list Reply) :=
  [(ConnectionChanged (Some plugged_in), []); (Resume, [])]
  ++ (reconnect_refused <$> seq 0 9).

(** ... and the tenth; then the keyboard hook is lost and five recovery
    attempts fail.  After that a timer handle that is long gone fires and
    the device is announced once more. *)
Definition exhausting_history : list (Event * list Reply) :=
  nine_failures
  ++ [reconnect_refused 9; (KeyboardFallback "hook lost", [])]
  ++ (recovery_fails <$> seq 10 5)
  ++ [recovery_fails 14; (ConnectionChanged (Some plugged_in), [])].

(** The keystroke count the main process is left with. *)
Definition keystrokes (w : World) : option Z :=
  match keyboardMonitor w with
  | Some km =>
      match currentSession km with
      | Some s => Some (totalKeystrokes s)
      | None => None
      end
  | None => None
  end.

(** Stats events as the multiplexer sees them, with numbers for payloads. *)
Definition mux_start : StatsMultiplexer.State Z Z :=
  {| StatsMultiplexer.lastSystemStats := 0;
     StatsMultiplexer.lastTypingStats := 0;
     StatsMultiplexer.esp32SerialManager := Some (connected_on "COM3");
     StatsMultiplexer.mainWindow := true;
     StatsMultiplexer.sent := [];
     StatsMultiplexer.forwarded := [] |}.

Definition mux_trace : list (StatsMultiplexer.Event Z Z) :=
  [StatsMultiplexer.SystemStatsEmitted 10;
   StatsMultiplexer.TypingStatsEmitted 60;
   StatsMultiplexer.Tick;
   StatsMultiplexer.SystemStatsEmitted 12;
   StatsMultiplexer.SystemStatsEmitted 14].

(** The machine is put to sleep right after the keyboard hook was lost
    ... *)
Definition falls_asleep : list Turn :=
  [Handle (KeyboardFallback "hook lost"); Handle Suspend].

(** ... and while it sleeps the recovery timer fires, another fallback
    notice arrives, a manual restart is requested and its [stopMonitoring]
    is refused. *)
Definition busy_while_asleep : list Turn :=
  [Handle (TimerFires 0); Handle (KeyboardFallback "still lost");
   Handle RestartKeyboardRequested; Settle 0 refused].

(** Both retry timers armed, the device connected on COM3. *)
Definition armed_and_connected : World :=
  set_collaborators (connected_on "COM3") healthy_monitor true both_armed.

(** Seven CPU readings, in tenths of a percent. *)
Definition cpu_readings : list Z := [120; 340; 560; 410; 380; 900; 150].

(** A Linux host: 16 GB in all, 12 GB used, of which 4 GB are buffers and
    cache. *)
Definition linux_memory : SystemMonitor.MemoryInfo :=
  {| SystemMonitor.total := Some 16000000000;
     SystemMonitor.used := Some 12000000000;
     SystemMonitor.active := Some 9000000000;
     SystemMonitor.wired := None;
     SystemMonitor.compressed := None;
     SystemMonitor.buffers := Some 1000000000;
     SystemMonitor.cached := Some 3000000000;
     SystemMonitor.buffcache := None |}.

(** What [vm_stat] reports on a Mac with 16 KiB pages. *)
Definition mac_pages : SystemMonitor.PageCounts :=
  {| SystemMonitor.pageSize := 16384;
     SystemMonitor.activePages := 200000;
     SystemMonitor.speculativePages := 5000;
     SystemMonitor.wiredPages := 90000;
     SystemMonitor.compressedPages := 40000;
     SystemMonitor.inactivePages := 180000;
     SystemMonitor.fileBackedPages := 150000;
     SystemMonitor.purgeablePages := 3000;
     SystemMonitor.anonymousPages := 230000 |}.

(** A Mac that reports 4 GB in all. *)
Definition mac_memory : SystemMonitor.MemoryInfo :=
  {| SystemMonitor.total := Some 4000000000;
     SystemMonitor.used := Some 3900000000;
     SystemMonitor.active := Some 1500000000;
     SystemMonitor.wired := Some 1400000000;
     SystemMonitor.compressed := None;
     SystemMonitor.buffers := None;
     SystemMonitor.cached := None;
     SystemMonitor.buffcache := None |}.

(** The two places where the helper binary is looked for. *)
Definition key_server_paths : list string :=
  ["/app/node_modules/node-global-key-listener/bin/MacKeyServer";
   "/res/app.asar.unpacked/node_modules/node-global-key-listener/bin/MacKeyServer"].

(** A packaged application: the binary sits in the unpacked archive, as a
    regular file with mode [0o644]. *)
Definition packaged_host : MacKeyServer.Host :=
  {| MacKeyServer.files :=
       {[ "/res/app.asar.unpacked/node_modules/node-global-key-listener/bin/MacKeyServer"
          := MacKeyServer.octal [1; 0; 0; 6; 4; 4] ]};
     MacKeyServer.macKeyServerReady := false |}.

Definition never_fails (candidate : string) : bool := false.

(** The head of what [vm_stat] prints. *)
Definition vm_stat_output : string :=
  "Mach Virtual Memory Statistics: (page size of 16384 bytes)
Pages free:                               12345.
Pages active:                            200000.
Pages inactive:                          180000.
Pages speculative:                         5000.
Pages wired down:                         90000.
Pages purgeable:                           3000.
File-backed pages:                       150000.
Anonymous pages:                         230000.
Pages occupied by compressor:             40000.
".

(** The device was seen on COM3, then the machine woke up from a sleep
    with the device gone: the first reconnect timer is armed. *)
Definition woken_up : World :=
  world (turns [Handle (ConnectionChanged (Some plugged_in)); Handle Resume]
           (boot disconnected stopped_monitor true)).

(** Three attempts that fail, each in its own way: the port query is
    rejected; COM3 is not listed; COM3 is listed and the connection is
    refused. *)
Definition three_failures : list (list Reply) :=
  [[reply refused disconnected stopped_monitor];
   [reply (Fulfilled [com4]) disconnected stopped_monitor];
   [reply (Fulfilled [com3; com4]) disconnected stopped_monitor;
    reply refused disconnected stopped_monitor]].

End Examples.

(* ===================================================================== *)
(** ** System monitor: results *)
(* ===================================================================== *)

Section SystemMonitorFacts.
Import SystemMonitor.

(** The constructor leaves a number under the name of the method. *)
Lemma constructor_updateInterval (eventEmitter : string) :
  constructor eventEmitter !! "updateInterval" = Some (VNum 1000).
Proof. unfold constructor. by simplify_map_eq. Qed.

(** Whatever own property sits under the name, the call is a type error. *)
Lemma call_shadowed (o : gmap string value) (v : value) (args : list value) :
  o !! "updateInterval" = Some v ->
  call o "updateInterval" args
  = Throw (TypeError "updateInterval is not a function").
Proof.
  intros Hown. unfold call, dispatch, get. rewrite Hown. reflexivity.
Qed.

(** Starting and stopping keep the own property in place, so the method
    stays out of reach for the whole life of the object. *)
Lemma startMonitoring_keeps_shadow (o o' : gmap string value)
    (args : list value) (v : value) :
  is_Some (o !! "updateInterval") ->
  startMonitoring_begin o args = Normal (o', v) ->
  is_Some (o' !! "updateInterval").
Proof.
  intros Hown. unfold startMonitoring_begin.
  destruct (truthy (field o "isMonitoring")); intros [= <- _]; [done|].
  rewrite lookup_insert_eq. eauto.
Qed.

Lemma stopMonitoring_keeps_shadow (o o' : gmap string value) (v : value) :
  is_Some (o !! "updateInterval") ->
  stopMonitoring_body o = Normal (o', v) ->
  is_Some (o' !! "updateInterval").
Proof.
  intros Hown. unfold stopMonitoring_body.
  destruct (negb _); intros [= <- _]; [done|].
  destruct (truthy (field o "monitoringInterval"));
    by rewrite !lookup_insert_ne.
Qed.

(** The prototype method itself, had it been reachable (as in
    [SystemMonitor.prototype.updateInterval.call(monitor, ms)]): it throws
    exactly outside [100, 10000]; inside, it stores the interval and, when
    monitoring is active, stops it and starts it again. *)
Lemma updateInterval_body_range (this : gmap string value) (ms : Z) :
  this !! "stopMonitoring" = None ->
  this !! "startMonitoring" = None ->
  (ms < 100 \/ 10000 < ms ->
     updateInterval_body this [VNum ms]
     = Throw (Error "Interval must be between 100ms and 10000ms")) /\
  (100 <= ms <= 10000 ->
     exists this',
       updateInterval_body this [VNum ms] = Normal (this', VUndefined)
       /\ this' !! "updateInterval" = Some (VNum ms)
       /\ (truthy (field this "isMonitoring") = true ->
            this' !! "isMonitoring" = Some (VBool false)
            /\ field (startMonitoring_finish "interval" this') "isMonitoring"
               = VBool true)).
Proof.
  intros Hstop Hstart.
  split; intros Hr; unfold updateInterval_body, js_lt, js_gt; simpl.
  - destruct (Z.ltb_spec ms 100), (Z.gtb_spec ms 10000); try reflexivity; lia.
  - destruct (Z.ltb_spec ms 100), (Z.gtb_spec ms 10000); try lia. simpl.
    assert (Hmon : field (<["updateInterval":=VNum ms]> this) "isMonitoring"
                   = field this "isMonitoring").
    { unfold field. by rewrite lookup_insert_ne. }
    rewrite Hmon.
    destruct (truthy (field this "isMonitoring")) eqn:Hactive.
    + unfold dispatch at 1, get.
      rewrite lookup_insert_ne, Hstop by done. simpl.
      unfold stopMonitoring_body. rewrite Hmon, Hactive. simpl.
      destruct (truthy (field (<["updateInterval":=VNum ms]> this)
                          "monitoringInterval")).
      all: unfold dispatch, get, startMonitoring_begin, startMonitoring_finish,
             field.
      all: simplify_map_eq; simpl.
      all: unfold startMonitoring_begin, field; simplify_map_eq; simpl.
      all: eexists; split; [reflexivity|].
      all: by simplify_map_eq.
    + eexists. split; [reflexivity|]. split; [by rewrite lookup_insert_eq|].
      intros [=].
Qed.

(** C9 (the claim fails on the code): on an instance built by the
    constructor, [systemMonitor.updateInterval(ms)] throws a type error for
    every [ms], also inside [100, 10000]: the constructor stored the number
    1000 under the name [updateInterval], and that own property hides the
    prototype method.  The interval is therefore never updated. *)
Theorem C9_updateInterval_call_is_a_type_error
    (eventEmitter : string) (ms : Z) :
  SystemMonitor.call (SystemMonitor.constructor eventEmitter)
    "updateInterval" [SystemMonitor.VNum ms]
  = SystemMonitor.Throw
      (SystemMonitor.TypeError "updateInterval is not a function").
Proof.
  apply call_shadowed with (v := VNum 1000), constructor_updateInterval.
Qed.

(** The settings handlers swallow that error: once monitoring runs, asking
    for an interval of 500 ms logs a failure and changes nothing. *)
Lemma apply_updateInterval_changes_nothing (o : gmap string value) (n : Z) :
  o !! "updateInterval" = Some (VNum n) ->
  o !! "isActive" = None ->
  truthy (field o "isMonitoring") = true ->
  apply_updateInterval (Some o) (VNum 500) = Normal (Some o, true).
Proof.
  intros Hown Hact Hmon. unfold apply_updateInterval. simpl.
  unfold call at 1, dispatch, get. rewrite Hact. simpl. rewrite Hmon.
  by rewrite (call_shadowed o (VNum n)).
Qed.

End SystemMonitorFacts.

(* ===================================================================== *)
(** ** Stats multiplexer: results *)
(* ===================================================================== *)

Section StatsMultiplexerFacts.
Import StatsMultiplexer.
Context {SystemStats TypingStats : Type}.
Implicit Types (st : State SystemStats TypingStats)
               (evs : list (Event SystemStats TypingStats)).


(** The caches hold the most recent snapshot of each kind. *)
Lemma cached_system_stats evs st :
  lastSystemStats (run evs st) = latest_system_stats evs (lastSystemStats st).
Proof.
  revert st. induction evs as [|e evs IH]; intros st; [reflexivity|].
  change (run (e :: evs) st) with (run evs (step e st)). rewrite IH.
  destruct e; simpl; try reflexivity.
  unfold stats_tick. destruct (esp32SerialManager st) as [[[] ?]|]; reflexivity.
Qed.

Lemma cached_typing_stats evs st :
  lastTypingStats (run evs st) = latest_typing_stats evs (lastTypingStats st).
Proof.
  revert st. induction evs as [|e evs IH]; intros st; [reflexivity|].
  change (run (e :: evs) st) with (run evs (step e st)). rewrite IH.
  destruct e; simpl; try reflexivity.
  unfold stats_tick. destruct (esp32SerialManager st) as [[[] ?]|]; reflexivity.
Qed.

(** Only a tick sends, and a tick never touches the caches. *)
Lemma stats_tick_caches st :
  lastSystemStats (stats_tick st) = lastSystemStats st /\
  lastTypingStats (stats_tick st) = lastTypingStats st.
Proof.
  unfold stats_tick. destruct (esp32SerialManager st) as [[[] ?]|]; by simpl.
Qed.

(** C7: at a tick that comes after any trace of events, a status with
    [isConnected == false] makes the tick a no-op (nothing is sent and the
    state, which has no queue, is left as it was); with
    [isConnected == true] the tick issues exactly one [sendCombinedStats]
    call, carrying the system-stats and typing-stats snapshots most
    recently emitted before the tick. *)
Theorem C7_stats_tick_sends_latest_pair_iff_connected
    evs st (status : ConnectionStatus) :
  esp32SerialManager (run evs st) = Some status ->
  (isConnected status = false ->
     stats_tick (run evs st) = run evs st) /\
  (isConnected status = true ->
     sent (stats_tick (run evs st))
     = sent (run evs st)
       ++ [(latest_system_stats evs (lastSystemStats st),
            latest_typing_stats evs (lastTypingStats st))]).
Proof.
  intros Hm. unfold stats_tick. rewrite Hm. split; intros ->; [reflexivity|].
  simpl. by rewrite cached_system_stats, cached_typing_stats.
Qed.

(** Over a whole trace, the number of payloads sent is the number of ticks
    that found the device connected: nothing is held back for later. *)
Lemma sent_count evs st :
  length (sent (run evs st))
  = (length (sent st) + connected_ticks evs st)%nat.
Proof.
  revert st. induction evs as [|e evs IH]; intros st; simpl; [lia|].
  change (run (e :: evs) st) with (run evs (step e st)). rewrite IH.
  destruct e; simpl; try lia.
  unfold stats_tick. destruct (esp32SerialManager st) as [[[] ?]|]; simpl;
    rewrite ?length_app; simpl; lia.
Qed.

End StatsMultiplexerFacts.

(* ===================================================================== *)
(** ** Supervisor: the timer queue *)
(* ===================================================================== *)

Section TimerFacts.
Import Supervisor.

Lemma NoDup_tid_filter (P : Timer -> Prop) `{!forall t, Decision (P t)}
    (l : list Timer) :
  NoDup (tid <$> l) -> NoDup (tid <$> filter P l).
Proof.
  induction l as [|t l IH]; simpl; [done|].
  rewrite NoDup_cons. intros [Hnotin Hnd].
  rewrite filter_cons. destruct (decide (P t)); [|by auto].
  simpl. rewrite NoDup_cons. split; [|by auto].
  intros Hin. apply Hnotin.
  apply list_elem_of_fmap in Hin as (t' & -> & Hin').
  apply list_elem_of_filter in Hin' as [_ Hin'].
  by apply list_elem_of_fmap_2.
Qed.

(** Well-formedness looks at the queue and the two handles only. *)
Lemma timers_wf_frame (w w' : World) :
  timers w' = timers w ->
  nextTimerId w' = nextTimerId w ->
  resumeReconnectTimer w' = resumeReconnectTimer w ->
  keyboardRecoveryTimer w' = keyboardRecoveryTimer w ->
  timers_wf w -> timers_wf w'.
Proof.
  intros Ht Hn Hr Hk (Hnd & Hlt & Hh & Hb & Hd). unfold timers_wf.
  rewrite Ht, Hn, Hr, Hk. split; [done|]. split; [done|]. split; [|split].
  - intros t Hin. specialize (Hh t Hin).
    destruct (tkind t); simpl in *; congruence.
  - intros k h Hk'. apply (Hb k). destruct k; simpl in *; congruence.
  - done.
Qed.


Lemma timers_wf_clearTimeout (h : nat) (w : World) :
  timers_wf w -> timers_wf (clearTimeout h w).
Proof.
  intros (Hnd & Hlt & Hh & Hb & Hd). unfold timers_wf, clearTimeout. simpl.
  split; [by apply NoDup_tid_filter|].
  split; [intros t [_ Hin]%list_elem_of_filter; by auto|].
  split; [|split; [|done]].
  - intros t [_ Hin]%list_elem_of_filter.
    specialize (Hh t Hin). by destruct (tkind t).
  - intros k h' Hk. apply (Hb k). by destruct k.
Qed.

(** In a well-formed queue the armed timers of a retry state all carry the
    handle that the state holds. *)
Lemma outstanding_handle (k : TimerKind) (w : World) (t : Timer) :
  timers_wf w -> t ∈ outstanding k w -> handle_of k w = Some (tid t).
Proof.
  intros (_ & _ & Hh & _) [Hk Hin]%list_elem_of_filter.
  rewrite <- Hk. by apply Hh.
Qed.

Lemma outstanding_no_handle (k : TimerKind) (w : World) :
  timers_wf w -> handle_of k w = None -> outstanding k w = [].
Proof.
  intros Hwf Hnone. destruct (outstanding k w) as [|t l] eqn:Ho; [done|].
  assert (Hin : t ∈ outstanding k w) by (rewrite Ho; left).
  apply (outstanding_handle k w t Hwf) in Hin. congruence.
Qed.

(** At most one timer is armed per retry state. *)
Lemma outstanding_at_most_one (k : TimerKind) (w : World) :
  timers_wf w -> (length (outstanding k w) <= 1)%nat.
Proof.
  intros Hwf. destruct (outstanding k w) as [|t1 [|t2 l]] eqn:Ho;
    simpl; [lia..|exfalso].
  assert (H1 : t1 ∈ outstanding k w) by (rewrite Ho; left).
  assert (H2 : t2 ∈ outstanding k w) by (rewrite Ho; right; left).
  pose proof (outstanding_handle k w t1 Hwf H1) as E1.
  pose proof (outstanding_handle k w t2 Hwf H2) as E2.
  assert (Hid : tid t1 = tid t2) by congruence.
  destruct Hwf as (Hnd & _).
  assert (Hsub : NoDup (tid <$> outstanding k w))
    by (by apply NoDup_tid_filter).
  rewrite Ho in Hsub. simpl in Hsub.
  apply NoDup_cons in Hsub as [Hnotin _]. apply Hnotin. rewrite Hid. left.
Qed.

(** Clearing the timer of a retry state. *)
Lemma clear_timer_handle (k : TimerKind) (w : World) :
  handle_of k (clear_timer k w) = None.
Proof.
  destruct k; simpl;
    [unfold clearResumeReconnectTimer | unfold clearKeyboardRecoveryTimer].
  - by destruct (resumeReconnectTimer w) eqn:E.
  - by destruct (keyboardRecoveryTimer w) eqn:E.
Qed.

Lemma clear_timer_cleared (k : TimerKind) (w : World) :
  handle_of k w = None -> clear_timer k w = w.
Proof.
  destruct k; simpl; intros E;
    [unfold clearResumeReconnectTimer | unfold clearKeyboardRecoveryTimer];
    by rewrite E.
Qed.

Lemma clear_timer_idempotent (k : TimerKind) (w : World) :
  clear_timer k (clear_timer k w) = clear_timer k w.
Proof. apply clear_timer_cleared, clear_timer_handle. Qed.

Lemma timers_wf_clear_timer (k : TimerKind) (w : World) :
  timers_wf w -> timers_wf (clear_timer k w).
Proof.
  intros Hwf.
  destruct k; simpl;
    [unfold clearResumeReconnectTimer | unfold clearKeyboardRecoveryTimer].
  - destruct (resumeReconnectTimer w) as [h|] eqn:E; [|done].
    pose proof (timers_wf_clearTimeout h w Hwf) as (Hnd & Hlt & Hh & Hb & Hd).
    split; [done|]. split; [done|]. split; [|split; [|done]].
    + intros t Hin. specialize (Hh t Hin).
      destruct (tkind t) eqn:Ek; simpl in *; [|done].
      apply list_elem_of_filter in Hin as [Hne _]. congruence.
    + intros [] h' Hk; [done|]. by apply (Hb KeyboardRecovery).
  - destruct (keyboardRecoveryTimer w) as [h|] eqn:E; [|done].
    pose proof (timers_wf_clearTimeout h w Hwf) as (Hnd & Hlt & Hh & Hb & Hd).
    split; [done|]. split; [done|]. split; [|split; [|done]].
    + intros t Hin. specialize (Hh t Hin).
      destruct (tkind t) eqn:Ek; simpl in *; [done|].
      apply list_elem_of_filter in Hin as [Hne _]. congruence.
    + intros [] h' Hk; [|done]. by apply (Hb ResumeReconnect).
Qed.

Lemma outstanding_clear_timer (k : TimerKind) (w : World) :
  timers_wf w -> outstanding k (clear_timer k w) = [].
Proof.
  intros Hwf. apply outstanding_no_handle;
    [by apply timers_wf_clear_timer | apply clear_timer_handle].
Qed.


Lemma nextTimerId_clear_timer (k : TimerKind) (w : World) :
  nextTimerId (clear_timer k w) = nextTimerId w.
Proof.
  destruct k; simpl;
    [unfold clearResumeReconnectTimer | unfold clearKeyboardRecoveryTimer].
  - by destruct (resumeReconnectTimer w).
  - by destruct (keyboardRecoveryTimer w).
Qed.

End TimerFacts.

(* ===================================================================== *)
(** ** Supervisor: scheduling and back-off *)
(* ===================================================================== *)

Section ScheduleFacts.
Import Supervisor.

Lemma schedule_closed (k : TimerKind) (d : Z) (w : World) :
  can_schedule k w = false -> schedule k d w = w.
Proof.
  destruct k; simpl;
    [unfold scheduleResumeReconnect | unfold scheduleKeyboardRecovery].
  - by destruct (systemSuspended w).
  - by destruct (_ || _).
Qed.

(** With the guard open, scheduling clears the old timer and arms a new
    one under a fresh handle. *)
Lemma schedule_open (k : TimerKind) (d : Z) (w : World) :
  can_schedule k w = true ->
  timers (schedule k d w)
  = timers (clear_timer k w)
    ++ [{| tid := nextTimerId w; tkind := k; tdelay := d |}]
  /\ nextTimerId (schedule k d w) = S (nextTimerId w)
  /\ handle_of k (schedule k d w) = Some (nextTimerId w)
  /\ (forall k', k' <> k -> handle_of k' (schedule k d w) = handle_of k' w).
Proof.
  destruct k; simpl;
    [unfold scheduleResumeReconnect | unfold scheduleKeyboardRecovery].
  - destruct (systemSuspended w); [done|]. intros _.
    pose proof (nextTimerId_clear_timer ResumeReconnect w) as Hn.
    simpl in *. rewrite Hn. repeat split.
    intros [] Hne; [done|]. simpl. unfold clearResumeReconnectTimer.
    by destruct (resumeReconnectTimer w).
  - destruct (_ || _); [done|]. intros _.
    pose proof (nextTimerId_clear_timer KeyboardRecovery w) as Hn.
    simpl in *. rewrite Hn. repeat split.
    intros [] Hne; [|done]. simpl. unfold clearKeyboardRecoveryTimer.
    by destruct (keyboardRecoveryTimer w).
Qed.

Lemma handle_of_clear_timer_other (k k' : TimerKind) (w : World) :
  k' <> k -> handle_of k' (clear_timer k w) = handle_of k' w.
Proof.
  destruct k, k'; try done; intros _; simpl;
    unfold clearResumeReconnectTimer, clearKeyboardRecoveryTimer.
  - by destruct (resumeReconnectTimer w).
  - by destruct (keyboardRecoveryTimer w).
Qed.

Lemma timers_wf_schedule (k : TimerKind) (d : Z) (w : World) :
  timers_wf w -> timers_wf (schedule k d w).
Proof.
  intros Hwf. destruct (can_schedule k w) eqn:Hg;
    [|by rewrite schedule_closed].
  destruct (schedule_open k d w Hg) as (Ht & Hn & Hk & Hother).
  pose proof (timers_wf_clear_timer k w Hwf) as (Hnd & Hlt & Hh & Hb & Hd).
  pose proof (outstanding_clear_timer k w Hwf) as Hnone.
  rewrite nextTimerId_clear_timer in Hlt, Hb.
  unfold timers_wf. rewrite Ht, Hn. split; [|split; [|split; [|split]]].
  - rewrite fmap_app. apply NoDup_app. split; [done|]. split.
    + intros i (t & -> & Hin)%list_elem_of_fmap Hi.
      apply list_elem_of_singleton in Hi. specialize (Hlt t Hin).
      simpl in Hi. lia.
    + apply NoDup_singleton.
  - intros t [Hin| ->%list_elem_of_singleton]%elem_of_app; simpl;
      [specialize (Hlt t Hin)|]; lia.
  - intros t [Hin| ->%list_elem_of_singleton]%elem_of_app; simpl; [|done].
    assert (Hne : tkind t <> k).
    { intros Hk'. eapply (filter_nil_not_elem_of _ _ t Hnone); done. }
    rewrite Hother by done. specialize (Hh t Hin).
    by rewrite handle_of_clear_timer_other in Hh.
  - intros k' h Hk'. destruct (decide (k' = k)) as [->|Hne].
    + rewrite Hk in Hk'. injection Hk' as <-. lia.
    + rewrite Hother in Hk' by done.
      rewrite <- (handle_of_clear_timer_other k k') in Hk' by done.
      specialize (Hb k' h Hk'). lia.
  - intros h Hr Hkb.
    assert (Hlow : forall k', k' <> k -> handle_of k' w = Some h ->
                              (h < nextTimerId w)%nat).
    { intros k' Hne Hk'.
      rewrite <- (handle_of_clear_timer_other k k') in Hk' by done.
      by apply (Hb k'). }
    destruct k.
    + change (handle_of ResumeReconnect
                (schedule ResumeReconnect d w) = Some h) in Hr.
      change (handle_of KeyboardRecovery
                (schedule ResumeReconnect d w) = Some h) in Hkb.
      rewrite Hk in Hr. injection Hr as <-.
      rewrite Hother in Hkb by done.
      specialize (Hlow KeyboardRecovery ltac:(done) Hkb). lia.
    + change (handle_of ResumeReconnect
                (schedule KeyboardRecovery d w) = Some h) in Hr.
      change (handle_of KeyboardRecovery
                (schedule KeyboardRecovery d w) = Some h) in Hkb.
      rewrite Hk in Hkb. injection Hkb as <-.
      rewrite Hother in Hr by done.
      specialize (Hlow ResumeReconnect ltac:(done) Hr). lia.
Qed.

(** ... and that new timer is then the only one armed for the state. *)
Lemma outstanding_schedule (k : TimerKind) (d : Z) (w : World) :
  timers_wf w -> can_schedule k w = true ->
  outstanding k (schedule k d w)
  = [{| tid := nextTimerId w; tkind := k; tdelay := d |}].
Proof.
  intros Hwf Hg. destruct (schedule_open k d w Hg) as (Ht & _).
  unfold outstanding. rewrite Ht, filter_app.
  pose proof (outstanding_clear_timer k w Hwf) as Hnone.
  unfold outstanding in Hnone. rewrite Hnone. simpl.
  rewrite filter_cons. simpl. by destruct (decide (k = k)).
Qed.

Lemma armed_with_schedule (k : TimerKind) (d : Z) (w : World) :
  can_schedule k w = true -> armed_with k d w (schedule k d w).
Proof.
  intros Hg. destruct (schedule_open k d w Hg) as (Ht & _ & Hk & _).
  split; [done|]. rewrite Ht. apply elem_of_app. right. left.
Qed.

(** The failure handlers: below the limit they schedule with the back-off
    delay, at the limit they clear. *)
Lemma failed_below_limit (k : TimerKind) (n : Z) (w : World) :
  n < limit_of k ->
  failed k n w
  = schedule k (Z.min (base_of k * 2 ^ (n - 1)) (max_of k)) w.
Proof.
  intros Hn. destruct k; simpl in *;
    [unfold resumeReconnect_failed | unfold keyboardRecovery_failed].
  - destruct (Z.leb_spec RESUME_RETRY_LIMIT n); [lia|done].
  - destruct (Z.leb_spec KEYBOARD_RECOVERY_LIMIT n); [lia|done].
Qed.

Lemma failed_at_limit (k : TimerKind) (n : Z) (w : World) :
  limit_of k <= n -> failed k n w = clear_timer k w.
Proof.
  intros Hn. destruct k; simpl in *;
    [unfold resumeReconnect_failed | unfold keyboardRecovery_failed].
  - destruct (Z.leb_spec RESUME_RETRY_LIMIT n); [done|lia].
  - destruct (Z.leb_spec KEYBOARD_RECOVERY_LIMIT n); [done|lia].
Qed.

Lemma timers_wf_failed (k : TimerKind) (n : Z) (w : World) :
  timers_wf w -> timers_wf (failed k n w).
Proof.
  intros Hwf. destruct (Z.lt_ge_cases n (limit_of k)).
  - rewrite failed_below_limit by done. by apply timers_wf_schedule.
  - rewrite failed_at_limit by done. by apply timers_wf_clear_timer.
Qed.

End ScheduleFacts.

Section BackoffFacts.
Import Supervisor.

Lemma attempts_of_clear_timer (k k' : TimerKind) (w : World) :
  attempts_of k' (clear_timer k w) = attempts_of k' w.
Proof.
  destruct k, k'; simpl;
    unfold clearResumeReconnectTimer, clearKeyboardRecoveryTimer;
    try destruct (resumeReconnectTimer w);
    try destruct (keyboardRecoveryTimer w); reflexivity.
Qed.

Lemma attempts_of_schedule (k k' : TimerKind) (d : Z) (w : World) :
  attempts_of k' (schedule k d w) = attempts_of k' w.
Proof.
  destruct k; simpl;
    [unfold scheduleResumeReconnect | unfold scheduleKeyboardRecovery].
  - destruct (systemSuspended w); [done|].
    rewrite <- (attempts_of_clear_timer ResumeReconnect k' w).
    by destruct k'.
  - destruct (_ || _); [done|].
    rewrite <- (attempts_of_clear_timer KeyboardRecovery k' w).
    by destruct k'.
Qed.

Lemma attempts_of_failed (k k' : TimerKind) (n : Z) (w : World) :
  attempts_of k' (failed k n w) = attempts_of k' w.
Proof.
  destruct (Z.lt_ge_cases n (limit_of k)).
  - rewrite failed_below_limit by done. apply attempts_of_schedule.
  - rewrite failed_at_limit by done. apply attempts_of_clear_timer.
Qed.

(** What a failure below the limit leaves behind, whenever it is handled:
    one timer, armed with the back-off delay of that attempt. *)
Lemma failed_arms_backoff (k : TimerKind) (n : Z) (w : World) :
  n < limit_of k -> timers_wf w -> can_schedule k w = true ->
  handle_of k (failed k n w) = Some (nextTimerId w) /\
  outstanding k (failed k n w)
  = [{| tid := nextTimerId w; tkind := k;
        tdelay := Z.min (base_of k * 2 ^ (n - 1)) (max_of k) |}].
Proof.
  intros Hn Hwf Hg. rewrite failed_below_limit by done. split.
  - by destruct (schedule_open k (Z.min (base_of k * 2 ^ (n - 1)) (max_of k))
                   w Hg) as (_ & _ & ? & _).
  - by apply outstanding_schedule.
Qed.

(** ... and while the system is suspended it leaves the world alone. *)
Lemma failed_while_suspended (k : TimerKind) (n : Z) (w : World) :
  n < limit_of k -> systemSuspended w = true -> failed k n w = w.
Proof.
  intros Hn Hs. rewrite failed_below_limit by done.
  apply schedule_closed. destruct k; simpl; by rewrite Hs.
Qed.

(** A port is found by [ports.find(port => port.path === p)] exactly when
    some listed port has the path [p]. *)
Lemma find_port_listed (p : string) (ports : list PortInfo) :
  lists_port p ports = true ->
  exists x, List.find (port_matches (Some p)) ports = Some x.
Proof.
  unfold lists_port. intros Hin%bool_decide_eq_true.
  induction ports as [|x ports IH]; [by apply elem_of_nil in Hin|].
  simpl. unfold port_matches at 1.
  destruct (decide (Some (path x) = Some p)) as [Heq|Hne].
  - rewrite bool_decide_eq_true_2 by done. by exists x.
  - rewrite bool_decide_eq_false_2 by done. apply IH.
    rewrite fmap_cons in Hin. apply elem_of_cons in Hin as [->|Hin]; done.
Qed.

Lemma find_port_not_listed (p : string) (ports : list PortInfo) :
  lists_port p ports = false ->
  List.find (port_matches (Some p)) ports = None.
Proof.
  unfold lists_port. intros Hnotin%bool_decide_eq_false.
  induction ports as [|x ports IH]; [done|].
  simpl. unfold port_matches at 1. rewrite fmap_cons in Hnotin.
  apply not_elem_of_cons in Hnotin as [Hne Hnotin].
  rewrite bool_decide_eq_false_2 by congruence. by apply IH.
Qed.

(** A reconnect attempt that is due and whose calls answer with a failure
    ends in its [catch] block, with the attempt number it took at its
    start. *)
Lemma attemptResumeReconnect_fails (p : string) (w : World)
    (status : ConnectionStatus) (replies : list Reply) :
  timers_wf w -> systemSuspended w = false ->
  esp32SerialManager w = Some status -> isConnected status = false ->
  pendingResumePort w = Some p -> p <> "" ->
  reconnect_answers_fail p replies = true ->
  exists w2 r,
    last replies = Some r
    /\ result replies (attemptResumeReconnect w)
       = Some (resumeReconnect_failed (resumeReconnectAttempts w + 1) w2)
    /\ timers_wf w2 /\ systemSuspended w2 = false
    /\ pendingResumePort w2 = Some p
    /\ resumeReconnectAttempts w2 = resumeReconnectAttempts w + 1
    /\ esp32SerialManager w2 = Some (statusAfter r)
    /\ nextTimerId w2 = nextTimerId w.
Proof.
  intros Hwf Hs Hesp Hconn Hpend Hp Hfail.
  unfold attemptResumeReconnect. rewrite Hesp, Hpend, Hs, Hconn.
  simpl truthy_string. destruct (String.eqb_spec p "") as [|_]; [done|].
  cbn [negb orb].
  destruct replies as [|r1 [|r2 [|r3 rest]]]; [done| | |]; cycle 2.
  { simpl in Hfail. by destruct (outcome r1), (outcome r2). }
  - (* one answer: the query is rejected, or the port is not listed *)
    set (w1 := set_collaborators (statusAfter r1) (monitorAfter r1)
                 (windowAfter r1)
                 (set_resumeReconnectAttempts (resumeReconnectAttempts w + 1)
                    w)).
    assert (Hwf1 : timers_wf w1)
      by (eapply timers_wf_frame; [..|exact Hwf]; reflexivity).
    assert (He1 : esp32SerialManager w1 = Some (statusAfter r1))
      by (subst w1; simpl; by rewrite Hesp).
    exists w1, r1. split; [done|]. split; [|by split_and!].
    cbn [result]. fold w1. unfold resumeReconnect_afterPorts.
    simpl in Hfail. destruct (outcome r1) as [ports|e]; [|done].
    apply negb_true_iff in Hfail.
    replace (pendingResumePort w1) with (Some p) by (symmetry; exact Hpend).
    by rewrite (find_port_not_listed p ports Hfail).
  - (* two answers: the port is listed and the connection is rejected *)
    set (w1 := set_collaborators (statusAfter r1) (monitorAfter r1)
                 (windowAfter r1)
                 (set_resumeReconnectAttempts (resumeReconnectAttempts w + 1)
                    w)).
    set (w2 := set_collaborators (statusAfter r2) (monitorAfter r2)
                 (windowAfter r2) w1).
    assert (Hwf2 : timers_wf w2)
      by (eapply timers_wf_frame; [..|exact Hwf]; reflexivity).
    assert (He2 : esp32SerialManager w2 = Some (statusAfter r2))
      by (subst w2 w1; simpl; by rewrite Hesp).
    exists w2, r2. split; [done|]. split; [|by split_and!].
    cbn [result]. fold w1. unfold resumeReconnect_afterPorts.
    simpl in Hfail. destruct (outcome r1) as [ports|e]; [|done].
    destruct (outcome r2) as [|e2] eqn:Ho2; [done|].
    replace (pendingResumePort w1) with (Some p) by (symmetry; exact Hpend).
    destruct (find_port_listed p ports Hfail) as [x ->].
    cbn [result]. fold w2. unfold resumeReconnect_afterConnect.
    by rewrite Ho2.
Qed.

(** ... and so does a recovery attempt. *)
Lemma attemptKeyboardRecovery_fails (w : World) (km : KeyboardMonitor)
    (replies : list Reply) :
  timers_wf w -> systemSuspended w = false ->
  keyboardMonitor w = Some km ->
  keyboardListener km = false \/ fallbackMode km = true ->
  recovery_answers_fail replies = true ->
  exists w2,
    result replies (attemptKeyboardRecovery w)
    = Some (keyboardRecovery_failed (keyboardRecoveryAttempts w + 1) w2)
    /\ timers_wf w2 /\ systemSuspended w2 = false
    /\ is_Some (keyboardMonitor w2)
    /\ keyboardRecoveryAttempts w2 = keyboardRecoveryAttempts w + 1
    /\ nextTimerId w2 = nextTimerId w.
Proof.
  intros Hwf Hs Hkm Hsick Hfail.
  unfold attemptKeyboardRecovery. rewrite Hkm, Hs.
  replace (keyboardListener km && negb (fallbackMode km)) with false
    by (destruct Hsick as [-> | ->]; [done|by rewrite andb_false_r]).
  destruct replies as [|r1 [|r2 [|r3 rest]]]; [done| | |]; cycle 2.
  { simpl in Hfail. by destruct (outcome r1), (outcome r2). }
  - set (w1 := set_collaborators (statusAfter r1) (monitorAfter r1)
                 (windowAfter r1)
                 (set_keyboardRecoveryAttempts
                    (keyboardRecoveryAttempts w + 1) w)).
    assert (Hwf1 : timers_wf w1)
      by (eapply timers_wf_frame; [..|exact Hwf]; reflexivity).
    assert (Hk1 : keyboardMonitor w1 = Some (monitorAfter r1))
      by (subst w1; simpl; by rewrite Hkm).
    exists w1. split; [|split_and!; try done; by rewrite Hk1].
    cbn [result]. fold w1. unfold keyboardRecovery_afterStop.
    simpl in Hfail. by destruct (outcome r1).
  - set (w1 := set_collaborators (statusAfter r1) (monitorAfter r1)
                 (windowAfter r1)
                 (set_keyboardRecoveryAttempts
                    (keyboardRecoveryAttempts w + 1) w)).
    set (w2 := set_collaborators (statusAfter r2) (monitorAfter r2)
                 (windowAfter r2) w1).
    assert (Hwf2 : timers_wf w2)
      by (eapply timers_wf_frame; [..|exact Hwf]; reflexivity).
    assert (Hk1 : keyboardMonitor w1 = Some (monitorAfter r1))
      by (subst w1; simpl; by rewrite Hkm).
    assert (Hk2 : keyboardMonitor w2 = Some (monitorAfter r2))
      by (subst w2 w1; simpl; by rewrite Hkm).
    exists w2. split; [|split_and!; try done; by rewrite Hk2].
    cbn [result]. fold w1. unfold keyboardRecovery_afterStop.
    simpl in Hfail. destruct (outcome r1) as [ports|e]; [|done].
    destruct (outcome r2) as [|e2] eqn:Ho2; [done|].
    rewrite Hk1. cbn [result]. fold w2.
    unfold keyboardRecovery_afterStart. by rewrite Ho2.
Qed.

(** Steps that arm nothing but the timer of the failed attempt. *)
Lemma arms_only_same (k : TimerKind) (d : Z) (w0 w : World) :
  timers w = timers w0 -> arms_only k d w0 w.
Proof. intros Ht _ t Hin. left. unfold outstanding in *. by rewrite <- Ht. Qed.

Lemma arms_only_cleared (k : TimerKind) (d : Z) (w0 w : World) :
  (timers_wf w0 -> outstanding k w = []) -> arms_only k d w0 w.
Proof.
  intros Ho Hwf t Hin. rewrite (Ho Hwf) in Hin. by apply elem_of_nil in Hin.
Qed.

Lemma arms_only_failed (k : TimerKind) (n : Z) (w0 : World) :
  n < limit_of k ->
  arms_only k (Z.min (base_of k * 2 ^ (n - 1)) (max_of k)) w0
    (failed k n w0).
Proof.
  intros Hn Hwf t Hin. rewrite failed_below_limit in Hin by done.
  destruct (can_schedule k w0) eqn:Hg.
  - rewrite outstanding_schedule in Hin by done.
    apply list_elem_of_singleton in Hin. by right.
  - rewrite schedule_closed in Hin by done. by left.
Qed.

(** Under any interleaving: whatever the [n]-th attempt arms, at its start
    or whenever one of its calls settles, is armed with the back-off delay
    of [n]. *)
Lemma arms_only_attempt (k : TimerKind) (n : Z) (w : World) :
  n < limit_of k -> attempts_of k w = n - 1 ->
  task_steps (arms_only k (Z.min (base_of k * 2 ^ (n - 1)) (max_of k))) w
    (attempt k w).
Proof.
  intros Hn Hattempts.
  assert (Hsucc : forall w0 w1,
            timers w1 = timers w0 -> nextTimerId w1 = nextTimerId w0 ->
            resumeReconnectTimer w1 = resumeReconnectTimer w0 ->
            keyboardRecoveryTimer w1 = keyboardRecoveryTimer w0 ->
            arms_only k (Z.min (base_of k * 2 ^ (n - 1)) (max_of k)) w0
              (clear_timer k w1)).
  { intros w0 w1 E1 E2 E3 E4. apply arms_only_cleared. intros Hwf0.
    apply outstanding_clear_timer.
    by apply (timers_wf_frame w0 w1). }
  destruct k; simpl in Hattempts; simpl attempt.
  - unfold attemptResumeReconnect.
    replace (resumeReconnectAttempts w + 1) with n by lia.
    destruct (esp32SerialManager w) as [status|];
      [|by apply arms_only_same].
    destruct (negb _ || _); [by apply arms_only_same|].
    destruct (isConnected status).
    { cbn [task_steps]. unfold resumeReconnect_succeeded.
      by apply (Hsucc w). }
    simpl. split; [by apply arms_only_same|]. intros r w1.
    unfold resumeReconnect_afterPorts. destruct r as [ports|e]; simpl;
      [|exact (arms_only_failed ResumeReconnect n w1 Hn)].
    destruct (List.find _ ports); simpl;
      [|exact (arms_only_failed ResumeReconnect n w1 Hn)].
    split; [by apply arms_only_same|]. intros r2 w2.
    unfold resumeReconnect_afterConnect. destruct r2 as [|e2]; simpl;
      [|exact (arms_only_failed ResumeReconnect n w2 Hn)].
    unfold resumeReconnect_succeeded. by apply (Hsucc w2).
  - unfold attemptKeyboardRecovery.
    replace (keyboardRecoveryAttempts w + 1) with n by lia.
    destruct (keyboardMonitor w) as [km|]; [|by apply arms_only_same].
    destruct (systemSuspended w); [by apply arms_only_same|].
    destruct (keyboardListener km && negb (fallbackMode km)).
    { cbn [task_steps]. apply arms_only_cleared. intros Hwf.
      exact (outstanding_clear_timer KeyboardRecovery w Hwf). }
    simpl. split; [by apply arms_only_same|]. intros r w1.
    unfold keyboardRecovery_afterStop. destruct r as [ports|e]; simpl;
      [|exact (arms_only_failed KeyboardRecovery n w1 Hn)].
    destruct (keyboardMonitor w1); simpl;
      [|exact (arms_only_failed KeyboardRecovery n w1 Hn)].
    split; [by apply arms_only_same|]. intros r2 w2.
    unfold keyboardRecovery_afterStart. destruct r2 as [|e2]; simpl;
      [|exact (arms_only_failed KeyboardRecovery n w2 Hn)].
    unfold keyboardRecovery_succeeded. by apply (Hsucc w2).
Qed.

(** C1: take the [n]-th attempt of either retry state, [1 <= n < limit],
    that is due (the system awake; for the device a port remembered and
    the device disconnected, for the keyboard a listener that is dead or
    in fallback mode) and let its calls answer with a failure.  Run to its
    end, the attempt leaves the counter at [n] and exactly one timer armed
    for that state, under a fresh handle and with the delay
    [min(base * 2^(n-1), max)].  And however the event loop interleaves
    other work with the attempt, a timer that it leaves armed for that state
    was armed before or is the fresh one with this delay.  For the device
    the delays are 1000, 2000, 4000, 8000, 16000 and then 30000 from the
    sixth attempt on; for the keyboard 2000, 4000, 8000, 16000. *)
Theorem C1_backoff_delay_after_failed_attempt
    (k : TimerKind) (n : Z) (w : World) (replies : list Reply) :
  1 <= n < limit_of k ->
  timers_wf w ->
  attempts_of k w = n - 1 ->
  attempt_is_due k w ->
  answers_fail k w replies = true ->
  let delay := Z.min (base_of k * 2 ^ (n - 1)) (max_of k) in
  (exists w',
     result replies (attempt k w) = Some w'
     /\ attempts_of k w' = n
     /\ handle_of k w' = Some (nextTimerId w)
     /\ outstanding k w'
        = [{| tid := nextTimerId w; tkind := k; tdelay := delay |}])
  /\ task_steps (arms_only k delay) w (attempt k w)
  /\ map (fun i => Z.min (base_of ResumeReconnect * 2 ^ (i - 1))
                     (max_of ResumeReconnect))
       [1; 2; 3; 4; 5; 6; 7; 8; 9]
     = [1000; 2000; 4000; 8000; 16000; 30000; 30000; 30000; 30000]
  /\ map (fun i => Z.min (base_of KeyboardRecovery * 2 ^ (i - 1))
                     (max_of KeyboardRecovery))
       [1; 2; 3; 4]
     = [2000; 4000; 8000; 16000].
Proof.
  intros Hn Hwf Hattempts [Hs Hdue] Hfail delay.
  split; [|split; [apply arms_only_attempt; [lia|done]|split; reflexivity]].
  destruct k; simpl in Hattempts, Hdue, Hfail.
  - destruct Hdue as (status & p & Hesp & Hconn & Hpend & Hp).
    rewrite Hpend in Hfail.
    destruct (attemptResumeReconnect_fails p w status replies)
      as (w2 & r & _ & Hres & Hwf2 & Hs2 & _ & Ha2 & _ & Hn2); [done..|].
    replace (resumeReconnectAttempts w + 1) with n in * by lia.
    exists (resumeReconnect_failed n w2). split; [exact Hres|].
    split; [by rewrite (attempts_of_failed ResumeReconnect ResumeReconnect)|].
    rewrite <- Hn2.
    apply (failed_arms_backoff ResumeReconnect n w2); [lia|done|].
    simpl. by rewrite Hs2.
  - destruct Hdue as (km & Hkm & Hsick).
    destruct (attemptKeyboardRecovery_fails w km replies)
      as (w2 & Hres & Hwf2 & Hs2 & Hk2 & Ha2 & Hn2); [done..|].
    replace (keyboardRecoveryAttempts w + 1) with n in * by lia.
    exists (keyboardRecovery_failed n w2). split; [exact Hres|].
    split;
      [by rewrite (attempts_of_failed KeyboardRecovery KeyboardRecovery)|].
    rewrite <- Hn2.
    apply (failed_arms_backoff KeyboardRecovery n w2); [lia|done|].
    simpl. rewrite Hs2. simpl.
    by rewrite bool_decide_eq_true_2.
Qed.

End BackoffFacts.

(* ===================================================================== *)
(** ** Supervisor: the timer queue stays well formed *)
(* ===================================================================== *)

Section WellFormedQueue.
Import Supervisor.

Lemma wf_clearResumeReconnectTimer w :
  timers_wf w -> timers_wf (clearResumeReconnectTimer w).
Proof. exact (timers_wf_clear_timer ResumeReconnect w). Qed.

Lemma wf_clearKeyboardRecoveryTimer w :
  timers_wf w -> timers_wf (clearKeyboardRecoveryTimer w).
Proof. exact (timers_wf_clear_timer KeyboardRecovery w). Qed.

Lemma wf_scheduleResumeReconnect d w :
  timers_wf w -> timers_wf (scheduleResumeReconnect d w).
Proof. exact (timers_wf_schedule ResumeReconnect d w). Qed.

Lemma wf_scheduleKeyboardRecovery d w :
  timers_wf w -> timers_wf (scheduleKeyboardRecovery d w).
Proof. exact (timers_wf_schedule KeyboardRecovery d w). Qed.

Lemma wf_resumeReconnect_failed n w :
  timers_wf w -> timers_wf (resumeReconnect_failed n w).
Proof. exact (timers_wf_failed ResumeReconnect n w). Qed.

Lemma wf_keyboardRecovery_failed n w :
  timers_wf w -> timers_wf (keyboardRecovery_failed n w).
Proof. exact (timers_wf_failed KeyboardRecovery n w). Qed.

Lemma wf_set_systemSuspended v w :
  timers_wf w -> timers_wf (set_systemSuspended v w).
Proof. by apply timers_wf_frame. Qed.

Lemma wf_set_pendingResumePort v w :
  timers_wf w -> timers_wf (set_pendingResumePort v w).
Proof. by apply timers_wf_frame. Qed.

Lemma wf_set_resumeReconnectAttempts v w :
  timers_wf w -> timers_wf (set_resumeReconnectAttempts v w).
Proof. by apply timers_wf_frame. Qed.

Lemma wf_set_keyboardRecoveryAttempts v w :
  timers_wf w -> timers_wf (set_keyboardRecoveryAttempts v w).
Proof. by apply timers_wf_frame. Qed.

Lemma wf_set_keyboardMonitor v w :
  timers_wf w -> timers_wf (set_keyboardMonitor v w).
Proof. by apply timers_wf_frame. Qed.

Lemma wf_set_uiLog v w : timers_wf w -> timers_wf (set_uiLog v w).
Proof. by apply timers_wf_frame. Qed.

Lemma wf_set_collaborators s km win w :
  timers_wf w -> timers_wf (set_collaborators s km win w).
Proof. by apply timers_wf_frame. Qed.

Lemma wf_ui_send m w : timers_wf w -> timers_wf (ui_send m w).
Proof. unfold ui_send. destruct (mainWindow w); [|done]. apply wf_set_uiLog. Qed.

Lemma wf_splice_session s w : timers_wf w -> timers_wf (splice_session s w).
Proof.
  unfold splice_session. intros Hwf.
  repeat case_match; auto using wf_set_keyboardMonitor.
Qed.

End WellFormedQueue.

Create HintDb wf discriminated.
#[global] Hint Resolve
  wf_clearResumeReconnectTimer wf_clearKeyboardRecoveryTimer
  wf_scheduleResumeReconnect wf_scheduleKeyboardRecovery
  wf_resumeReconnect_failed wf_keyboardRecovery_failed
  wf_set_systemSuspended wf_set_pendingResumePort
  wf_set_resumeReconnectAttempts wf_set_keyboardRecoveryAttempts
  wf_set_keyboardMonitor wf_set_uiLog wf_set_collaborators
  wf_ui_send wf_splice_session timers_wf_clearTimeout : wf.

Section ReachableQueue.
Import Supervisor.

Lemma task_keeps_catch_log (P : World -> Prop) (t : Task) :
  task_keeps P t -> task_keeps P (catch_log t).
Proof.
  induction t as [w|e w|c w k IH]; simpl; [done..|].
  intros [Hw Hk]. split; [done|]. intros r w' Hw'. apply IH, Hk, Hw'.
Qed.

Lemma task_keeps_try_await (P : World -> Prop) (t : Task)
    (onDone : World -> Task) (onFail : string -> World -> Task) :
  task_keeps P t ->
  (forall w, P w -> task_keeps P (onDone w)) ->
  (forall e w, P w -> task_keeps P (onFail e w)) ->
  task_keeps P (try_await t onDone onFail).
Proof.
  intros Ht Hd Hf. induction t as [w|e w|c w k IH]; simpl in *; [auto..|].
  destruct Ht as [Hw Hk]. split; [done|]. intros r w' Hw'. apply IH, Hk, Hw'.
Qed.

#[local] Arguments splice_session : simpl never.

Ltac wf_task :=
  repeat match goal with
  | |- timers_wf _ => first [solve [auto 12 with wf] | case_match]
  | |- task_keeps _ (Await _ _ _) => simpl; split; [|intros ? ? ?]
  | |- task_keeps _ (Done _) => simpl
  | |- task_keeps _ (Failed _ _) => simpl
  | |- task_keeps _ _ => case_match
  end.

Lemma wf_attemptResumeReconnect w :
  timers_wf w -> task_keeps timers_wf (attemptResumeReconnect w).
Proof.
  intros Hwf. unfold attemptResumeReconnect, resumeReconnect_afterPorts,
    resumeReconnect_afterConnect, resumeReconnect_succeeded.
  wf_task.
Qed.

Lemma wf_attemptKeyboardRecovery w :
  timers_wf w -> task_keeps timers_wf (attemptKeyboardRecovery w).
Proof.
  intros Hwf. unfold attemptKeyboardRecovery, keyboardRecovery_afterStop,
    keyboardRecovery_afterStart, keyboardRecovery_succeeded.
  wf_task.
Qed.

Lemma wf_restartKeyboardMonitoring force w :
  timers_wf w -> task_keeps timers_wf (restartKeyboardMonitoring force w).
Proof.
  intros Hwf. unfold restartKeyboardMonitoring. wf_task.
Qed.

Lemma wf_on_suspend w : timers_wf w -> task_keeps timers_wf (on_suspend w).
Proof. intros Hwf. unfold on_suspend. wf_task. Qed.

Lemma wf_on_resume w : timers_wf w -> task_keeps timers_wf (on_resume w).
Proof.
  intros Hwf. unfold on_resume.
  apply task_keeps_catch_log, wf_restartKeyboardMonitoring.
  case_match; auto 6 with wf.
Qed.

Lemma wf_ipc_restart_keyboard_monitoring w :
  timers_wf w -> task_keeps timers_wf (ipc_restart_keyboard_monitoring w).
Proof.
  intros Hwf. unfold ipc_restart_keyboard_monitoring.
  destruct (keyboardMonitor w); [|done].
  apply task_keeps_try_await.
  - apply wf_restartKeyboardMonitoring. auto with wf.
  - intros w2 Hw2. wf_task.
  - intros e w2 Hw2. wf_task.
Qed.

Lemma wf_fire h w : timers_wf w -> task_keeps timers_wf (fire h w).
Proof.
  intros Hwf. unfold fire. destruct (List.find _ _) as [t|]; [|done].
  destruct (tkind t); apply task_keeps_catch_log;
    [apply wf_attemptResumeReconnect | apply wf_attemptKeyboardRecovery];
    auto with wf.
Qed.

Lemma wf_handler e w : timers_wf w -> task_keeps timers_wf (handler e w).
Proof.
  intros Hwf. destruct e; simpl.
  - by apply wf_on_suspend.
  - by apply wf_on_resume.
  - by apply wf_fire.
  - unfold on_keyboard_fallback. auto with wf.
  - unfold on_connection_change. repeat case_match; auto with wf.
  - by apply wf_ipc_restart_keyboard_monitoring.
  - unfold cleanupPowerHandlers. auto 8 with wf.
  - auto with wf.
Qed.

(** Whatever a task does in one turn keeps an invariant that the task
    keeps; what is left of it is parked with the suspended functions. *)
Lemma system_keeps_spawn (P : World -> Prop) (t : Task) (others : list Pending) :
  task_keeps P t ->
  (forall p, p ∈ others -> forall r w', P w' -> task_keeps P (resumeWith p r w')) ->
  system_keeps P (spawn t others).
Proof.
  intros Ht Ho. destruct t as [w|e w|c w k]; simpl in *; [by split..|].
  destruct Ht as [Hw Hk]. split; [done|]. simpl.
  intros p [Hin| ->%list_elem_of_singleton]%elem_of_app; [by apply Ho|].
  exact Hk.
Qed.

Lemma system_keeps_turn (t : Turn) (s : System) :
  system_keeps timers_wf s -> system_keeps timers_wf (turn t s).
Proof.
  intros [Hw Hfl]. destruct t as [e|i r]; simpl.
  - apply system_keeps_spawn; [by apply wf_handler|done].
  - destruct (inflight s !! i) as [p|] eqn:Hp; [|by split].
    apply system_keeps_spawn.
    + apply Hfl; [|done]. by eapply list_elem_of_lookup_2.
    + intros p' Hin. apply Hfl. by eapply list_elem_of_delete_inv.
Qed.

Lemma timers_wf_initial status km window :
  timers_wf (initial status km window).
Proof.
  split; [constructor|]. split; [intros t Hin; inversion Hin|].
  split; [intros t Hin; inversion Hin|]. split; [by intros []|done].
Qed.

(** Every state the event loop can reach, under any interleaving of events
    and settling promises, has a well-formed timer queue. *)
Lemma timers_wf_reachable (ts : list Turn) status km window :
  timers_wf (world (turns ts (boot status km window))).
Proof.
  assert (H : system_keeps timers_wf (turns ts (boot status km window))).
  { unfold turns. induction ts as [|t ts IH] using rev_ind.
    - split; [apply timers_wf_initial|]. intros p Hin. inversion Hin.
    - rewrite foldl_app. simpl. by apply system_keeps_turn. }
  apply H.
Qed.

End ReachableQueue.

(* ===================================================================== *)
(** ** Supervisor: cancelling, suspending, resuming *)
(* ===================================================================== *)

Section PowerFacts.
Import Supervisor.

(** C8 (as amended): in every state the event loop can reach, for either
    retry state: cancelling twice is cancelling once (a second cancel
    changes nothing and the handle stays null); a scheduling call that
    passes its guard drops the pending timer and arms the new one, which is
    then the only one, while a call that its guard refuses changes nothing
    at all, so a pending timer stays armed; and never is more than one
    timer armed. *)
Theorem C8_cancel_idempotent_and_one_timer_per_state
    (ts : list Turn) (status : ConnectionStatus) (km : KeyboardMonitor)
    (window : bool) (k : TimerKind) (d : Z) :
  let w := world (turns ts (boot status km window)) in
  clear_timer k (clear_timer k w) = clear_timer k w
  /\ handle_of k (clear_timer k w) = None
  /\ outstanding k (clear_timer k w) = []
  /\ (if can_schedule k w
      then handle_of k (schedule k d w) = Some (nextTimerId w)
           /\ outstanding k (schedule k d w)
              = [{| tid := nextTimerId w; tkind := k; tdelay := d |}]
      else schedule k d w = w)
  /\ (length (outstanding k w) <= 1)%nat
  /\ (length (outstanding k (schedule k d w)) <= 1)%nat.
Proof.
  intros w. pose proof (timers_wf_reachable ts status km window) as Hwf.
  fold w in Hwf.
  split; [apply clear_timer_idempotent|].
  split; [apply clear_timer_handle|].
  split; [by apply outstanding_clear_timer|].
  split; [|split].
  - destruct (can_schedule k w) eqn:Hg; [|by apply schedule_closed].
    split; [|by apply outstanding_schedule].
    by destruct (schedule_open k d w Hg) as (_ & _ & ? & _).
  - by apply outstanding_at_most_one.
  - by apply outstanding_at_most_one, timers_wf_schedule.
Qed.

Lemma filter_filter_implied {A} (P Q : A -> Prop)
    `{!forall x, Decision (P x)} `{!forall x, Decision (Q x)} (l : list A) :
  (forall x, x ∈ l -> P x -> Q x) ->
  filter P (filter Q l) = filter P l.
Proof.
  induction l as [|x l IH]; intros Himp; [done|].
  assert (Hl : forall y, y ∈ l -> P y -> Q y)
    by (intros y Hy; apply Himp; by right).
  rewrite (filter_cons Q). destruct (decide (Q x)) as [Hq|Hq].
  - rewrite !filter_cons. destruct (decide (P x)); by rewrite IH.
  - rewrite filter_cons. destruct (decide (P x)) as [Hp|Hp]; [|by apply IH].
    exfalso. apply Hq, Himp; [left|done].
Qed.

(** Cancelling the timer of one retry state leaves the armed timer of the
    other one in the queue. *)
Lemma outstanding_clear_timer_other (k k' : TimerKind) (w : World) :
  timers_wf w -> k' <> k ->
  outstanding k' (clear_timer k w) = outstanding k' w.
Proof.
  intros (Hnd & Hlt & Hh & Hb & Hd) Hne.
  assert (Hkeep : forall h, handle_of k w = Some h ->
            outstanding k' (clearTimeout h w) = outstanding k' w).
  { intros h Hk. unfold outstanding, clearTimeout. simpl.
    apply filter_filter_implied. intros t Hin Hkind Hid.
    specialize (Hh t Hin). rewrite Hkind in Hh. rewrite Hid in Hh.
    destruct k, k'; simpl in *; try done.
    - by apply (Hd h).
    - by apply (Hd h). }
  destruct k; simpl;
    [unfold clearResumeReconnectTimer | unfold clearKeyboardRecoveryTimer].
  - destruct (resumeReconnectTimer w) as [h|] eqn:E; [|done].
    rewrite <- (Hkeep h) by done. reflexivity.
  - destruct (keyboardRecoveryTimer w) as [h|] eqn:E; [|done].
    rewrite <- (Hkeep h) by done. reflexivity.
Qed.

(** While the system is suspended both attempts return at once. *)
Lemma attempt_while_suspended (k : TimerKind) (w : World) :
  systemSuspended w = true -> attempt k w = Done w.
Proof.
  intros Hs. destruct k; simpl;
    [unfold attemptResumeReconnect | unfold attemptKeyboardRecovery];
    rewrite Hs.
  - destruct (esp32SerialManager w); [|done]. by rewrite orb_true_r.
  - by destruct (keyboardMonitor w).
Qed.

(** C2 (as amended): a suspend notification raises the suspended flag and
    cancels the resume-reconnect timer, so that no resume-reconnect timer
    armed before the suspend is left in the queue; it leaves the
    keyboard-recovery handle and its armed timer where they are.  In any
    world in which the flag is up, a firing retry timer of either kind
    issues no collaborator call and changes nothing but its own removal
    from the queue. *)
Theorem C2_suspend_cancels_reconnect_timer_and_gates_attempts
    (w v : World) (replies : list Reply) (h : nat) :
  timers_wf w ->
  systemSuspended v = true ->
  let w' := complete replies (on_suspend w) in
  systemSuspended w' = true
  /\ resumeReconnectTimer w' = None
  /\ outstanding ResumeReconnect w' = []
  /\ keyboardRecoveryTimer w' = keyboardRecoveryTimer w
  /\ outstanding KeyboardRecovery w' = outstanding KeyboardRecovery w
  /\ calls replies (fire h v) = []
  /\ (complete replies (fire h v) = v
      \/ complete replies (fire h v) = clearTimeout h v).
Proof.
  intros Hwf Hv w'.
  set (w1 := set_resumeReconnectAttempts 0
               (clearResumeReconnectTimer (set_systemSuspended true w))).
  assert (Hwf0 : timers_wf (set_systemSuspended true w))
    by (by apply wf_set_systemSuspended).
  assert (H1 : systemSuspended w1 = true
               /\ resumeReconnectTimer w1 = None
               /\ outstanding ResumeReconnect w1 = []
               /\ keyboardRecoveryTimer w1 = keyboardRecoveryTimer w
               /\ outstanding KeyboardRecovery w1
                  = outstanding KeyboardRecovery w).
  { pose proof (clear_timer_handle ResumeReconnect
                  (set_systemSuspended true w)) as Hh.
    pose proof (outstanding_clear_timer ResumeReconnect _ Hwf0) as Ho.
    pose proof (outstanding_clear_timer_other ResumeReconnect
                  KeyboardRecovery _ Hwf0 ltac:(done)) as Hk.
    pose proof (handle_of_clear_timer_other ResumeReconnect KeyboardRecovery
                  (set_systemSuspended true w) ltac:(done)) as Hkh.
    simpl in Hh, Ho, Hk, Hkh. subst w1. simpl.
    repeat split; try done.
    unfold clearResumeReconnectTimer. simpl.
    by destruct (resumeReconnectTimer w). }
  assert (Hshape : exists w2, w' = w2
            /\ systemSuspended w2 = systemSuspended w1
            /\ resumeReconnectTimer w2 = resumeReconnectTimer w1
            /\ keyboardRecoveryTimer w2 = keyboardRecoveryTimer w1
            /\ timers w2 = timers w1).
  { subst w'. unfold on_suspend. fold w1.
    destruct (esp32SerialManager w1) as [st|]; [|by exists w1].
    destruct (isConnected st && truthy_string (port st)).
    - destruct replies as [|r rest]; eexists; (split; [reflexivity|]);
        by repeat split.
    - destruct (truthy_string (port st)); eexists;
        (split; [reflexivity|]); by repeat split. }
  destruct Hshape as (w2 & -> & E1 & E2 & E3 & E4).
  unfold outstanding. rewrite E1, E2, E3, E4.
  destruct H1 as (Hs & Hr & Hor & Hk & Hok).
  do 5 (split; [assumption|]).
  assert (Hfire : fire h v = Done v \/ fire h v = Done (clearTimeout h v)).
  { unfold fire. destruct (List.find _ _) as [t|]; [|by left].
    assert (Hs' : systemSuspended (clearTimeout h v) = true) by done.
    right. destruct (tkind t).
    - pose proof (attempt_while_suspended ResumeReconnect _ Hs') as Ha.
      unfold attempt in Ha. by rewrite Ha.
    - pose proof (attempt_while_suspended KeyboardRecovery _ Hs') as Ha.
      unfold attempt in Ha. by rewrite Ha. }
  destruct Hfire as [-> | ->]; simpl; auto.
Qed.

(** C6 (as amended): on a resume notification the listener is restarted
    through the health-checked variant ([force] is false), once: when
    [isActive()] is false nothing is stopped or started; when it is true
    the listener is stopped and, if that went well, started, whatever
    [fallbackMode] and the listener handle say. *)
Theorem C6_resume_restarts_listener_only_if_active
    (w : World) (km : KeyboardMonitor) :
  keyboardMonitor w = Some km ->
  (kmIsActive km = false ->
     forall replies, calls replies (on_resume w) = [])
  /\ (kmIsActive km = true ->
      forall r rest,
        calls (r :: rest) (on_resume w)
        = StopMonitoring
            :: match outcome r with
               | Fulfilled _ => [StartMonitoring]
               | Rejected _ => []
               end).
Proof.
  intros Hkm. unfold on_resume. cbv zeta.
  match goal with
  | |- context [restartKeyboardMonitoring false ?x] => set (w2 := x)
  end.
  assert (Hkm2 : keyboardMonitor w2 = Some km).
  { subst w2. destruct (_ && _); [|done].
    unfold scheduleResumeReconnect. simpl.
    unfold clearResumeReconnectTimer. simpl.
    by destruct (resumeReconnectTimer w). }
  unfold restartKeyboardMonitoring. rewrite Hkm2. simpl.
  split; intros Hact; rewrite Hact; simpl; [by intros|].
  intros r rest. f_equal. destruct (outcome r); [|done].
  rewrite Hkm2. simpl. f_equal.
  destruct rest as [|r2 rest]; [done|]. simpl.
  by repeat case_match.
Qed.

(** C10: a ['connection-change'] event that says connected and names a
    port sets [pendingResumePort] to that port, whatever it held before and
    whether or not a window is there to be told.  The guard is
    [data?.connected && data.port]; a port name is a string that is not
    empty, which is what [data.port] then asks for. *)
Theorem C10_connection_change_seeds_pending_port
    (w : World) (d : ConnectionChange) (p : string) :
  connected d = true ->
  changePort d = Some p ->
  p <> "" ->
  pendingResumePort (on_connection_change (Some d) w) = Some p.
Proof.
  intros Hc Hp Hne. unfold on_connection_change, ui_send.
  rewrite Hc, Hp. simpl.
  destruct (String.eqb_spec p ""); [done|]. simpl.
  by destruct (mainWindow w).
Qed.

End PowerFacts.

(* ===================================================================== *)
(** ** Supervisor: one reconnect attempt, one listener restart *)
(* ===================================================================== *)

Section AttemptFacts.
Import Supervisor.

Lemma pendingResumePort_clear_timer (k : TimerKind) (w : World) :
  pendingResumePort (clear_timer k w) = pendingResumePort w.
Proof.
  destruct k; simpl;
    unfold clearResumeReconnectTimer, clearKeyboardRecoveryTimer;
    try destruct (resumeReconnectTimer w);
    try destruct (keyboardRecoveryTimer w); reflexivity.
Qed.

Lemma pendingResumePort_schedule (k : TimerKind) (d : Z) (w : World) :
  pendingResumePort (schedule k d w) = pendingResumePort w.
Proof.
  destruct k; simpl;
    [unfold scheduleResumeReconnect | unfold scheduleKeyboardRecovery].
  - destruct (systemSuspended w); [done|].
    by rewrite <- (pendingResumePort_clear_timer ResumeReconnect w).
  - destruct (_ || _); [done|].
    by rewrite <- (pendingResumePort_clear_timer KeyboardRecovery w).
Qed.

Lemma pendingResumePort_failed (k : TimerKind) (n : Z) (w : World) :
  pendingResumePort (failed k n w) = pendingResumePort w.
Proof.
  destruct (Z.lt_ge_cases n (limit_of k)).
  - rewrite failed_below_limit by done. apply pendingResumePort_schedule.
  - rewrite failed_at_limit by done. apply pendingResumePort_clear_timer.
Qed.

(** What a reconnect attempt that failed as number [n] leaves behind. *)
Lemma resumeReconnect_failed_outcome (n : Z) (w : World) :
  timers_wf w -> systemSuspended w = false ->
  pendingResumePort (resumeReconnect_failed n w) = pendingResumePort w
  /\ resumeReconnectAttempts (resumeReconnect_failed n w)
     = resumeReconnectAttempts w
  /\ (if n <? RESUME_RETRY_LIMIT
      then outstanding ResumeReconnect (resumeReconnect_failed n w)
           = [{| tid := nextTimerId w; tkind := ResumeReconnect;
                 tdelay := backoff RESUME_RETRY_BASE_DELAY_MS
                             RESUME_RETRY_MAX_DELAY_MS n |}]
      else outstanding ResumeReconnect (resumeReconnect_failed n w) = []
           /\ resumeReconnectTimer (resumeReconnect_failed n w) = None).
Proof.
  intros Hwf Hs.
  split; [apply (pendingResumePort_failed ResumeReconnect)|].
  split; [apply (attempts_of_failed ResumeReconnect ResumeReconnect)|].
  destruct (Z.ltb_spec n RESUME_RETRY_LIMIT) as [Hlt|Hge].
  - apply (failed_arms_backoff ResumeReconnect n w); [done..|].
    simpl. by rewrite Hs.
  - change (resumeReconnect_failed n w) with (failed ResumeReconnect n w).
    rewrite failed_at_limit by done. split.
    + by apply outstanding_clear_timer.
    + apply (clear_timer_handle ResumeReconnect).
Qed.

Lemma resumeReconnect_succeeded_outcome (w : World) :
  timers_wf w ->
  pendingResumePort (resumeReconnect_succeeded w) = None
  /\ resumeReconnectAttempts (resumeReconnect_succeeded w) = 0
  /\ resumeReconnectTimer (resumeReconnect_succeeded w) = None
  /\ outstanding ResumeReconnect (resumeReconnect_succeeded w) = [].
Proof.
  intros Hwf. unfold resumeReconnect_succeeded.
  set (w0 := set_resumeReconnectAttempts 0 (set_pendingResumePort None w)).
  assert (Hwf0 : timers_wf w0) by (subst w0; auto with wf).
  split; [by rewrite (pendingResumePort_clear_timer ResumeReconnect)|].
  split; [exact (attempts_of_clear_timer ResumeReconnect ResumeReconnect w0)|].
  split; [apply (clear_timer_handle ResumeReconnect)|].
  by apply (outstanding_clear_timer ResumeReconnect).
Qed.

(** C5 (as amended): take a resume-reconnect attempt that finds a
    non-empty pending port and the system not suspended, and let it run to
    its end, no other event being handled while its calls are pending.  If
    the device is not yet connected, the attempt first queries the
    available ports.  If the query is rejected or no listed port has the
    pending path, the attempt has failed: the pending port and the raised
    counter stay, and below the limit one timer is armed with the back-off
    delay, while at the limit none is armed and the handle is cleared.  If
    a listed port has the pending path, [connectToDevice] is called with
    it; when that promise fulfils, the pending port is cleared, the counter
    is 0 and no timer is left; when it rejects, the attempt has failed as
    above.  An attempt that finds the device connected already queries
    nothing and clears pending port, counter and timer at once. *)
Theorem C5_resume_reconnect_attempt
    (w : World) (status : ConnectionStatus) (p : string)
    (r1 : Reply) (rest : list Reply) :
  timers_wf w ->
  esp32SerialManager w = Some status ->
  pendingResumePort w = Some p ->
  p <> "" ->
  systemSuspended w = false ->
  let t := attemptResumeReconnect w in
  let w' := complete (r1 :: rest) t in
  let n := resumeReconnectAttempts w + 1 in
  let succeeded :=
    pendingResumePort w' = None /\ resumeReconnectAttempts w' = 0
    /\ resumeReconnectTimer w' = None
    /\ outstanding ResumeReconnect w' = [] in
  let failed :=
    pendingResumePort w' = Some p /\ resumeReconnectAttempts w' = n
    /\ (if n <? RESUME_RETRY_LIMIT
        then outstanding ResumeReconnect w'
             = [{| tid := nextTimerId w; tkind := ResumeReconnect;
                   tdelay := backoff RESUME_RETRY_BASE_DELAY_MS
                               RESUME_RETRY_MAX_DELAY_MS n |}]
        else outstanding ResumeReconnect w' = []
             /\ resumeReconnectTimer w' = None) in
  if isConnected status then calls (r1 :: rest) t = [] /\ succeeded
  else
    match outcome r1 with
    | Rejected _ => calls (r1 :: rest) t = [GetAvailablePorts] /\ failed
    | Fulfilled ports =>
        (p ∉ (path <$> ports) ->
         calls (r1 :: rest) t = [GetAvailablePorts] /\ failed)
        /\ (p ∈ (path <$> ports) ->
            calls (r1 :: rest) t
            = [GetAvailablePorts; ConnectToDevice (Some p)]
            /\ match rest with
               | [] => True
               | r2 :: _ =>
                   match outcome r2 with
                   | Fulfilled _ => succeeded
                   | Rejected _ => failed
                   end
               end)
    end.
Proof.
  intros Hwf Hesp Hpend Hne Hsusp. cbv zeta.
  unfold attemptResumeReconnect. rewrite Hesp, Hpend, Hsusp. simpl.
  destruct (String.eqb_spec p "") as [|_]; [done|]. simpl.
  destruct (isConnected status).
  { split; [done|]. by apply resumeReconnect_succeeded_outcome. }
  simpl.
  set (n := resumeReconnectAttempts w + 1).
  set (w1 := set_collaborators _ _ _ _).
  assert (Hwf1 : timers_wf w1) by (subst w1; auto with wf).
  assert (Hfail : forall w2,
            timers_wf w2 -> systemSuspended w2 = false ->
            pendingResumePort w2 = Some p ->
            resumeReconnectAttempts w2 = n ->
            nextTimerId w2 = nextTimerId w ->
            pendingResumePort (resumeReconnect_failed n w2) = Some p
            /\ resumeReconnectAttempts (resumeReconnect_failed n w2) = n
            /\ (if n <? RESUME_RETRY_LIMIT
                then outstanding ResumeReconnect (resumeReconnect_failed n w2)
                     = [{| tid := nextTimerId w; tkind := ResumeReconnect;
                           tdelay := backoff RESUME_RETRY_BASE_DELAY_MS
                                       RESUME_RETRY_MAX_DELAY_MS n |}]
                else outstanding ResumeReconnect (resumeReconnect_failed n w2)
                     = []
                     /\ resumeReconnectTimer (resumeReconnect_failed n w2)
                        = None)).
  { intros w2 Hwf2 Hs2 Hp2 Ha2 Hn2.
    destruct (resumeReconnect_failed_outcome n w2 Hwf2 Hs2) as (E1 & E2 & E3).
    rewrite E1, E2, Hp2, Ha2. rewrite Hn2 in E3. done. }
  unfold resumeReconnect_afterPorts.
  destruct (outcome r1) as [ports|e]; [|simpl; split; [done|];
    apply Hfail; [exact Hwf1|exact Hsusp|exact Hpend|reflexivity..]].
  assert (Hp1 : pendingResumePort w1 = Some p) by exact Hpend.
  rewrite Hp1. split.
  - intros Hnot. rewrite find_port_not_listed
      by (by apply bool_decide_eq_false).
    simpl. split; [done|].
    apply Hfail; [exact Hwf1|exact Hsusp|exact Hpend|reflexivity..].
  - intros Hin.
    destruct (find_port_listed p ports) as [x ->];
      [by apply bool_decide_eq_true|].
    simpl. destruct rest as [|r2 rest]; [by split|].
    split; [simpl; unfold resumeReconnect_afterConnect;
            by destruct (outcome r2)|].
    set (w2 := set_collaborators _ _ _ w1).
    assert (Hwf2 : timers_wf w2) by (subst w2; auto with wf).
    unfold resumeReconnect_afterConnect. destruct (outcome r2); simpl.
    + by apply resumeReconnect_succeeded_outcome.
    + apply Hfail; [exact Hwf2|exact Hsusp|exact Hpend|reflexivity..].
Qed.

(** *** Session counters across a restart *)

(** On a number, [x || 0] is [x]. *)
Lemma or_zero (x : Z) : (if x =? 0 then 0 else x) = x.
Proof. by destruct (Z.eqb_spec x 0) as [->|]. Qed.

(** [restartKeyboardMonitoring] carries the three counters of the session
    it found into the session the restarted listener holds. *)
Lemma restartKeyboardMonitoring_preserves_session
    (force : bool) (w : World) (km : KeyboardMonitor) (previous current : Session)
    (r1 r2 : Reply) (rest : list Reply) :
  keyboardMonitor w = Some km ->
  force = true \/ kmIsActive km = true ->
  currentSession km = Some previous ->
  (exists ports, outcome r1 = Fulfilled ports) ->
  (exists ports, outcome r2 = Fulfilled ports) ->
  currentSession (monitorAfter r2) = Some current ->
  exists km' s,
    keyboardMonitor
      (complete (r1 :: r2 :: rest) (restartKeyboardMonitoring force w))
    = Some km'
    /\ currentSession km' = Some s
    /\ totalKeystrokes s = totalKeystrokes previous
    /\ startTime s = startTime previous
    /\ lastKeystrokeTime s = lastKeystrokeTime previous.
Proof.
  intros Hkm Hrun Hprev [ports1 Hr1] [ports2 Hr2] Hcur.
  unfold restartKeyboardMonitoring. rewrite Hkm.
  assert (Hgo : negb force && negb (kmIsActive km) = false).
  { destruct Hrun as [->| ->]; [done|]. by rewrite andb_false_r. }
  rewrite Hgo. simpl. rewrite Hr1, Hkm. simpl. rewrite Hr2, Hprev, Hkm. simpl.
  unfold splice_session. simpl. rewrite Hkm, Hcur. simpl.
  unfold clearKeyboardRecoveryTimer. simpl.
  destruct (keyboardRecoveryTimer w); simpl;
    (eexists _, _; split; [reflexivity|]; split; [reflexivity|]); simpl;
    (split; [|split; [done|]]).
  all: apply or_zero.
Qed.

(** [attemptKeyboardRecovery] stops and starts the listener too, but never
    looks at the session: what the restarted listener holds is what the
    main process is left with. *)
Lemma attemptKeyboardRecovery_keeps_collaborator_session
    (w : World) (km : KeyboardMonitor) (r1 r2 : Reply) (rest : list Reply) :
  keyboardMonitor w = Some km ->
  keyboardMonitor
    (complete (r1 :: r2 :: rest) (attemptKeyboardRecovery w))
  = match
      (if systemSuspended w then None
       else if keyboardListener km && negb (fallbackMode km) then None
       else Some (outcome r1))
    with
    | None => Some km
    | Some (Rejected _) => Some (monitorAfter r1)
    | Some (Fulfilled _) => Some (monitorAfter r2)
    end.
Proof.
  intros Hkm. unfold attemptKeyboardRecovery. rewrite Hkm.
  assert (Hclear : forall v,
            keyboardMonitor (clearKeyboardRecoveryTimer v)
            = keyboardMonitor v).
  { intros v. unfold clearKeyboardRecoveryTimer.
    by destruct (keyboardRecoveryTimer v). }
  assert (Hsched : forall d v,
            keyboardMonitor (scheduleKeyboardRecovery d v)
            = keyboardMonitor v).
  { intros d v. unfold scheduleKeyboardRecovery.
    destruct (_ || _); [done|]. simpl. apply Hclear. }
  assert (Hfailed : forall n v,
            keyboardMonitor (keyboardRecovery_failed n v)
            = keyboardMonitor v).
  { intros n v. unfold keyboardRecovery_failed.
    destruct (_ <=? _); [apply Hclear|apply Hsched]. }
  destruct (systemSuspended w); [done|].
  destruct (keyboardListener km && negb (fallbackMode km)).
  { simpl. by rewrite Hclear. }
  simpl. unfold keyboardRecovery_afterStop.
  destruct (outcome r1); simpl.
  - rewrite Hkm. simpl. unfold keyboardRecovery_afterStart.
    destruct (outcome r2); simpl.
    + unfold keyboardRecovery_succeeded. rewrite Hclear. simpl. by rewrite Hkm.
    + rewrite Hfailed. simpl. by rewrite Hkm.
  - rewrite Hfailed. simpl. by rewrite Hkm.
Qed.

End AttemptFacts.

(* ===================================================================== *)
(** ** Supervisor: the retry budget *)
(* ===================================================================== *)

Section BudgetFacts.
Import Supervisor.


Lemma budget_low (k : TimerKind) (w : World) :
  timers_wf w -> 0 <= attempts_of k w < limit_of k -> budget_ok k w.
Proof. intros Hwf Ha. split; [done|]. split; [lia|intros _; lia]. Qed.

Lemma budget_none (k : TimerKind) (w : World) :
  timers_wf w -> outstanding k w = [] ->
  0 <= attempts_of k w <= limit_of k -> budget_ok k w.
Proof. intros Hwf Ho Ha. split; [done|]. split; [lia|]. by rewrite Ho. Qed.

Lemma budget_frame (k : TimerKind) (w w' : World) :
  timers w' = timers w ->
  nextTimerId w' = nextTimerId w ->
  resumeReconnectTimer w' = resumeReconnectTimer w ->
  keyboardRecoveryTimer w' = keyboardRecoveryTimer w ->
  attempts_of k w' = attempts_of k w ->
  budget_ok k w -> budget_ok k w'.
Proof.
  intros Ht Hn Hr Hk Ha [Hwf [Hb Ho]].
  split; [by eapply timers_wf_frame|].
  unfold within_budget, outstanding. by rewrite Ht, Ha.
Qed.

Lemma budget_clearTimeout (k : TimerKind) (h : nat) (w : World) :
  budget_ok k w -> budget_ok k (clearTimeout h w).
Proof.
  intros [Hwf [Hb Ho]]. split; [by apply timers_wf_clearTimeout|].
  split; [by destruct k|].
  intros Hne. replace (attempts_of k (clearTimeout h w))
    with (attempts_of k w) by (by destruct k).
  apply Ho. intros Hnil. apply Hne.
  unfold outstanding, clearTimeout in *. simpl.
  destruct (filter _ (filter _ _)) as [|t l] eqn:E; [done|].
  assert (Hin : t ∈ filter (fun t => tkind t = k)
                      (filter (fun t => tid t <> h) (timers w)))
    by (rewrite E; left).
  apply list_elem_of_filter in Hin as [Hk [_ Hin]%list_elem_of_filter].
  exfalso. eapply (filter_nil_not_elem_of _ _ t Hnil); done.
Qed.

Lemma budget_clear_timer (k k' : TimerKind) (w : World) :
  budget_ok k w -> budget_ok k (clear_timer k' w).
Proof.
  intros [Hwf [Hb Ho]]. destruct (decide (k' = k)) as [->|Hne].
  - apply budget_none; [by apply timers_wf_clear_timer| |].
    + by apply outstanding_clear_timer.
    + by rewrite attempts_of_clear_timer.
  - split; [by apply timers_wf_clear_timer|].
    unfold within_budget.
    rewrite attempts_of_clear_timer, outstanding_clear_timer_other by done.
    done.
Qed.

Lemma outstanding_schedule_other (k k' : TimerKind) (d : Z) (w : World) :
  timers_wf w -> k' <> k ->
  outstanding k (schedule k' d w) = outstanding k w.
Proof.
  intros Hwf Hne. destruct (can_schedule k' w) eqn:Hg;
    [|by rewrite schedule_closed].
  destruct (schedule_open k' d w Hg) as (Ht & _).
  unfold outstanding. rewrite Ht, filter_app.
  rewrite filter_cons. simpl. destruct (decide (k' = k)); [done|].
  rewrite filter_nil, app_nil_r.
  by apply (outstanding_clear_timer_other k' k w).
Qed.

Lemma budget_schedule_other (k k' : TimerKind) (d : Z) (w : World) :
  k' <> k -> budget_ok k w -> budget_ok k (schedule k' d w).
Proof.
  intros Hne [Hwf [Hb Ho]]. split; [by apply timers_wf_schedule|].
  unfold within_budget.
  by rewrite attempts_of_schedule, outstanding_schedule_other.
Qed.

Lemma budget_schedule_low (k : TimerKind) (d : Z) (w : World) :
  timers_wf w -> 0 <= attempts_of k w < limit_of k ->
  budget_ok k (schedule k d w).
Proof.
  intros Hwf Ha. apply budget_low; [by apply timers_wf_schedule|].
  by rewrite attempts_of_schedule.
Qed.

Lemma budget_failed_other (k k' : TimerKind) (n : Z) (w : World) :
  k' <> k -> budget_ok k w -> budget_ok k (failed k' n w).
Proof.
  intros Hne Hb. destruct (Z.lt_ge_cases n (limit_of k')).
  - rewrite failed_below_limit by done. by apply budget_schedule_other.
  - rewrite failed_at_limit by done. by apply budget_clear_timer.
Qed.

(** A failure of the attempt that the counter counts: below the limit the
    retry is armed, at the limit the chain stops. *)
Lemma budget_failed_same (k : TimerKind) (n : Z) (w : World) :
  timers_wf w -> attempts_of k w = n -> 0 <= n <= limit_of k ->
  budget_ok k (failed k n w).
Proof.
  intros Hwf Ha Hn. destruct (Z.lt_ge_cases n (limit_of k)).
  - rewrite failed_below_limit by done.
    apply budget_schedule_low; [done|lia].
  - rewrite failed_at_limit by done. apply budget_none.
    + by apply timers_wf_clear_timer.
    + by apply outstanding_clear_timer.
    + rewrite attempts_of_clear_timer. lia.
Qed.

End BudgetFacts.

Section BudgetSteps.
Import Supervisor.
Context (k : TimerKind).

Lemma bud_set_systemSuspended v w :
  budget_ok k w -> budget_ok k (set_systemSuspended v w).
Proof. apply budget_frame; by destruct k. Qed.

Lemma bud_set_pendingResumePort v w :
  budget_ok k w -> budget_ok k (set_pendingResumePort v w).
Proof. apply budget_frame; by destruct k. Qed.

Lemma bud_set_keyboardMonitor v w :
  budget_ok k w -> budget_ok k (set_keyboardMonitor v w).
Proof. apply budget_frame; by destruct k. Qed.

Lemma bud_set_uiLog v w : budget_ok k w -> budget_ok k (set_uiLog v w).
Proof. apply budget_frame; by destruct k. Qed.

Lemma bud_set_collaborators s km win w :
  budget_ok k w -> budget_ok k (set_collaborators s km win w).
Proof. apply budget_frame; by destruct k. Qed.

Lemma bud_ui_send m w : budget_ok k w -> budget_ok k (ui_send m w).
Proof.
  unfold ui_send. destruct (mainWindow w); [|done]. apply bud_set_uiLog.
Qed.

Lemma bud_splice_session s w :
  budget_ok k w -> budget_ok k (splice_session s w).
Proof.
  unfold splice_session. intros Hb.
  repeat case_match; auto using bud_set_keyboardMonitor.
Qed.

Lemma bud_clearResumeReconnectTimer w :
  budget_ok k w -> budget_ok k (clearResumeReconnectTimer w).
Proof. exact (budget_clear_timer k ResumeReconnect w). Qed.

Lemma bud_clearKeyboardRecoveryTimer w :
  budget_ok k w -> budget_ok k (clearKeyboardRecoveryTimer w).
Proof. exact (budget_clear_timer k KeyboardRecovery w). Qed.

(** Setting a counter to zero is within every budget. *)
Lemma bud_reset_resumeReconnectAttempts w :
  budget_ok k w -> budget_ok k (set_resumeReconnectAttempts 0 w).
Proof.
  intros Hb. destruct k.
  - apply budget_low; [|done]. apply wf_set_resumeReconnectAttempts, Hb.
  - revert Hb. by apply budget_frame.
Qed.

Lemma bud_reset_keyboardRecoveryAttempts w :
  budget_ok k w -> budget_ok k (set_keyboardRecoveryAttempts 0 w).
Proof.
  intros Hb. destruct k.
  - revert Hb. by apply budget_frame.
  - apply budget_low; [|done]. apply wf_set_keyboardRecoveryAttempts, Hb.
Qed.

End BudgetSteps.

Section BudgetCross.
Import Supervisor.

Lemma bud_reconnect_set_keyboardRecoveryAttempts v w :
  budget_ok ResumeReconnect w ->
  budget_ok ResumeReconnect (set_keyboardRecoveryAttempts v w).
Proof. by apply budget_frame. Qed.

Lemma bud_keyboard_set_resumeReconnectAttempts v w :
  budget_ok KeyboardRecovery w ->
  budget_ok KeyboardRecovery (set_resumeReconnectAttempts v w).
Proof. by apply budget_frame. Qed.

Lemma bud_reconnect_scheduleKeyboardRecovery d w :
  budget_ok ResumeReconnect w ->
  budget_ok ResumeReconnect (scheduleKeyboardRecovery d w).
Proof.
  exact (budget_schedule_other ResumeReconnect KeyboardRecovery d w
           ltac:(done)).
Qed.

Lemma bud_keyboard_scheduleResumeReconnect d w :
  budget_ok KeyboardRecovery w ->
  budget_ok KeyboardRecovery (scheduleResumeReconnect d w).
Proof.
  exact (budget_schedule_other KeyboardRecovery ResumeReconnect d w
           ltac:(done)).
Qed.

Lemma bud_reconnect_keyboardRecovery_failed n w :
  budget_ok ResumeReconnect w ->
  budget_ok ResumeReconnect (keyboardRecovery_failed n w).
Proof.
  exact (budget_failed_other ResumeReconnect KeyboardRecovery n w
           ltac:(done)).
Qed.

Lemma bud_keyboard_resumeReconnect_failed n w :
  budget_ok KeyboardRecovery w ->
  budget_ok KeyboardRecovery (resumeReconnect_failed n w).
Proof.
  exact (budget_failed_other KeyboardRecovery ResumeReconnect n w
           ltac:(done)).
Qed.

(** The resume handler schedules right after it reset the counter. *)
Lemma bud_reconnect_schedule_after_reset d w :
  budget_ok ResumeReconnect w ->
  budget_ok ResumeReconnect
    (scheduleResumeReconnect d (set_resumeReconnectAttempts 0 w)).
Proof.
  intros [Hwf _].
  apply (budget_schedule_low ResumeReconnect); [auto with wf|done].
Qed.

End BudgetCross.

Create HintDb budget discriminated.
#[global] Hint Resolve
  bud_set_systemSuspended bud_set_pendingResumePort bud_set_keyboardMonitor
  bud_set_uiLog bud_set_collaborators bud_ui_send bud_splice_session
  bud_clearResumeReconnectTimer bud_clearKeyboardRecoveryTimer
  bud_reset_resumeReconnectAttempts bud_reset_keyboardRecoveryAttempts
  bud_reconnect_set_keyboardRecoveryAttempts
  bud_keyboard_set_resumeReconnectAttempts
  bud_reconnect_scheduleKeyboardRecovery
  bud_keyboard_scheduleResumeReconnect
  bud_reconnect_keyboardRecovery_failed
  bud_keyboard_resumeReconnect_failed
  bud_reconnect_schedule_after_reset
  budget_clearTimeout : budget.

Section BudgetTasks.
Import Supervisor.

#[local] Arguments splice_session : simpl never.

Ltac bud_task :=
  repeat match goal with
  | |- budget_ok _ _ => first [solve [auto 12 with budget] | case_match]
  | |- task_keeps _ (Await _ _ _) => simpl; split; [|intros ? ? ?]
  | |- task_keeps _ (Done _) => simpl
  | |- task_keeps _ (Failed _ _) => simpl
  | |- task_keeps _ _ => case_match
  end.

(** What the keyboard side does never spends the reconnect budget, under
    any interleaving ... *)
Lemma bud_reconnect_attemptKeyboardRecovery w :
  budget_ok ResumeReconnect w ->
  task_keeps (budget_ok ResumeReconnect) (attemptKeyboardRecovery w).
Proof.
  intros Hb. unfold attemptKeyboardRecovery, keyboardRecovery_afterStop,
    keyboardRecovery_afterStart, keyboardRecovery_succeeded.
  bud_task.
Qed.

Lemma bud_restartKeyboardMonitoring k force w :
  budget_ok k w ->
  task_keeps (budget_ok k) (restartKeyboardMonitoring force w).
Proof. intros Hb. unfold restartKeyboardMonitoring. bud_task. Qed.

Lemma bud_reconnect_ipc_restart w :
  budget_ok ResumeReconnect w ->
  task_keeps (budget_ok ResumeReconnect) (ipc_restart_keyboard_monitoring w).
Proof.
  intros Hb. unfold ipc_restart_keyboard_monitoring.
  destruct (keyboardMonitor w); [|done].
  apply task_keeps_try_await.
  - apply bud_restartKeyboardMonitoring. auto with budget.
  - intros w2 Hw2. bud_task.
  - intros e w2 Hw2. bud_task.
Qed.

(** ... and what the device side does never spends the keyboard budget. *)
Lemma bud_keyboard_attemptResumeReconnect w :
  budget_ok KeyboardRecovery w ->
  task_keeps (budget_ok KeyboardRecovery) (attemptResumeReconnect w).
Proof.
  intros Hb. unfold attemptResumeReconnect, resumeReconnect_afterPorts,
    resumeReconnect_afterConnect, resumeReconnect_succeeded.
  bud_task.
Qed.

Lemma bud_on_suspend k w :
  budget_ok k w -> task_keeps (budget_ok k) (on_suspend w).
Proof. intros Hb. unfold on_suspend. bud_task. Qed.

Lemma bud_on_resume k w :
  budget_ok k w -> task_keeps (budget_ok k) (on_resume w).
Proof.
  intros Hb. unfold on_resume.
  apply task_keeps_catch_log, bud_restartKeyboardMonitoring.
  destruct k; case_match; auto 6 with budget.
Qed.

Lemma complete_keeps (P : World -> Prop) (t : Task) (replies : list Reply) :
  (forall s km win w, P w -> P (set_collaborators s km win w)) ->
  task_keeps P t -> P (complete replies t).
Proof.
  intros Hc. revert replies.
  induction t as [w|e w|c w k' IH]; intros replies; simpl; [done..|].
  intros [Hw Hk]. destruct replies as [|r rest]; [done|].
  apply IH, Hk, Hc, Hw.
Qed.

Lemma budget_complete k t replies :
  task_keeps (budget_ok k) t -> budget_ok k (complete replies t).
Proof.
  apply complete_keeps. intros. by apply bud_set_collaborators.
Qed.

End BudgetTasks.

Section BudgetHistory.
Import Supervisor.

(** An attempt that starts with its counter below the limit and no timer
    of its own armed ends within the budget, however its calls settle. *)
Lemma budget_attempt (k : TimerKind) (w : World) (replies : list Reply) :
  timers_wf w -> outstanding k w = [] ->
  0 <= attempts_of k w < limit_of k ->
  budget_ok k (complete replies (attempt k w)).
Proof.
  intros Hwf Ho Ha.
  assert (Hstart : budget_ok k w) by (apply budget_low; done).
  assert (Hfail : forall w1,
            timers_wf w1 -> attempts_of k w1 = attempts_of k w + 1 ->
            budget_ok k (failed k (attempts_of k w + 1) w1)).
  { intros w1 Hwf1 Ha1. apply budget_failed_same; [done..|lia]. }
  assert (Hwait : forall w1,
            timers_wf w1 -> timers w1 = timers w ->
            attempts_of k w1 = attempts_of k w + 1 ->
            budget_ok k w1).
  { intros w1 Hwf1 Ht Ha1. apply budget_none; [done| |lia].
    unfold outstanding in *. by rewrite Ht. }
  destruct k; simpl in *.
  - unfold attemptResumeReconnect.
    destruct (esp32SerialManager w) as [status|]; [|done].
    destruct (_ || _); [done|].
    destruct (isConnected status).
    { simpl. unfold resumeReconnect_succeeded. auto with budget. }
    simpl. set (wa := set_resumeReconnectAttempts _ w).
    assert (Hwfa : timers_wf wa) by (subst wa; auto with wf).
    destruct replies as [|r1 rest]; [by apply (Hwait wa)|].
    set (w1 := set_collaborators _ _ _ wa).
    assert (Hwf1 : timers_wf w1) by (subst w1; auto with wf).
    unfold resumeReconnect_afterPorts.
    destruct (outcome r1); [|by apply (Hfail w1)].
    destruct (List.find _ _); [|by apply (Hfail w1)].
    simpl. destruct rest as [|r2 rest]; [by apply (Hwait w1)|].
    set (w2 := set_collaborators _ _ _ w1).
    assert (Hwf2 : timers_wf w2) by (subst w2; auto with wf).
    unfold resumeReconnect_afterConnect. destruct (outcome r2); simpl.
    + unfold resumeReconnect_succeeded.
      assert (budget_ok ResumeReconnect w2) by (by apply (Hwait w2)).
      auto with budget.
    + by apply (Hfail w2).
  - unfold attemptKeyboardRecovery.
    destruct (keyboardMonitor w) as [km|] eqn:Hkm; [|done].
    destruct (systemSuspended w); [done|].
    destruct (_ && _).
    { simpl. auto with budget. }
    simpl. set (wa := set_keyboardRecoveryAttempts _ w).
    assert (Hwfa : timers_wf wa) by (subst wa; auto with wf).
    destruct replies as [|r1 rest]; [by apply (Hwait wa)|].
    set (w1 := set_collaborators _ _ _ wa).
    assert (Hwf1 : timers_wf w1) by (subst w1; auto with wf).
    unfold keyboardRecovery_afterStop.
    destruct (outcome r1); [|by apply (Hfail w1)].
    destruct (keyboardMonitor w1); [|by apply (Hfail w1)].
    simpl. destruct rest as [|r2 rest]; [by apply (Hwait w1)|].
    set (w2 := set_collaborators _ _ _ w1).
    assert (Hwf2 : timers_wf w2) by (subst w2; auto with wf).
    unfold keyboardRecovery_afterStart. destruct (outcome r2); simpl.
    + unfold keyboardRecovery_succeeded.
      assert (budget_ok KeyboardRecovery w2) by (by apply (Hwait w2)).
      auto with budget.
    + by apply (Hfail w2).
Qed.

(** When the armed timer of a retry state leaves the queue, none of that
    state is left in it. *)
Lemma outstanding_after_fire (t : Timer) (w : World) :
  timers_wf w -> t ∈ timers w ->
  outstanding (tkind t) (clearTimeout (tid t) w) = [].
Proof.
  intros Hwf Hin. pose proof Hwf as (_ & _ & Hh & _).
  unfold outstanding, clearTimeout. simpl.
  destruct (filter _ (filter _ _)) as [|t' l] eqn:E; [done|exfalso].
  assert (Hin' : t' ∈ filter (fun x => tkind x = tkind t)
                       (filter (fun x => tid x <> tid t) (timers w)))
    by (rewrite E; left).
  apply list_elem_of_filter in Hin' as [Hk [Hid Hin']%list_elem_of_filter].
  pose proof (Hh t Hin) as E1. pose proof (Hh t' Hin') as E2.
  rewrite Hk in E2. congruence.
Qed.

Lemma find_tid (h : nat) (l : list Timer) (t : Timer) :
  List.find (fun t => Nat.eqb (tid t) h) l = Some t -> t ∈ l /\ tid t = h.
Proof.
  intros [Hin Hid]%List.find_some. split; [by apply list_elem_of_In|].
  by apply Nat.eqb_eq.
Qed.

(** Logging a rejection changes no state. *)
Lemma complete_catch_log (replies : list Reply) (t : Task) :
  complete replies (catch_log t) = complete replies t.
Proof.
  revert replies. induction t as [|?|c w k IH]; intros replies; simpl;
    [done..|].
  destruct replies; [done|]. apply IH.
Qed.

Lemma budget_fire (k : TimerKind) (h : nat) (w : World)
    (replies : list Reply) :
  budget_ok k w -> budget_ok k (complete replies (fire h w)).
Proof.
  intros Hb. unfold fire.
  destruct (List.find _ _) as [t|] eqn:Hfind; [|done].
  apply find_tid in Hfind as [Hin <-].
  pose proof Hb as [Hwf [Hrange Hlow]].
  assert (Hb1 : budget_ok k (clearTimeout (tid t) w))
    by (by apply budget_clearTimeout).
  destruct (decide (tkind t = k)) as [Hk|Hk].
  - (* the timer of this retry state: its attempt runs *)
    assert (Hlt : attempts_of k w < limit_of k).
    { apply Hlow. intros Hnil.
      eapply (filter_nil_not_elem_of _ _ t Hnil); done. }
    pose proof (outstanding_after_fire t w Hwf Hin) as Hnone.
    rewrite Hk in Hnone.
    assert (Hgoal : budget_ok k
              (complete replies (attempt k (clearTimeout (tid t) w)))).
    { apply budget_attempt; [apply Hb1|done|]. destruct k; simpl in *; lia. }
    rewrite Hk. destruct k; simpl in *; by rewrite complete_catch_log.
  - (* the timer of the other retry state *)
    apply budget_complete.
    destruct k, (tkind t); try done; apply task_keeps_catch_log.
    + by apply bud_reconnect_attemptKeyboardRecovery.
    + by apply bud_keyboard_attemptResumeReconnect.
Qed.

(** The manual restart resets the keyboard counter before anything else,
    so whatever it schedules is scheduled at zero. *)
Lemma budget_keyboard_ipc_restart (w : World) (replies : list Reply) :
  budget_ok KeyboardRecovery w ->
  budget_ok KeyboardRecovery
    (complete replies (ipc_restart_keyboard_monitoring w)).
Proof.
  intros Hstart. pose proof Hstart as [Hwf _].
  set (Q := fun v : World => timers_wf v /\ keyboardRecoveryAttempts v = 0).
  assert (Hq : forall v, Q v -> budget_ok KeyboardRecovery v).
  { intros v [Hv Ha]. apply budget_low; [done|]. simpl. by rewrite Ha. }
  assert (Hsched : forall d v, Q v ->
            budget_ok KeyboardRecovery (scheduleKeyboardRecovery d v)).
  { intros d v [Hv Ha].
    apply (budget_schedule_low KeyboardRecovery); [done|].
    simpl. by rewrite Ha. }
  assert (Hcollab : forall s km win v, Q v ->
            Q (set_collaborators s km win v)).
  { intros s km win v [Hv Ha]. split; [auto with wf|done]. }
  assert (Hreset : forall s v, timers_wf v ->
            Q (clearKeyboardRecoveryTimer
                 (set_keyboardRecoveryAttempts 0 (splice_session s v)))).
  { intros s v Hv. split; [auto with wf|].
    exact (attempts_of_clear_timer KeyboardRecovery KeyboardRecovery
             (set_keyboardRecoveryAttempts 0 (splice_session s v))). }
  assert (Hreply : forall m v, budget_ok KeyboardRecovery v ->
            budget_ok KeyboardRecovery (set_uiLog m v))
    by (intros; by apply bud_set_uiLog).
  assert (HonFail : forall v, Q v ->
            budget_ok KeyboardRecovery
              (set_uiLog (uiLog v ++ [IpcRestartReply false false])
                 (scheduleKeyboardRecovery
                    KEYBOARD_RECOVERY_BASE_DELAY_MS v))).
  { intros v Hv.
    pose proof (Hsched KEYBOARD_RECOVERY_BASE_DELAY_MS v Hv) as Hb.
    revert Hb. by apply budget_frame. }
  assert (HonDone : forall rs v, Q v ->
            budget_ok KeyboardRecovery
              (complete rs
                 match keyboardMonitor v with
                 | Some km =>
                     Done
                       (set_uiLog
                          (uiLog
                             (if fallbackMode km
                              then scheduleKeyboardRecovery
                                     KEYBOARD_RECOVERY_BASE_DELAY_MS v
                              else v)
                           ++ [IpcRestartReply (negb (fallbackMode km))
                                 (fallbackMode km)])
                          (if fallbackMode km
                           then scheduleKeyboardRecovery
                                  KEYBOARD_RECOVERY_BASE_DELAY_MS v
                           else v))
                 | None =>
                     Done
                       (set_uiLog (uiLog v ++ [IpcRestartReply false false])
                          (scheduleKeyboardRecovery
                             KEYBOARD_RECOVERY_BASE_DELAY_MS v))
                 end)).
  { intros rs v Hv. destruct (keyboardMonitor v) as [km|]; simpl;
      [|by apply HonFail].
    apply Hreply. destruct (fallbackMode km); [by apply Hsched|by apply Hq]. }
  unfold ipc_restart_keyboard_monitoring.
  destruct (keyboardMonitor w) as [km|] eqn:Hkm; [|done].
  set (w1 := clearKeyboardRecoveryTimer (set_keyboardRecoveryAttempts 0 w)).
  assert (Hq1 : Q w1).
  { split; [subst w1; auto with wf|].
    exact (attempts_of_clear_timer KeyboardRecovery KeyboardRecovery
             (set_keyboardRecoveryAttempts 0 w)). }
  assert (Hkm1 : keyboardMonitor w1 = Some km).
  { subst w1. unfold clearKeyboardRecoveryTimer. simpl.
    by destruct (keyboardRecoveryTimer w). }
  unfold restartKeyboardMonitoring. rewrite Hkm1. simpl.
  destruct replies as [|r1 rest]; [by apply Hq|].
  set (wr1 := set_collaborators _ _ _ w1).
  assert (Hqr1 : Q wr1) by (by apply Hcollab).
  destruct (outcome r1); simpl; [|exact (HonFail _ Hqr1)].
  rewrite Hkm1. simpl.
  destruct rest as [|r2 rest]; [exact (Hq _ Hqr1)|].
  set (wr2 := set_collaborators _ _ _ wr1).
  assert (Hqr2 : Q wr2) by (by apply Hcollab).
  destruct (outcome r2); simpl; [|exact (HonFail _ Hqr2)].
  assert (Hdone := HonDone rest _
                      (Hreset (currentSession km) wr2 (proj1 Hqr2))).
  destruct (currentSession km); [|exact Hdone].
  rewrite Hkm1. exact Hdone.
Qed.

End BudgetHistory.

Section BudgetInvariant.
Import Supervisor.

Lemma occurs_budget_reconnect (e : Event * list Reply) (w : World) :
  budget_ok ResumeReconnect w -> budget_ok ResumeReconnect (occurs e w).
Proof.
  intros Hb. destruct e as [ev replies]. unfold occurs. simpl.
  destruct ev; simpl.
  - by apply budget_complete, bud_on_suspend.
  - by apply budget_complete, bud_on_resume.
  - by apply budget_fire.
  - unfold on_keyboard_fallback. auto with budget.
  - unfold on_connection_change. repeat case_match; auto with budget.
  - by apply budget_complete, bud_reconnect_ipc_restart.
  - unfold cleanupPowerHandlers. auto 8 with budget.
  - auto with budget.
Qed.

Lemma occurs_budget_keyboard (e : Event * list Reply) (w : World) :
  budget_ok KeyboardRecovery w ->
  (is_fallback e = true ->
   keyboardRecoveryAttempts w < KEYBOARD_RECOVERY_LIMIT) ->
  budget_ok KeyboardRecovery (occurs e w).
Proof.
  intros Hb Hfb. destruct e as [ev replies]. unfold occurs. simpl.
  destruct ev; simpl.
  - by apply budget_complete, bud_on_suspend.
  - by apply budget_complete, bud_on_resume.
  - by apply budget_fire.
  - unfold on_keyboard_fallback.
    apply (budget_schedule_low KeyboardRecovery); [apply wf_ui_send, Hb|].
    destruct Hb as [_ [Hrange _]]. specialize (Hfb eq_refl).
    unfold ui_send. destruct (mainWindow w); simpl in *; lia.
  - unfold on_connection_change. repeat case_match; auto with budget.
  - by apply budget_keyboard_ipc_restart.
  - unfold cleanupPowerHandlers. auto 8 with budget.
  - auto with budget.
Qed.

Lemma history_budget_reconnect (es : list (Event * list Reply)) (w : World) :
  budget_ok ResumeReconnect w -> budget_ok ResumeReconnect (history es w).
Proof.
  revert w. induction es as [|e es IH]; intros w Hb; [done|].
  apply IH. by apply occurs_budget_reconnect.
Qed.

Lemma history_budget_keyboard (es : list (Event * list Reply)) (w : World) :
  budget_ok KeyboardRecovery w -> fallbacks_within_budget es w ->
  budget_ok KeyboardRecovery (history es w).
Proof.
  revert w. induction es as [|e es IH]; intros w Hb Hfb; [done|].
  destruct Hfb as [Hnow Hlater]. apply IH; [|done].
  by apply occurs_budget_keyboard.
Qed.

Lemma budget_initial k status km window :
  budget_ok k (initial status km window).
Proof.
  apply budget_low; [apply timers_wf_initial|]. by destruct k.
Qed.

(** C3 (as amended): with attempts running one at a time, from start-up
    and through any history of events, the device counter stays between 0
    and 10 and a resume-reconnect timer is armed only while the counter is
    below 10; so once a failed attempt has brought the counter to 10, no
    reconnect timer is armed until the counter is reset (successful
    reconnect, suspend or resume notification, shutdown cleanup).  The
    same holds for the keyboard counter and its limit 5 in histories where
    no keyboard-fallback event arrives while the counter is at the limit.
    In either retry state, a failed attempt whose number has reached the
    limit arms no timer and clears the handle.  The limits are 10 and 5. *)
Theorem C3_retry_budget
    (status : ConnectionStatus) (km : KeyboardMonitor) (window : bool)
    (es : list (Event * list Reply)) :
  let w := history es (initial status km window) in
  within_budget ResumeReconnect w
  /\ (fallbacks_within_budget es (initial status km window) ->
      within_budget KeyboardRecovery w)
  /\ (forall k n, limit_of k <= n ->
        outstanding k (failed k n w) = []
        /\ handle_of k (failed k n w) = None)
  /\ limit_of ResumeReconnect = 10
  /\ limit_of KeyboardRecovery = 5.
Proof.
  intros w.
  pose proof (history_budget_reconnect es _
                (budget_initial ResumeReconnect status km window))
    as [Hwf Hr].
  split; [exact Hr|]. split; [|split; [|by split]].
  - intros Hfb.
    by apply (history_budget_keyboard es _
                (budget_initial KeyboardRecovery status km window)).
  - intros k n Hn. rewrite failed_at_limit by done. split.
    + by apply outstanding_clear_timer.
    + apply clear_timer_handle.
Qed.

End BudgetInvariant.

(* ===================================================================== *)
(** ** The claims on concrete inputs *)
(* ===================================================================== *)

Section Instances.
Import Supervisor Examples.

(** Well-formedness of a queue that is written out. *)
Ltac each_timer :=
  intros ? ?; set_unfold;
  repeat match goal with
  | H : _ \/ _ |- _ => destruct H
  | H : False |- _ => destruct H
  end;
  subst; simpl.

Ltac concrete_wf :=
  unfold timers_wf; simpl; repeat split;
  [ by apply (bool_decide_unpack _)
  | each_timer; lia
  | each_timer; reflexivity
  | intros [] h Hh; inversion Hh; lia
  | intros h Hh; inversion Hh; done ].

Lemma timers_wf_before_third_attempt : timers_wf before_third_attempt.
Proof. concrete_wf. Qed.

Lemma timers_wf_both_armed : timers_wf both_armed.
Proof. concrete_wf. Qed.

Lemma timers_wf_before_third_recovery : timers_wf before_third_recovery.
Proof. concrete_wf. Qed.

(** C1 on the third reconnect attempt, which finds COM3 missing, and on
    the third recovery attempt, whose [startMonitoring] is rejected: the
    next attempts are armed 4000 ms and 8000 ms later. *)
Lemma C1_backoff_delay_witness :
  (let k := ResumeReconnect in
   let w := before_third_attempt in
   let replies := [reply (Fulfilled [com4]) disconnected healthy_monitor] in
   1 <= 3 < limit_of k
   /\ timers_wf w
   /\ attempts_of k w = 3 - 1
   /\ attempt_is_due k w
   /\ answers_fail k w replies = true
   /\ exists w',
        result replies (attempt k w) = Some w'
        /\ attempts_of k w' = 3
        /\ handle_of k w' = Some 3%nat
        /\ outstanding k w'
           = [{| tid := 3; tkind := k; tdelay := 4000 |}])
  /\ (let k := KeyboardRecovery in
      let w := before_third_recovery in
      let replies := [reply ok disconnected stopped_monitor;
                      reply refused disconnected broken_monitor] in
      1 <= 3 < limit_of k
      /\ timers_wf w
      /\ attempts_of k w = 3 - 1
      /\ attempt_is_due k w
      /\ answers_fail k w replies = true
      /\ exists w',
           result replies (attempt k w) = Some w'
           /\ attempts_of k w' = 3
           /\ handle_of k w' = Some 3%nat
           /\ outstanding k w'
              = [{| tid := 3; tkind := k; tdelay := 8000 |}]).
Proof.
  split; intros k w replies.
  - assert (H1 : 1 <= 3 < limit_of k) by (by vm_compute).
    assert (H2 : timers_wf w) by apply timers_wf_before_third_attempt.
    assert (H3 : attempts_of k w = 3 - 1) by reflexivity.
    assert (H4 : attempt_is_due k w).
    { split; [reflexivity|]. exists disconnected, "COM3".
      by repeat split. }
    assert (H5 : answers_fail k w replies = true) by reflexivity.
    repeat (split; [assumption|]).
    exact (proj1 (C1_backoff_delay_after_failed_attempt k 3 w replies
                    H1 H2 H3 H4 H5)).
  - assert (H1 : 1 <= 3 < limit_of k) by (by vm_compute).
    assert (H2 : timers_wf w) by apply timers_wf_before_third_recovery.
    assert (H3 : attempts_of k w = 3 - 1) by reflexivity.
    assert (H4 : attempt_is_due k w).
    { split; [reflexivity|]. exists broken_monitor. split; [reflexivity|].
      by left. }
    assert (H5 : answers_fail k w replies = true) by reflexivity.
    repeat (split; [assumption|]).
    exact (proj1 (C1_backoff_delay_after_failed_attempt k 3 w replies
                    H1 H2 H3 H4 H5)).
Defined.

(** ... and the delay it names is the 4000 ms that the queue shows. *)
Example third_attempt_rearms_after_4000ms :
  timers (complete [reply (Fulfilled [com4]) disconnected healthy_monitor]
            (attemptResumeReconnect before_third_attempt))
  = [{| tid := 3; tkind := ResumeReconnect; tdelay := 4000 |}].
Proof. reflexivity. Qed.

(** C2, counterexample: a keyboard-recovery timer armed before a suspend
    is still armed after it and after the following resume, and when it
    then fires it starts a recovery attempt (the listener is stopped, the
    counter goes up).  This is so when [isActive()] is false at resume
    (the restart there is skipped) and also when it is true but the
    restart fails. *)
Lemma C2_keyboard_timer_survives_suspend :
  outstanding KeyboardRecovery (after_fallback broken_monitor)
  = [{| tid := 0; tkind := KeyboardRecovery; tdelay := 2000 |}]
  /\ outstanding KeyboardRecovery
       (occurs (Suspend, []) (after_fallback broken_monitor))
     = [{| tid := 0; tkind := KeyboardRecovery; tdelay := 2000 |}]
  /\ outstanding KeyboardRecovery (slept broken_monitor [])
     = [{| tid := 0; tkind := KeyboardRecovery; tdelay := 2000 |}]
  /\ calls [reply refused disconnected broken_monitor]
       (fire 0 (slept broken_monitor []))
     = [StopMonitoring]
  /\ keyboardRecoveryAttempts
       (complete [reply refused disconnected broken_monitor]
          (fire 0 (slept broken_monitor [])))
     = 1
  /\ outstanding KeyboardRecovery
       (slept degraded_monitor [reply refused disconnected degraded_monitor])
     = [{| tid := 0; tkind := KeyboardRecovery; tdelay := 2000 |}]
  /\ calls [reply refused disconnected degraded_monitor]
       (fire 0 (slept degraded_monitor
                  [reply refused disconnected degraded_monitor]))
     = [StopMonitoring].
Proof. by vm_compute. Qed.

(** C2 on a world with both timers armed, the device disconnected. *)
Lemma C2_suspend_witness :
  let w' := complete [] (on_suspend both_armed) in
  timers_wf both_armed
  /\ systemSuspended w' = true
  /\ systemSuspended w' = true
  /\ resumeReconnectTimer w' = None
  /\ outstanding ResumeReconnect w' = []
  /\ keyboardRecoveryTimer w' = keyboardRecoveryTimer both_armed
  /\ outstanding KeyboardRecovery w'
     = outstanding KeyboardRecovery both_armed
  /\ calls [] (fire 1 w') = []
  /\ (complete [] (fire 1 w') = w'
      \/ complete [] (fire 1 w') = clearTimeout 1 w').
Proof.
  intros w'. split; [apply timers_wf_both_armed|].
  split; [reflexivity|].
  exact (C2_suspend_cancels_reconnect_timer_and_gates_attempts
           both_armed w' [] 1 timers_wf_both_armed eq_refl).
Defined.

(** C3, counterexample.  Keyboard: five attempts have failed, the counter
    is at its limit and no timer is armed; a further keyboard-fallback
    event arms one all the same, without a reset, and when it fires the
    sixth attempt runs and the counter passes the limit.  Device: an
    attempt that hangs while ten later ones fail arms a timer at the
    limit when it fails at last, and the eleventh attempt runs. *)
Lemma C3_budget_exceeded :
  (keyboardRecoveryAttempts keyboard_exhausted = KEYBOARD_RECOVERY_LIMIT
   /\ outstanding KeyboardRecovery keyboard_exhausted = []
   /\ outstanding KeyboardRecovery
        (occurs (KeyboardFallback "hook lost", []) keyboard_exhausted)
      = [{| tid := 5; tkind := KeyboardRecovery; tdelay := 2000 |}]
   /\ keyboardRecoveryAttempts
        (occurs (KeyboardFallback "hook lost", []) keyboard_exhausted)
      = KEYBOARD_RECOVERY_LIMIT
   /\ keyboardRecoveryAttempts
        (history [(KeyboardFallback "hook lost", []); recovery_fails 5]
           keyboard_exhausted)
      = KEYBOARD_RECOVERY_LIMIT + 1)
  /\ (resumeReconnectAttempts (world overlapping_attempts)
      = RESUME_RETRY_LIMIT
      /\ outstanding ResumeReconnect (world overlapping_attempts) = []
      /\ outstanding ResumeReconnect
           (world (turns [Settle 0 refused] overlapping_attempts))
         = [{| tid := 11; tkind := ResumeReconnect; tdelay := 1000 |}]
      /\ resumeReconnectAttempts
           (world (turns [Settle 0 refused; Handle (TimerFires 11)]
                     overlapping_attempts))
         = RESUME_RETRY_LIMIT + 1).
Proof. by vm_compute. Qed.

Lemma fallbacks_within_budget_exhausting_history :
  fallbacks_within_budget exhausting_history
    (initial disconnected broken_monitor true).
Proof. vm_compute. repeat split; intros; done. Qed.

(** C3 on a history that uses up both budgets: after ten failed reconnect
    attempts and five failed recovery attempts both counters stand at
    their limits and no retry timer is armed, nor is one armed by the stale
    timer and the connection notice that follow.  And the [catch] block of
    a tenth attempt, entered while the 30000 ms timer of the ninth is armed,
    cancels that timer. *)
Lemma C3_retry_budget_witness :
  let start := initial disconnected broken_monitor true in
  let w := history exhausting_history start in
  let w9 := history nine_failures start in
  fallbacks_within_budget exhausting_history start
  /\ resumeReconnectAttempts w = limit_of ResumeReconnect
  /\ keyboardRecoveryAttempts w = limit_of KeyboardRecovery
  /\ within_budget ResumeReconnect w
  /\ within_budget KeyboardRecovery w
  /\ outstanding ResumeReconnect w = []
  /\ outstanding KeyboardRecovery w = []
  /\ outstanding ResumeReconnect w9
     = [{| tid := 9; tkind := ResumeReconnect; tdelay := 30000 |}]
  /\ outstanding ResumeReconnect (failed ResumeReconnect 10 w9) = []
  /\ handle_of ResumeReconnect (failed ResumeReconnect 10 w9) = None.
Proof.
  intros start w w9.
  destruct (C3_retry_budget disconnected broken_monitor true
              exhausting_history) as (Hr & Hk & _).
  destruct (C3_retry_budget disconnected broken_monitor true nine_failures)
    as (_ & _ & Hlimit & _).
  specialize (Hk fallbacks_within_budget_exhausting_history).
  specialize (Hlimit ResumeReconnect 10 ltac:(by vm_compute)).
  assert (Ha : resumeReconnectAttempts w = limit_of ResumeReconnect)
    by (by vm_compute).
  assert (Hb : keyboardRecoveryAttempts w = limit_of KeyboardRecovery)
    by (by vm_compute).
  assert (H9 : outstanding ResumeReconnect w9
               = [{| tid := 9; tkind := ResumeReconnect; tdelay := 30000 |}])
    by (by vm_compute).
  change (within_budget ResumeReconnect w) in Hr.
  change (within_budget KeyboardRecovery w) in Hk.
  change (outstanding ResumeReconnect (failed ResumeReconnect 10 w9) = []
          /\ handle_of ResumeReconnect (failed ResumeReconnect 10 w9) = None)
    in Hlimit.
  split; [apply fallbacks_within_budget_exhausting_history|].
  clearbody w w9.
  split; [exact Ha|]. split; [exact Hb|].
  split; [exact Hr|]. split; [exact Hk|].
  split.
  { destruct Hr as [_ Hnone].
    destruct (outstanding ResumeReconnect w) as [|t l]; [done|].
    exfalso. specialize (Hnone ltac:(done)).
    change (resumeReconnectAttempts w < limit_of ResumeReconnect) in Hnone.
    lia. }
  split.
  { destruct Hk as [_ Hnone].
    destruct (outstanding KeyboardRecovery w) as [|t l]; [done|].
    exfalso. specialize (Hnone ltac:(done)).
    change (keyboardRecoveryAttempts w < limit_of KeyboardRecovery) in Hnone.
    lia. }
  split; [exact H9|]. exact Hlimit.
Defined.

(** C4 (the claim fails on the code): a session holds 42 keystrokes when
    the listener falls back; the recovery timer fires, the listener is
    stopped and started, and the started listener holds a fresh session.
    [attemptKeyboardRecovery] leaves it at that: the count is 0.  The
    manual restart, given the same answers, restores 42. *)
Theorem C4_recovery_attempt_drops_the_keystroke_count :
  keystrokes (after_fallback degraded_monitor) = Some 42
  /\ calls restart_goes_well (fire 0 (after_fallback degraded_monitor))
     = [StopMonitoring; StartMonitoring]
  /\ keystrokes
       (complete restart_goes_well (fire 0 (after_fallback degraded_monitor)))
     = Some 0
  /\ keyboardRecoveryAttempts
       (complete restart_goes_well (fire 0 (after_fallback degraded_monitor)))
     = 0
  /\ keystrokes
       (complete restart_goes_well
          (ipc_restart_keyboard_monitoring (after_fallback degraded_monitor)))
     = Some 42.
Proof. by vm_compute. Qed.

(** C5, counterexample: the pending port is COM3 and the retry timer
    fires, but the device is connected already: no port query is made,
    and pending port, counter and timer are cleared. *)
Lemma C5_attempt_without_port_query :
  pendingResumePort reconnected_by_hand = Some "COM3"
  /\ outstanding ResumeReconnect reconnected_by_hand
     = [{| tid := 0; tkind := ResumeReconnect; tdelay := 1000 |}]
  /\ calls [reply (Fulfilled [com3]) (connected_on "COM3") healthy_monitor]
       (fire 0 reconnected_by_hand)
     = []
  /\ calls [reply (Fulfilled [com3]) (connected_on "COM3") healthy_monitor]
       (attemptResumeReconnect reconnected_by_hand)
     = []
  /\ pendingResumePort
       (complete [] (attemptResumeReconnect reconnected_by_hand))
     = None.
Proof. by vm_compute. Qed.

(** C5 on the third attempt: with COM3 listed and the connection made,
    and with COM3 missing from the list. *)
Lemma C5_resume_reconnect_attempt_witness :
  let w := before_third_attempt in
  let t := attemptResumeReconnect w in
  let listed := reply (Fulfilled [com4; com3]) disconnected healthy_monitor in
  let made := reply ok (connected_on "COM3") healthy_monitor in
  let missing := reply (Fulfilled [com4]) disconnected healthy_monitor in
  timers_wf w
  /\ esp32SerialManager w = Some disconnected
  /\ pendingResumePort w = Some "COM3"
  /\ "COM3" <> ""
  /\ systemSuspended w = false
  /\ ("COM3" ∈ (path <$> [com4; com3])
      /\ calls [listed; made] t
         = [GetAvailablePorts; ConnectToDevice (Some "COM3")]
      /\ pendingResumePort (complete [listed; made] t) = None
      /\ resumeReconnectAttempts (complete [listed; made] t) = 0
      /\ resumeReconnectTimer (complete [listed; made] t) = None
      /\ outstanding ResumeReconnect (complete [listed; made] t) = [])
  /\ (("COM3" ∉ (path <$> [com4]))
      /\ calls [missing] t = [GetAvailablePorts]
      /\ pendingResumePort (complete [missing] t) = Some "COM3"
      /\ resumeReconnectAttempts (complete [missing] t) = 3
      /\ outstanding ResumeReconnect (complete [missing] t)
         = [{| tid := 3; tkind := ResumeReconnect; tdelay := 4000 |}]).
Proof.
  intros w t listed made missing.
  assert (H1 : timers_wf w) by apply timers_wf_before_third_attempt.
  assert (H2 : esp32SerialManager w = Some disconnected) by reflexivity.
  assert (H3 : pendingResumePort w = Some "COM3") by reflexivity.
  assert (H4 : "COM3" <> "") by discriminate.
  assert (H5 : systemSuspended w = false) by reflexivity.
  assert (Hin : "COM3" ∈ (path <$> [com4; com3]))
    by (by apply (bool_decide_unpack _)).
  assert (Hout : "COM3" ∉ (path <$> [com4]))
    by (by apply (bool_decide_unpack _)).
  repeat (split; [assumption|]).
  split.
  - split; [exact Hin|].
    exact (proj2 (C5_resume_reconnect_attempt w disconnected "COM3" listed
                    [made] H1 H2 H3 H4 H5) Hin).
  - split; [exact Hout|].
    exact (proj1 (C5_resume_reconnect_attempt w disconnected "COM3" missing
                    [] H1 H2 H3 H4 H5) Hout).
Defined.

(** C6, counterexample: the machine wakes up while [isActive()] is false;
    the resume handler stops and starts nothing, though the listener is in
    fallback mode and a forced restart would have gone well. *)
Lemma C6_resume_without_restart :
  kmIsActive broken_monitor = false
  /\ fallbackMode broken_monitor = true
  /\ calls restart_goes_well
       (on_resume (occurs (Suspend, [])
                     (initial disconnected broken_monitor true)))
     = []
  /\ calls restart_goes_well
       (restartKeyboardMonitoring true
          (occurs (Suspend, []) (initial disconnected broken_monitor true)))
     = [StopMonitoring; StartMonitoring].
Proof. by vm_compute. Qed.

(** C6 on a listener in fallback mode that reports itself active. *)
Lemma C6_resume_witness :
  let w := after_fallback degraded_monitor in
  keyboardMonitor w = Some degraded_monitor
  /\ kmIsActive degraded_monitor = true
  /\ calls restart_goes_well (on_resume w)
     = [StopMonitoring; StartMonitoring].
Proof.
  intros w.
  assert (H1 : keyboardMonitor w = Some degraded_monitor) by reflexivity.
  assert (H2 : kmIsActive degraded_monitor = true) by reflexivity.
  repeat (split; [assumption|]).
  exact (proj2 (C6_resume_restarts_listener_only_if_active w
                  degraded_monitor H1) H2
           (reply ok disconnected stopped_monitor)
           [reply ok disconnected restarted_monitor]).
Defined.

(** C8, counterexample: the keyboard hook is lost and the machine is put
    to sleep; the recovery timer (handle 0, 2000 ms) stays armed.  A
    scheduling call that comes now, from the [catch] block of an attempt or
    from a second fallback notice, is refused by its guard: the pending
    timer is neither cancelled nor replaced. *)
Lemma C8_refused_schedule_keeps_pending_timer :
  let asleep := turns falls_asleep (boot disconnected broken_monitor true) in
  let w := world asleep in
  outstanding KeyboardRecovery w
  = [{| tid := 0; tkind := KeyboardRecovery; tdelay := 2000 |}]
  /\ keyboardRecoveryTimer w = Some 0%nat
  /\ can_schedule KeyboardRecovery w = false
  /\ scheduleKeyboardRecovery 4000 w = w
  /\ outstanding KeyboardRecovery (scheduleKeyboardRecovery 4000 w)
     = [{| tid := 0; tkind := KeyboardRecovery; tdelay := 2000 |}]
  /\ outstanding KeyboardRecovery
       (world (turn (Handle (KeyboardFallback "still lost")) asleep))
     = [{| tid := 0; tkind := KeyboardRecovery; tdelay := 2000 |}].
Proof. by vm_compute. Qed.

(** C10 on a connection made on COM3. *)
Lemma C10_connection_change_witness :
  connected plugged_in = true
  /\ changePort plugged_in = Some "COM3"
  /\ "COM3" <> ""
  /\ pendingResumePort
       (on_connection_change (Some plugged_in)
          (initial disconnected healthy_monitor true))
     = Some "COM3".
Proof.
  assert (H1 : connected plugged_in = true) by reflexivity.
  assert (H2 : changePort plugged_in = Some "COM3") by reflexivity.
  assert (H3 : "COM3" <> "") by discriminate.
  repeat (split; [assumption|]).
  exact (C10_connection_change_seeds_pending_port
           (initial disconnected healthy_monitor true) plugged_in "COM3"
           H1 H2 H3).
Defined.

(** C7 on a trace with a tick in the middle: the tick at its end sends the
    pair (14, 60), the latest of each kind. *)
Lemma C7_stats_tick_witness :
  let st := StatsMultiplexer.run mux_trace mux_start in
  StatsMultiplexer.esp32SerialManager st = Some (connected_on "COM3")
  /\ isConnected (connected_on "COM3") = true
  /\ StatsMultiplexer.sent (StatsMultiplexer.stats_tick st)
     = StatsMultiplexer.sent st
       ++ [(StatsMultiplexer.latest_system_stats mux_trace 0,
            StatsMultiplexer.latest_typing_stats mux_trace 0)].
Proof.
  intros st.
  assert (H1 : StatsMultiplexer.esp32SerialManager st
               = Some (connected_on "COM3")) by reflexivity.
  assert (H2 : isConnected (connected_on "COM3") = true) by reflexivity.
  repeat (split; [assumption|]).
  exact (proj2 (C7_stats_tick_sends_latest_pair_iff_connected
                  mux_trace mux_start (connected_on "COM3") H1) H2).
Defined.

Example stats_tick_sends_14_60 :
  StatsMultiplexer.sent
    (StatsMultiplexer.stats_tick (StatsMultiplexer.run mux_trace mux_start))
  = [(10, 60); (14, 60)].
Proof. reflexivity. Qed.

End Instances.

(* ===================================================================== *)
(** ** Supervisor: what holds under every interleaving *)
(* ===================================================================== *)

Section Interleavings.
Import Supervisor.

(** One turn keeps what every handler keeps. *)
Lemma system_keeps_any_turn (P : World -> Prop) (t : Turn) (s : System) :
  (forall e w, P w -> task_keeps P (handler e w)) ->
  system_keeps P s -> system_keeps P (turn t s).
Proof.
  intros Hh [Hw Hfl]. destruct t as [e|i r]; simpl.
  - apply system_keeps_spawn; [by apply Hh|done].
  - destruct (inflight s !! i) as [p|] eqn:Hp; [|by split].
    apply system_keeps_spawn.
    + apply Hfl; [|done]. by eapply list_elem_of_lookup_2.
    + intros p' Hin. apply Hfl. by eapply list_elem_of_delete_inv.
Qed.

Lemma system_keeps_turns (P : World -> Prop) (ts : list Turn) (s : System) :
  (forall e w, P w -> task_keeps P (handler e w)) ->
  system_keeps P s -> system_keeps P (turns ts s).
Proof.
  intros Hh. revert s. induction ts as [|t ts IH]; intros s Hs; [done|].
  apply IH. by apply system_keeps_any_turn.
Qed.

Lemma truthy_string_not_empty (p : option string) :
  truthy_string p = true -> p <> Some "".
Proof. by intros Ht ->. Qed.

(** Unfolds a handler down to the assignments it makes. *)
Ltac open_handlers :=
  unfold on_suspend, on_resume, fire, on_keyboard_fallback,
    on_connection_change, ipc_restart_keyboard_monitoring,
    cleanupPowerHandlers, attemptResumeReconnect, attemptKeyboardRecovery,
    restartKeyboardMonitoring, resumeReconnect_afterPorts,
    resumeReconnect_afterConnect, keyboardRecovery_afterStop,
    keyboardRecovery_afterStart, resumeReconnect_succeeded,
    keyboardRecovery_succeeded, resumeReconnect_failed,
    keyboardRecovery_failed, scheduleResumeReconnect,
    scheduleKeyboardRecovery, clearResumeReconnectTimer,
    clearKeyboardRecoveryTimer, splice_session, ui_send, setTimeout.

Lemma pending_port_handler (e : Event) (w : World) :
  pending_port_ok w -> task_keeps pending_port_ok (handler e w).
Proof.
  unfold pending_port_ok. intros Hw. destruct e; simpl; open_handlers; simpl.
  all: repeat first
         [ progress simpl
         | case_match
         | match goal with
           | |- _ /\ _ => split
           | |- forall _ : Settled, _ => intros ? ? ?
           end ].
  all: try done.
  all: try (apply truthy_string_not_empty;
            match goal with
            | H : _ && truthy_string _ = true |- _ =>
                by apply andb_true_iff in H as [_ ?]
            | H : truthy_string _ = true |- _ => exact H
            end).
Qed.

(** X1: in every state the event loop can reach, under any interleaving,
    the remembered resume port is [null] or a non-empty string; so the
    truthiness test [!pendingResumePort] is a null test there. *)
Theorem pending_port_is_null_or_non_empty
    (ts : list Turn) (status : ConnectionStatus) (km : KeyboardMonitor)
    (window : bool) :
  let w := world (turns ts (boot status km window)) in
  pendingResumePort w <> Some ""
  /\ truthy_string (pendingResumePort w)
     = bool_decide (is_Some (pendingResumePort w)).
Proof.
  intros w.
  assert (H : system_keeps pending_port_ok (turns ts (boot status km window))).
  { apply system_keeps_turns; [apply pending_port_handler|].
    split; [done|]. intros p Hin. inversion Hin. }
  destruct H as [Hw _]. fold w in Hw. unfold pending_port_ok in Hw.
  split; [done|]. destruct (pendingResumePort w) as [p|]; [|done]. simpl.
  destruct (String.eqb_spec p "") as [->|]; done.
Qed.

Ltac quiet_goal :=
  unfold stays_quiet; simpl;
  repeat first
    [ progress simpl
    | case_match
    | match goal with
      | |- _ /\ _ => split
      | |- forall _ : Settled, _ => intros ? ?
      | |- _ = true -> _ => intros ?
      | |- forall _ : Timer, _ => intros ? ?
      end ];
  simpl in *;
  try congruence;
  try match goal with
  | H : systemSuspended ?w = true, H' : systemSuspended ?w || _ = false |- _ =>
      rewrite H in H'; discriminate H'
  end;
  repeat match goal with
  | H : _ ∈ filter _ _ |- _ => apply list_elem_of_filter in H as [_ H]
  end;
  try done.

(** When the flag is up, a handler other than the resume and the quit
    handler arms nothing ... *)
Lemma quiet_handler (e : Event) (w : World) :
  wakes (Handle e) = false -> task_steps stays_quiet w (handler e w).
Proof.
  intros He. destruct e; try done; simpl; open_handlers; quiet_goal.
Qed.

(** ... and neither does the rest of any handler, whenever it is resumed. *)
Lemma quiet_continuations (e : Event) (w : World) :
  match handler e w with
  | Await _ _ k => forall r w', task_steps stays_quiet w' (k r w')
  | _ => True
  end.
Proof.
  destruct e; simpl; open_handlers; simpl;
    repeat case_match; try done; simplify_eq/=; intros; quiet_goal.
Qed.

Lemma stays_quiet_refl (w : World) : stays_quiet w w.
Proof. by intros Hs. Qed.

Lemma stays_quiet_trans (w1 w2 w3 : World) :
  stays_quiet w1 w2 -> stays_quiet w2 w3 -> stays_quiet w1 w3.
Proof.
  intros H12 H23 Hs. destruct (H12 Hs) as (Hs2 & Hn2 & Ht2).
  destruct (H23 Hs2) as (Hs3 & Hn3 & Ht3).
  split; [done|]. split; [congruence|]. auto.
Qed.

(** What is parked with the suspended functions after a turn is what was
    parked before, less the function that ran, plus what is left of it. *)
Lemma inflight_steps_spawn (R : World -> World -> Prop) (t : Task)
    (others : list Pending) :
  match t with
  | Await _ _ k => forall r w', task_steps R w' (k r w')
  | _ => True
  end ->
  (forall p, p ∈ others ->
     forall r w', task_steps R w' (resumeWith p r w')) ->
  inflight_steps R (spawn t others).
Proof.
  intros Ht Ho. destruct t as [w|e w|c w k]; simpl; [done..|].
  intros p [Hin| ->%list_elem_of_singleton]%elem_of_app; [by apply Ho|].
  exact Ht.
Qed.

Lemma inflight_steps_turn (R : World -> World -> Prop) (t : Turn)
    (s : System) :
  (forall e w,
     match handler e w with
     | Await _ _ k => forall r w', task_steps R w' (k r w')
     | _ => True
     end) ->
  inflight_steps R s -> inflight_steps R (turn t s).
Proof.
  intros Hh Hfl. destruct t as [e|i r]; simpl.
  - apply inflight_steps_spawn; [apply Hh|exact Hfl].
  - destruct (inflight s !! i) as [p|] eqn:Hp; [|done].
    assert (Hp' : task_steps R (world s) (resumeWith p r (world s))).
    { apply Hfl. by eapply list_elem_of_lookup_2. }
    apply inflight_steps_spawn.
    + destruct (resumeWith p r (world s)); try done. apply Hp'.
    + intros p' Hin. apply Hfl. by eapply list_elem_of_delete_inv.
Qed.

Lemma inflight_steps_turns (R : World -> World -> Prop) (ts : list Turn)
    (s : System) :
  (forall e w,
     match handler e w with
     | Await _ _ k => forall r w', task_steps R w' (k r w')
     | _ => True
     end) ->
  inflight_steps R s -> inflight_steps R (turns ts s).
Proof.
  intros Hh. revert s. induction ts as [|t ts IH]; intros s Hs; [done|].
  apply IH. by apply inflight_steps_turn.
Qed.

Lemma world_spawn_steps (R : World -> World -> Prop) (w0 : World)
    (t : Task) (others : list Pending) :
  task_steps R w0 t -> R w0 (world (spawn t others)).
Proof. destruct t; simpl; [done..|]. by intros [? _]. Qed.

Lemma quiet_turn (t : Turn) (s : System) :
  inflight_steps stays_quiet s -> wakes t = false ->
  stays_quiet (world s) (world (turn t s)).
Proof.
  intros Hfl Hw. destruct t as [e|i r]; simpl.
  - by apply world_spawn_steps, quiet_handler.
  - destruct (inflight s !! i) as [p|] eqn:Hp; [|apply stays_quiet_refl].
    apply world_spawn_steps, Hfl. by eapply list_elem_of_lookup_2.
Qed.

(** X2: from any reachable state in which the system is suspended, and
    through any turns of the event loop other than the resume and the quit
    handler (events, firing timers, settling promises of functions that
    were suspended earlier), the flag stays up, no timer is armed and the
    timer queue only loses entries. *)
Theorem nothing_is_armed_while_suspended
    (before during : list Turn) (status : ConnectionStatus)
    (km : KeyboardMonitor) (window : bool) :
  let s := turns before (boot status km window) in
  let s' := turns during s in
  forallb (fun t => negb (wakes t)) during = true ->
  systemSuspended (world s) = true ->
  systemSuspended (world s') = true
  /\ nextTimerId (world s') = nextTimerId (world s)
  /\ (forall t, t ∈ timers (world s') -> t ∈ timers (world s)).
Proof.
  intros s s' Hduring.
  assert (Hfl : inflight_steps stays_quiet s).
  { apply inflight_steps_turns; [apply quiet_continuations|].
    intros p Hin. inversion Hin. }
  change (stays_quiet (world s) (world s')). subst s'.
  clearbody s. revert s Hfl.
  induction during as [|t during IH]; intros s Hfl;
    [apply stays_quiet_refl|].
  simpl in Hduring. apply andb_true_iff in Hduring as [Ht Hrest].
  apply negb_true_iff in Ht.
  apply stays_quiet_trans with (w2 := world (turn t s)).
  - by apply quiet_turn.
  - apply IH; [done|].
    apply inflight_steps_turn; [apply quiet_continuations|done].
Qed.

End Interleavings.

(* ===================================================================== *)
(** ** Supervisor: the two retry states do not touch each other *)
(* ===================================================================== *)

Section RetryStateFacts.
Import Supervisor.

Lemma systemSuspended_clear_timer (k : TimerKind) (w : World) :
  systemSuspended (clear_timer k w) = systemSuspended w.
Proof.
  destruct k; simpl;
    unfold clearResumeReconnectTimer, clearKeyboardRecoveryTimer;
    try destruct (resumeReconnectTimer w);
    try destruct (keyboardRecoveryTimer w); reflexivity.
Qed.

Lemma systemSuspended_schedule (k : TimerKind) (d : Z) (w : World) :
  systemSuspended (schedule k d w) = systemSuspended w.
Proof.
  destruct k; simpl;
    [unfold scheduleResumeReconnect | unfold scheduleKeyboardRecovery].
  - destruct (systemSuspended w) eqn:E; [done|].
    by rewrite <- (systemSuspended_clear_timer ResumeReconnect w) in E.
  - destruct (_ || _) eqn:E'; [done|]. simpl.
    apply (systemSuspended_clear_timer KeyboardRecovery w).
Qed.

Lemma systemSuspended_failed (k : TimerKind) (n : Z) (w : World) :
  systemSuspended (failed k n w) = systemSuspended w.
Proof.
  destruct (Z.lt_ge_cases n (limit_of k)).
  - rewrite failed_below_limit by done. apply systemSuspended_schedule.
  - rewrite failed_at_limit by done. apply systemSuspended_clear_timer.
Qed.

Lemma retry_state_clear_timer_other (k k' : TimerKind) (w : World) :
  timers_wf w -> k' <> k ->
  retry_state k' (clear_timer k w) = retry_state k' w.
Proof.
  intros Hwf Hne. unfold retry_state.
  by rewrite attempts_of_clear_timer, handle_of_clear_timer_other,
    outstanding_clear_timer_other.
Qed.

Lemma handle_of_schedule_other (k k' : TimerKind) (d : Z) (w : World) :
  k' <> k -> handle_of k' (schedule k d w) = handle_of k' w.
Proof.
  intros Hne. destruct (can_schedule k w) eqn:Hg;
    [|by rewrite schedule_closed].
  destruct (schedule_open k d w Hg) as (_ & _ & _ & Hother). by apply Hother.
Qed.

Lemma retry_state_schedule_other (k k' : TimerKind) (d : Z) (w : World) :
  timers_wf w -> k' <> k ->
  retry_state k' (schedule k d w) = retry_state k' w.
Proof.
  intros Hwf Hne. unfold retry_state.
  rewrite attempts_of_schedule, handle_of_schedule_other by done.
  by rewrite (outstanding_schedule_other k' k) by done.
Qed.

Lemma retry_state_failed_other (k k' : TimerKind) (n : Z) (w : World) :
  timers_wf w -> k' <> k ->
  retry_state k' (failed k n w) = retry_state k' w.
Proof.
  intros Hwf Hne. destruct (Z.lt_ge_cases n (limit_of k)).
  - rewrite failed_below_limit by done. by apply retry_state_schedule_other.
  - rewrite failed_at_limit by done. by apply retry_state_clear_timer_other.
Qed.

(** Two armed timers with the same handle are the same timer. *)
Lemma same_handle_same_timer (l : list Timer) (t1 t2 : Timer) :
  NoDup (tid <$> l) -> t1 ∈ l -> t2 ∈ l -> tid t1 = tid t2 -> t1 = t2.
Proof.
  induction l as [|t l IH]; intros Hnd H1 H2 Hid; [by inversion H1|].
  simpl in Hnd. apply NoDup_cons in Hnd as [Hnotin Hnd].
  apply elem_of_cons in H1 as [->|H1], H2 as [->|H2]; [done| | |by apply IH].
  - exfalso. apply Hnotin. rewrite Hid. by apply list_elem_of_fmap_2.
  - exfalso. apply Hnotin. rewrite <- Hid. by apply list_elem_of_fmap_2.
Qed.

Lemma kind_of_timer_Some (h : nat) (w : World) (k : TimerKind) :
  kind_of_timer h w = Some k ->
  exists t, List.find (fun t => Nat.eqb (tid t) h) (timers w) = Some t
            /\ t ∈ timers w /\ tid t = h /\ tkind t = k.
Proof.
  unfold kind_of_timer. destruct (List.find _ _) as [t|] eqn:Hf; [|done].
  intros [= <-]. exists t. split; [done|].
  by destruct (find_tid h _ t Hf).
Qed.

(** A timer that fires leaves the armed timer of the other retry state in
    the queue. *)
Lemma outstanding_clearTimeout_other (h : nat) (k k' : TimerKind) (w : World) :
  timers_wf w -> kind_of_timer h w = Some k -> k' <> k ->
  outstanding k' (clearTimeout h w) = outstanding k' w.
Proof.
  intros (Hnd & _) (t & _ & Hin & Hid & Hk)%kind_of_timer_Some Hne.
  unfold outstanding, clearTimeout. simpl.
  apply filter_filter_implied. intros t' Hin' Hk' Hid'.
  assert (t' = t)
    by (apply (same_handle_same_timer (timers w)); [done..|congruence]).
  congruence.
Qed.

Lemma retry_state_clearTimeout_other (h : nat) (k k' : TimerKind) (w : World) :
  timers_wf w -> kind_of_timer h w = Some k -> k' <> k ->
  retry_state k' (clearTimeout h w) = retry_state k' w.
Proof.
  intros Hwf Hk Hne. unfold retry_state.
  rewrite (outstanding_clearTimeout_other h k k') by done. by destruct k'.
Qed.

End RetryStateFacts.

Section IndependenceSteps.
Import Supervisor.

Lemma keeps_device_refl (w : World) : keeps_device w w.
Proof. by intros Hwf. Qed.

Lemma keeps_device_trans (w1 w2 w3 : World) :
  keeps_device w1 w2 -> keeps_device w2 w3 -> keeps_device w1 w3.
Proof.
  intros H12 H23 Hwf. destruct (H12 Hwf) as (Hwf2 & Hs2 & Hp2 & Hr2).
  destruct (H23 Hwf2) as (Hwf3 & Hs3 & Hp3 & Hr3).
  split; [done|]. repeat split; congruence.
Qed.

Lemma keeps_keyboard_refl (w : World) : keeps_keyboard w w.
Proof. by intros Hwf. Qed.

Lemma keeps_keyboard_trans (w1 w2 w3 : World) :
  keeps_keyboard w1 w2 -> keeps_keyboard w2 w3 -> keeps_keyboard w1 w3.
Proof.
  intros H12 H23 Hwf. destruct (H12 Hwf) as (Hwf2 & Hs2 & Hr2).
  destruct (H23 Hwf2) as (Hwf3 & Hs3 & Hr3).
  split; [done|]. split; congruence.
Qed.

(** An assignment to a variable outside the device side keeps it. *)
Lemma keeps_device_frame (w w' : World) :
  timers w' = timers w ->
  nextTimerId w' = nextTimerId w ->
  resumeReconnectTimer w' = resumeReconnectTimer w ->
  keyboardRecoveryTimer w' = keyboardRecoveryTimer w ->
  systemSuspended w' = systemSuspended w ->
  pendingResumePort w' = pendingResumePort w ->
  resumeReconnectAttempts w' = resumeReconnectAttempts w ->
  keeps_device w w'.
Proof.
  intros Ht Hn Hr Hk Hs Hp Ha Hwf.
  split; [by apply (timers_wf_frame w)|]. split; [done|]. split; [done|].
  unfold retry_state, outstanding. simpl. by rewrite Ht, Hr, Ha.
Qed.

Lemma keeps_keyboard_frame (w w' : World) :
  timers w' = timers w ->
  nextTimerId w' = nextTimerId w ->
  resumeReconnectTimer w' = resumeReconnectTimer w ->
  keyboardRecoveryTimer w' = keyboardRecoveryTimer w ->
  systemSuspended w' = systemSuspended w ->
  keyboardRecoveryAttempts w' = keyboardRecoveryAttempts w ->
  keeps_keyboard w w'.
Proof.
  intros Ht Hn Hr Hk Hs Ha Hwf.
  split; [by apply (timers_wf_frame w)|]. split; [done|].
  unfold retry_state, outstanding. simpl. by rewrite Ht, Hk, Ha.
Qed.

Section Steps.
Context (w0 : World).

Lemma dev_set_keyboardRecoveryAttempts v w :
  keeps_device w0 w -> keeps_device w0 (set_keyboardRecoveryAttempts v w).
Proof. intros H. eapply keeps_device_trans; [exact H|]. by apply keeps_device_frame. Qed.

Lemma dev_set_keyboardMonitor v w :
  keeps_device w0 w -> keeps_device w0 (set_keyboardMonitor v w).
Proof. intros H. eapply keeps_device_trans; [exact H|]. by apply keeps_device_frame. Qed.

Lemma dev_set_uiLog v w :
  keeps_device w0 w -> keeps_device w0 (set_uiLog v w).
Proof. intros H. eapply keeps_device_trans; [exact H|]. by apply keeps_device_frame. Qed.

Lemma dev_set_collaborators s km win w :
  keeps_device w0 w -> keeps_device w0 (set_collaborators s km win w).
Proof. intros H. eapply keeps_device_trans; [exact H|]. by apply keeps_device_frame. Qed.

Lemma dev_ui_send m w : keeps_device w0 w -> keeps_device w0 (ui_send m w).
Proof.
  unfold ui_send. destruct (mainWindow w); [|done]. apply dev_set_uiLog.
Qed.

Lemma dev_splice_session s w :
  keeps_device w0 w -> keeps_device w0 (splice_session s w).
Proof.
  unfold splice_session. intros H.
  repeat case_match; auto using dev_set_keyboardMonitor.
Qed.

Lemma dev_clearKeyboardRecoveryTimer w :
  keeps_device w0 w -> keeps_device w0 (clearKeyboardRecoveryTimer w).
Proof.
  intros H. eapply keeps_device_trans; [exact H|]. intros Hwf.
  split; [by apply (timers_wf_clear_timer KeyboardRecovery)|].
  split; [apply (systemSuspended_clear_timer KeyboardRecovery)|].
  split; [apply (pendingResumePort_clear_timer KeyboardRecovery)|].
  by apply (retry_state_clear_timer_other KeyboardRecovery).
Qed.

Lemma dev_scheduleKeyboardRecovery d w :
  keeps_device w0 w -> keeps_device w0 (scheduleKeyboardRecovery d w).
Proof.
  intros H. eapply keeps_device_trans; [exact H|]. intros Hwf.
  split; [by apply (timers_wf_schedule KeyboardRecovery)|].
  split; [apply (systemSuspended_schedule KeyboardRecovery)|].
  split; [apply (pendingResumePort_schedule KeyboardRecovery)|].
  by apply (retry_state_schedule_other KeyboardRecovery).
Qed.

Lemma dev_keyboardRecovery_failed n w :
  keeps_device w0 w -> keeps_device w0 (keyboardRecovery_failed n w).
Proof.
  intros H. eapply keeps_device_trans; [exact H|]. intros Hwf.
  split; [by apply (timers_wf_failed KeyboardRecovery)|].
  split; [apply (systemSuspended_failed KeyboardRecovery)|].
  split; [apply (pendingResumePort_failed KeyboardRecovery)|].
  by apply (retry_state_failed_other KeyboardRecovery).
Qed.

Lemma kb_set_pendingResumePort v w :
  keeps_keyboard w0 w -> keeps_keyboard w0 (set_pendingResumePort v w).
Proof. intros H. eapply keeps_keyboard_trans; [exact H|]. by apply keeps_keyboard_frame. Qed.

Lemma kb_set_resumeReconnectAttempts v w :
  keeps_keyboard w0 w -> keeps_keyboard w0 (set_resumeReconnectAttempts v w).
Proof. intros H. eapply keeps_keyboard_trans; [exact H|]. by apply keeps_keyboard_frame. Qed.

Lemma kb_set_uiLog v w :
  keeps_keyboard w0 w -> keeps_keyboard w0 (set_uiLog v w).
Proof. intros H. eapply keeps_keyboard_trans; [exact H|]. by apply keeps_keyboard_frame. Qed.

Lemma kb_set_collaborators s km win w :
  keeps_keyboard w0 w -> keeps_keyboard w0 (set_collaborators s km win w).
Proof. intros H. eapply keeps_keyboard_trans; [exact H|]. by apply keeps_keyboard_frame. Qed.

Lemma kb_ui_send m w : keeps_keyboard w0 w -> keeps_keyboard w0 (ui_send m w).
Proof.
  unfold ui_send. destruct (mainWindow w); [|done]. apply kb_set_uiLog.
Qed.

Lemma kb_clearResumeReconnectTimer w :
  keeps_keyboard w0 w -> keeps_keyboard w0 (clearResumeReconnectTimer w).
Proof.
  intros H. eapply keeps_keyboard_trans; [exact H|]. intros Hwf.
  split; [by apply (timers_wf_clear_timer ResumeReconnect)|].
  split; [apply (systemSuspended_clear_timer ResumeReconnect)|].
  by apply (retry_state_clear_timer_other ResumeReconnect).
Qed.

Lemma kb_scheduleResumeReconnect d w :
  keeps_keyboard w0 w -> keeps_keyboard w0 (scheduleResumeReconnect d w).
Proof.
  intros H. eapply keeps_keyboard_trans; [exact H|]. intros Hwf.
  split; [by apply (timers_wf_schedule ResumeReconnect)|].
  split; [apply (systemSuspended_schedule ResumeReconnect)|].
  by apply (retry_state_schedule_other ResumeReconnect).
Qed.

Lemma kb_resumeReconnect_failed n w :
  keeps_keyboard w0 w -> keeps_keyboard w0 (resumeReconnect_failed n w).
Proof.
  intros H. eapply keeps_keyboard_trans; [exact H|]. intros Hwf.
  split; [by apply (timers_wf_failed ResumeReconnect)|].
  split; [apply (systemSuspended_failed ResumeReconnect)|].
  by apply (retry_state_failed_other ResumeReconnect).
Qed.

End Steps.

(** A timer that fires leaves the queue; the other side does not notice. *)
Lemma dev_clearTimeout (h : nat) (w : World) :
  kind_of_timer h w = Some KeyboardRecovery -> keeps_device w (clearTimeout h w).
Proof.
  intros Hk Hwf. split; [by apply timers_wf_clearTimeout|].
  split; [done|]. split; [done|].
  by apply (retry_state_clearTimeout_other h KeyboardRecovery).
Qed.

Lemma kb_clearTimeout (h : nat) (w : World) :
  kind_of_timer h w = Some ResumeReconnect -> keeps_keyboard w (clearTimeout h w).
Proof.
  intros Hk Hwf. split; [by apply timers_wf_clearTimeout|].
  split; [done|].
  by apply (retry_state_clearTimeout_other h ResumeReconnect).
Qed.

End IndependenceSteps.

Create HintDb device discriminated.
#[global] Hint Resolve
  keeps_device_refl dev_set_keyboardRecoveryAttempts dev_set_keyboardMonitor
  dev_set_uiLog dev_set_collaborators dev_ui_send dev_splice_session
  dev_clearKeyboardRecoveryTimer dev_scheduleKeyboardRecovery
  dev_keyboardRecovery_failed : device.

Create HintDb keyboard discriminated.
#[global] Hint Resolve
  keeps_keyboard_refl kb_set_pendingResumePort kb_set_resumeReconnectAttempts
  kb_set_uiLog kb_set_collaborators kb_ui_send kb_clearResumeReconnectTimer
  kb_scheduleResumeReconnect kb_resumeReconnect_failed : keyboard.

Section IndependenceTasks.
Import Supervisor.

#[local] Arguments splice_session : simpl never.

Lemma task_steps_first (R : World -> World -> Prop) (w0 w1 : World) (t : Task) :
  (forall a b c, R a b -> R b c -> R a c) ->
  R w0 w1 -> task_steps R w1 t -> task_steps R w0 t.
Proof.
  intros Htr H01. destruct t as [w|e w|c w k]; simpl.
  - by apply Htr.
  - by apply Htr.
  - intros [Hw Hk]. split; [by eapply Htr|done].
Qed.

Lemma task_steps_catch_log (R : World -> World -> Prop) (w0 : World) (t : Task) :
  task_steps R w0 t -> task_steps R w0 (catch_log t).
Proof.
  revert w0. induction t as [w|e w|c w k IH]; intros w0; simpl; [done..|].
  intros [Hw Hk]. split; [done|]. intros r w'. apply IH, Hk.
Qed.

Lemma task_steps_try_await (R : World -> World -> Prop) (w0 : World)
    (t : Task) (onDone : World -> Task) (onFail : string -> World -> Task) :
  (forall a b c, R a b -> R b c -> R a c) ->
  task_steps R w0 t ->
  (forall w, task_steps R w (onDone w)) ->
  (forall e w, task_steps R w (onFail e w)) ->
  task_steps R w0 (try_await t onDone onFail).
Proof.
  intros Htr Ht Hd Hf. revert w0 Ht.
  induction t as [w|e w|c w k IH]; intros w0 Ht; simpl in *.
  - by apply (task_steps_first R w0 w).
  - by apply (task_steps_first R w0 w).
  - destruct Ht as [Hw Hk]. split; [done|]. intros r w'. apply IH, Hk.
Qed.

(** Run to completion, a task relates the world it started in to the world
    it ends in, if what the collaborators report in between does. *)
Lemma complete_steps (R : World -> World -> Prop) (t : Task)
    (replies : list Reply) (w0 : World) :
  (forall a b c, R a b -> R b c -> R a c) ->
  (forall s km win w, R w (set_collaborators s km win w)) ->
  task_steps R w0 t -> R w0 (complete replies t).
Proof.
  intros Htr Hc. revert replies w0.
  induction t as [w|e w|c w k IH]; intros replies w0; simpl; [done..|].
  intros [Hw Hk]. destruct replies as [|r rest]; [done|].
  eapply Htr; [exact Hw|]. eapply Htr; [apply Hc|]. apply IH, Hk.
Qed.

Ltac dev_task :=
  repeat match goal with
  | |- keeps_device _ _ => first [solve [auto 12 with device] | case_match]
  | |- task_steps _ _ (Await _ _ _) => simpl; split; [|intros ? ?]
  | |- task_steps _ _ (Done _) => simpl
  | |- task_steps _ _ (Failed _ _) => simpl
  | |- task_steps _ _ _ => case_match
  end.

Ltac kb_task :=
  repeat match goal with
  | |- keeps_keyboard _ _ => first [solve [auto 12 with keyboard] | case_match]
  | |- task_steps _ _ (Await _ _ _) => simpl; split; [|intros ? ?]
  | |- task_steps _ _ (Done _) => simpl
  | |- task_steps _ _ (Failed _ _) => simpl
  | |- task_steps _ _ _ => case_match
  end.

Lemma dev_attemptKeyboardRecovery w :
  task_steps keeps_device w (attemptKeyboardRecovery w).
Proof.
  unfold attemptKeyboardRecovery, keyboardRecovery_afterStop,
    keyboardRecovery_afterStart, keyboardRecovery_succeeded.
  dev_task.
Qed.

Lemma dev_restartKeyboardMonitoring force w :
  task_steps keeps_device w (restartKeyboardMonitoring force w).
Proof. unfold restartKeyboardMonitoring. dev_task. Qed.

Lemma dev_ipc_restart_keyboard_monitoring w :
  task_steps keeps_device w (ipc_restart_keyboard_monitoring w).
Proof.
  unfold ipc_restart_keyboard_monitoring.
  destruct (keyboardMonitor w); [|apply keeps_device_refl].
  apply task_steps_try_await.
  - apply keeps_device_trans.
  - eapply task_steps_first;
      [apply keeps_device_trans| |apply dev_restartKeyboardMonitoring].
    auto with device.
  - intros w2. dev_task.
  - intros e w2. dev_task.
Qed.

Lemma kb_attemptResumeReconnect w :
  task_steps keeps_keyboard w (attemptResumeReconnect w).
Proof.
  unfold attemptResumeReconnect, resumeReconnect_afterPorts,
    resumeReconnect_afterConnect, resumeReconnect_succeeded.
  kb_task.
Qed.

Lemma dev_keyboard_event (e : Event) (w : World) :
  keyboard_event e w = true -> task_steps keeps_device w (handler e w).
Proof.
  destruct e; try done; simpl; intros He.
  - apply bool_decide_eq_true in He. unfold fire.
    pose proof He as (t & Hf & _ & _ & Hk)%kind_of_timer_Some.
    rewrite Hf, Hk. apply task_steps_catch_log.
    eapply task_steps_first;
      [apply keeps_device_trans|by apply dev_clearTimeout
      |apply dev_attemptKeyboardRecovery].
  - unfold on_keyboard_fallback. auto with device.
  - apply dev_ipc_restart_keyboard_monitoring.
Qed.

Lemma kb_device_event (e : Event) (w : World) :
  device_event e w = true -> task_steps keeps_keyboard w (handler e w).
Proof.
  destruct e; try done; simpl; intros He.
  - apply bool_decide_eq_true in He. unfold fire.
    pose proof He as (t & Hf & _ & _ & Hk)%kind_of_timer_Some.
    rewrite Hf, Hk. apply task_steps_catch_log.
    eapply task_steps_first;
      [apply keeps_keyboard_trans|by apply kb_clearTimeout
      |apply kb_attemptResumeReconnect].
  - unfold on_connection_change. repeat case_match; auto with keyboard.
Qed.

(** X3: the keyboard supervisor never touches the device side.  Whatever
    a keyboard event does when its handler runs to completion (a fallback
    notice, a manual restart, a recovery timer that fires), the remembered
    port, the suspended flag and the reconnect retry state (counter, handle,
    armed timer) are what they were. *)
Theorem keyboard_events_leave_the_device_side
    (e : Event) (replies : list Reply) (w : World) :
  timers_wf w -> keyboard_event e w = true ->
  let w' := occurs (e, replies) w in
  pendingResumePort w' = pendingResumePort w
  /\ systemSuspended w' = systemSuspended w
  /\ resumeReconnectAttempts w' = resumeReconnectAttempts w
  /\ resumeReconnectTimer w' = resumeReconnectTimer w
  /\ outstanding ResumeReconnect w' = outstanding ResumeReconnect w.
Proof.
  intros Hwf He w'.
  assert (H : keeps_device w w').
  { apply (complete_steps keeps_device (handler e w) replies w).
    - apply keeps_device_trans.
    - intros. apply dev_set_collaborators, keeps_device_refl.
    - by apply dev_keyboard_event. }
  destruct (H Hwf) as (_ & Hs & Hp & Hr). unfold retry_state in Hr.
  simpl in Hr. by simplify_eq.
Qed.

(** X4: the device supervisor never touches the keyboard retry state.
    A connection change or a reconnect timer that fires, run to completion,
    leaves the keyboard counter, handle and armed timer as they were. *)
Theorem device_events_leave_the_keyboard_side
    (e : Event) (replies : list Reply) (w : World) :
  timers_wf w -> device_event e w = true ->
  let w' := occurs (e, replies) w in
  systemSuspended w' = systemSuspended w
  /\ keyboardRecoveryAttempts w' = keyboardRecoveryAttempts w
  /\ keyboardRecoveryTimer w' = keyboardRecoveryTimer w
  /\ outstanding KeyboardRecovery w' = outstanding KeyboardRecovery w.
Proof.
  intros Hwf He w'.
  assert (H : keeps_keyboard w w').
  { apply (complete_steps keeps_keyboard (handler e w) replies w).
    - apply keeps_keyboard_trans.
    - intros. apply kb_set_collaborators, keeps_keyboard_refl.
    - by apply kb_device_event. }
  destruct (H Hwf) as (_ & Hs & Hr). unfold retry_state in Hr.
  simpl in Hr. by simplify_eq.
Qed.

End IndependenceTasks.

(* ===================================================================== *)
(** ** Supervisor: a sleep and wake-up cycle *)
(* ===================================================================== *)

Section SleepCycle.
Import Supervisor.

(** What the suspend handler leaves behind, whether or not the disconnect
    it may have issued has settled. *)
Lemma on_suspend_outcome (w : World) (status : ConnectionStatus)
    (replies : list Reply) :
  timers_wf w -> esp32SerialManager w = Some status ->
  let w' := complete replies (on_suspend w) in
  timers_wf w'
  /\ systemSuspended w' = true
  /\ resumeReconnectAttempts w' = 0
  /\ resumeReconnectTimer w' = None
  /\ outstanding ResumeReconnect w' = []
  /\ nextTimerId w' = nextTimerId w
  /\ is_Some (esp32SerialManager w')
  /\ pendingResumePort w'
     = (if truthy_string (port status) then port status
        else pendingResumePort w)
  /\ calls replies (on_suspend w)
     = (if isConnected status && truthy_string (port status)
        then [Disconnect] else []).
Proof.
  intros Hwf Hesp. unfold on_suspend. cbv zeta.
  set (w0 := set_systemSuspended true w).
  assert (Hwf0 : timers_wf w0) by (by apply wf_set_systemSuspended).
  set (w1 := set_resumeReconnectAttempts 0 (clearResumeReconnectTimer w0)).
  assert (Hwf1 : timers_wf w1) by (subst w1; auto with wf).
  assert (Hs1 : systemSuspended w1 = true)
    by apply (systemSuspended_clear_timer ResumeReconnect w0).
  assert (Hh1 : resumeReconnectTimer w1 = None)
    by apply (clear_timer_handle ResumeReconnect w0).
  assert (Ho1 : outstanding ResumeReconnect w1 = [])
    by (by apply (outstanding_clear_timer ResumeReconnect w0)).
  assert (Hn1 : nextTimerId w1 = nextTimerId w)
    by apply (nextTimerId_clear_timer ResumeReconnect w0).
  assert (Hp1 : pendingResumePort w1 = pendingResumePort w)
    by apply (pendingResumePort_clear_timer ResumeReconnect w0).
  assert (Ha1 : resumeReconnectAttempts w1 = 0) by done.
  assert (He1 : esp32SerialManager w1 = Some status).
  { subst w1 w0. simpl. unfold clearResumeReconnectTimer. simpl.
    by destruct (resumeReconnectTimer w). }
  rewrite He1. clearbody w1.
  assert (Hset : forall v, outstanding ResumeReconnect
                             (set_pendingResumePort v w1) = []) by done.
  destruct (isConnected status), (truthy_string (port status)) eqn:Hport;
    [destruct replies as [|r rest]|..]; simpl;
    (split; [auto with wf|]); rewrite ?He1, ?Hn1, ?Hp1;
    repeat split; eauto.
Qed.

(** What the resume handler leaves behind once its keyboard restart has run
    as far as the replies allow. *)
Lemma on_resume_outcome (w : World) (replies : list Reply) :
  timers_wf w ->
  let w' := complete replies (on_resume w) in
  timers_wf w'
  /\ systemSuspended w' = false
  /\ resumeReconnectAttempts w' = 0
  /\ pendingResumePort w' = pendingResumePort w
  /\ if truthy_string (pendingResumePort w)
        && bool_decide (is_Some (esp32SerialManager w))
     then resumeReconnectTimer w' = Some (nextTimerId w)
          /\ outstanding ResumeReconnect w'
             = [{| tid := nextTimerId w; tkind := ResumeReconnect;
                   tdelay := RESUME_RETRY_BASE_DELAY_MS |}]
     else resumeReconnectTimer w' = resumeReconnectTimer w
          /\ outstanding ResumeReconnect w' = outstanding ResumeReconnect w.
Proof.
  intros Hwf. unfold on_resume. cbv zeta.
  set (w1 := set_resumeReconnectAttempts 0 (set_systemSuspended false w)).
  assert (Hwf1 : timers_wf w1) by (subst w1; auto with wf).
  change (pendingResumePort w1) with (pendingResumePort w).
  change (esp32SerialManager w1) with (esp32SerialManager w).
  match goal with
  | |- context [restartKeyboardMonitoring false ?x] => set (w2 := x)
  end.
  rewrite complete_catch_log.
  assert (Hk : keeps_device w2
                 (complete replies (restartKeyboardMonitoring false w2))).
  { apply (complete_steps keeps_device).
    - apply keeps_device_trans.
    - intros. apply dev_set_collaborators, keeps_device_refl.
    - apply dev_restartKeyboardMonitoring. }
  assert (Hwf2 : timers_wf w2).
  { subst w2. destruct (_ && _); [|done].
    by apply (timers_wf_schedule ResumeReconnect). }
  destruct (Hk Hwf2) as (Hwf' & Hs & Hp & Hr). unfold retry_state in Hr.
  simpl in Hr. injection Hr as Ha Hh Ho.
  rewrite Hs, Hp, Ha, Hh, Ho. split; [done|]. subst w2.
  destruct (_ && _) eqn:Hg.
  - pose proof (schedule_open ResumeReconnect RESUME_RETRY_BASE_DELAY_MS
                  w1 eq_refl) as (_ & _ & Hh2 & _).
    set (d := RESUME_RETRY_BASE_DELAY_MS) in *.
    split; [exact (systemSuspended_schedule ResumeReconnect d w1)|].
    split;
      [exact (attempts_of_schedule ResumeReconnect ResumeReconnect d w1)|].
    split; [exact (pendingResumePort_schedule ResumeReconnect d w1)|].
    split; [exact Hh2|].
    exact (outstanding_schedule ResumeReconnect d w1 Hwf1 eq_refl).
  - done.
Qed.

(** X5: going to sleep.  With a serial manager whose status names a port,
    the suspend handler remembers that port (and keeps what it remembered
    when the status names none); it disconnects exactly when the device is
    connected on a named port; it leaves the flag up, the reconnect counter
    at zero and no reconnect timer armed, and hands out no timer handle. *)
Theorem suspend_remembers_the_port_and_disconnects
    (w : World) (status : ConnectionStatus) (replies : list Reply) :
  timers_wf w -> esp32SerialManager w = Some status ->
  let w' := occurs (Suspend, replies) w in
  pendingResumePort w'
  = (if truthy_string (port status) then port status
     else pendingResumePort w)
  /\ calls replies (on_suspend w)
     = (if isConnected status && truthy_string (port status)
        then [Disconnect] else [])
  /\ systemSuspended w' = true
  /\ resumeReconnectAttempts w' = 0
  /\ outstanding ResumeReconnect w' = []
  /\ nextTimerId w' = nextTimerId w.
Proof.
  intros Hwf Hesp w'.
  destruct (on_suspend_outcome w status replies Hwf Hesp)
    as (_ & Hs & Ha & _ & Ho & Hn & _ & Hp & Hc).
  done.
Qed.

(** X6: waking up.  The resume handler lowers the flag and zeroes the
    reconnect counter; it arms one reconnect timer, with the base delay of
    1000 ms and under a fresh handle, exactly when a port is remembered and
    the serial manager exists, and otherwise leaves the reconnect handle and
    queue as they are.  The keyboard restart that follows, however far it
    gets, changes none of this. *)
Theorem resume_arms_reconnect_iff_port_remembered
    (w : World) (replies : list Reply) :
  timers_wf w ->
  let w' := occurs (Resume, replies) w in
  systemSuspended w' = false
  /\ resumeReconnectAttempts w' = 0
  /\ pendingResumePort w' = pendingResumePort w
  /\ if truthy_string (pendingResumePort w)
        && bool_decide (is_Some (esp32SerialManager w))
     then resumeReconnectTimer w' = Some (nextTimerId w)
          /\ outstanding ResumeReconnect w'
             = [{| tid := nextTimerId w; tkind := ResumeReconnect;
                   tdelay := 1000 |}]
     else resumeReconnectTimer w' = resumeReconnectTimer w
          /\ outstanding ResumeReconnect w' = outstanding ResumeReconnect w.
Proof.
  intros Hwf w'.
  by destruct (on_resume_outcome w replies Hwf) as (_ & H).
Qed.

(** X7: a whole sleep cycle.  If the device is connected on port [p] when
    the machine goes to sleep, then after the wake-up, whatever the
    disconnect and the keyboard restart did, [p] is remembered, the counter
    is zero and exactly one reconnect timer is armed: 1000 ms, under the
    handle that was next when the machine went to sleep. *)
Theorem sleep_cycle_schedules_one_reconnect
    (w : World) (p : string) (asleep awake : list Reply) :
  timers_wf w ->
  esp32SerialManager w = Some {| isConnected := true; port := Some p |} ->
  p <> "" ->
  let w' := history [(Suspend, asleep); (Resume, awake)] w in
  systemSuspended w' = false
  /\ pendingResumePort w' = Some p
  /\ resumeReconnectAttempts w' = 0
  /\ resumeReconnectTimer w' = Some (nextTimerId w)
  /\ outstanding ResumeReconnect w'
     = [{| tid := nextTimerId w; tkind := ResumeReconnect; tdelay := 1000 |}].
Proof.
  intros Hwf Hesp Hp w'.
  assert (Ht : truthy_string (Some p) = true).
  { simpl. by destruct (String.eqb_spec p "") as [|_]. }
  destruct (on_suspend_outcome w _ asleep Hwf Hesp)
    as (Hwf1 & _ & _ & _ & _ & Hn1 & He1 & Hp1 & _).
  simpl port in Hp1. rewrite Ht in Hp1.
  destruct (on_resume_outcome _ awake Hwf1) as (_ & Hs & Ha & Hp2 & Harm).
  rewrite Hp1, Ht, Hn1 in Harm. rewrite bool_decide_true in Harm by done.
  simpl in Harm. destruct Harm as [Hh Ho].
  subst w'. unfold history. simpl. unfold occurs. simpl.
  by rewrite Hs, Hp2, Hp1, Ha, Hh, Ho.
Qed.

End SleepCycle.

(* ===================================================================== *)
(** ** Supervisor: the keyboard side *)
(* ===================================================================== *)

Section KeyboardFacts.
Import Supervisor.

Lemma keyboardMonitor_clear_timer (k : TimerKind) (w : World) :
  keyboardMonitor (clear_timer k w) = keyboardMonitor w.
Proof.
  destruct k; simpl;
    unfold clearResumeReconnectTimer, clearKeyboardRecoveryTimer;
    try destruct (resumeReconnectTimer w);
    try destruct (keyboardRecoveryTimer w); reflexivity.
Qed.

Lemma keyboardMonitor_splice_session (s : option Session) (w : World) :
  fallbackMode <$> keyboardMonitor (splice_session s w)
  = fallbackMode <$> keyboardMonitor w.
Proof.
  unfold splice_session. destruct s; [|done].
  destruct (keyboardMonitor w) as [km|] eqn:E; [|by rewrite E].
  destruct (currentSession km); simpl; by rewrite ?E.
Qed.

Lemma nextTimerId_splice_session (s : option Session) (w : World) :
  nextTimerId (splice_session s w) = nextTimerId w.
Proof. unfold splice_session. by repeat case_match. Qed.

Lemma systemSuspended_splice_session (s : option Session) (w : World) :
  systemSuspended (splice_session s w) = systemSuspended w.
Proof. unfold splice_session. by repeat case_match. Qed.

Lemma uiLog_splice_session (s : option Session) (w : World) :
  uiLog (splice_session s w) = uiLog w.
Proof. unfold splice_session. by repeat case_match. Qed.

Lemma uiLog_clear_timer (k : TimerKind) (w : World) :
  uiLog (clear_timer k w) = uiLog w.
Proof.
  destruct k; simpl;
    unfold clearResumeReconnectTimer, clearKeyboardRecoveryTimer;
    try destruct (resumeReconnectTimer w);
    try destruct (keyboardRecoveryTimer w); reflexivity.
Qed.

Lemma uiLog_schedule (k : TimerKind) (d : Z) (w : World) :
  uiLog (schedule k d w) = uiLog w.
Proof.
  destruct k; simpl;
    [unfold scheduleResumeReconnect | unfold scheduleKeyboardRecovery].
  - destruct (systemSuspended w); [done|].
    by rewrite <- (uiLog_clear_timer ResumeReconnect w).
  - destruct (_ || _); [done|].
    by rewrite <- (uiLog_clear_timer KeyboardRecovery w).
Qed.

(** What a keyboard recovery attempt that failed as number [n] leaves. *)
Lemma keyboardRecovery_failed_outcome (n : Z) (w : World) :
  timers_wf w -> systemSuspended w = false -> is_Some (keyboardMonitor w) ->
  keyboardRecoveryAttempts (keyboardRecovery_failed n w)
  = keyboardRecoveryAttempts w
  /\ (if n <? KEYBOARD_RECOVERY_LIMIT
      then keyboardRecoveryTimer (keyboardRecovery_failed n w)
           = Some (nextTimerId w)
           /\ outstanding KeyboardRecovery (keyboardRecovery_failed n w)
              = [{| tid := nextTimerId w; tkind := KeyboardRecovery;
                    tdelay := backoff KEYBOARD_RECOVERY_BASE_DELAY_MS
                                KEYBOARD_RECOVERY_MAX_DELAY_MS n |}]
      else keyboardRecoveryTimer (keyboardRecovery_failed n w) = None
           /\ outstanding KeyboardRecovery (keyboardRecovery_failed n w)
              = []).
Proof.
  intros Hwf Hs Hkm.
  split; [apply (attempts_of_failed KeyboardRecovery KeyboardRecovery)|].
  destruct (Z.ltb_spec n KEYBOARD_RECOVERY_LIMIT) as [Hlt|Hge].
  - apply (failed_arms_backoff KeyboardRecovery n w); [done..|].
    simpl. rewrite Hs. simpl. by rewrite bool_decide_true.
  - change (keyboardRecovery_failed n w) with (failed KeyboardRecovery n w).
    rewrite failed_at_limit by done. split.
    + apply (clear_timer_handle KeyboardRecovery).
    + by apply outstanding_clear_timer.
Qed.

Lemma keyboardRecovery_succeeded_outcome (w : World) :
  timers_wf w ->
  keyboardRecoveryAttempts (keyboardRecovery_succeeded w) = 0
  /\ keyboardRecoveryTimer (keyboardRecovery_succeeded w) = None
  /\ outstanding KeyboardRecovery (keyboardRecovery_succeeded w) = [].
Proof.
  intros Hwf. unfold keyboardRecovery_succeeded.
  set (w0 := set_keyboardRecoveryAttempts 0 w).
  assert (Hwf0 : timers_wf w0) by (subst w0; auto with wf).
  split;
    [exact (attempts_of_clear_timer KeyboardRecovery KeyboardRecovery w0)|].
  split; [apply (clear_timer_handle KeyboardRecovery)|].
  by apply (outstanding_clear_timer KeyboardRecovery).
Qed.

(** X8: a keyboard recovery attempt, run to its end while the system is
    awake.  A listener that is alive and not in fallback mode is left
    alone: no call, counter 0, no timer.  Otherwise the listener is stopped
    and, if that went well, started: when both calls fulfil the counter is
    0 and no timer is left; when either rejects (the start is then never
    called after a rejected stop) the counter stays raised and, below the
    limit of 5, one timer is armed with the back-off delay, while at the
    limit none is armed. *)
Theorem keyboard_recovery_attempt
    (w : World) (km : KeyboardMonitor) (r1 r2 : Reply) (rest : list Reply) :
  timers_wf w ->
  keyboardMonitor w = Some km ->
  systemSuspended w = false ->
  let t := attemptKeyboardRecovery w in
  let w' := complete (r1 :: r2 :: rest) t in
  let n := keyboardRecoveryAttempts w + 1 in
  let succeeded :=
    keyboardRecoveryAttempts w' = 0
    /\ keyboardRecoveryTimer w' = None
    /\ outstanding KeyboardRecovery w' = [] in
  let failed :=
    keyboardRecoveryAttempts w' = n
    /\ (if n <? 5
        then keyboardRecoveryTimer w' = Some (nextTimerId w)
             /\ outstanding KeyboardRecovery w'
                = [{| tid := nextTimerId w; tkind := KeyboardRecovery;
                      tdelay := Z.min (2000 * 2 ^ (n - 1)) 60000 |}]
        else keyboardRecoveryTimer w' = None
             /\ outstanding KeyboardRecovery w' = []) in
  if keyboardListener km && negb (fallbackMode km)
  then calls (r1 :: r2 :: rest) t = [] /\ succeeded
  else
    match outcome r1 with
    | Rejected _ => calls (r1 :: r2 :: rest) t = [StopMonitoring] /\ failed
    | Fulfilled _ =>
        calls (r1 :: r2 :: rest) t = [StopMonitoring; StartMonitoring]
        /\ match outcome r2 with
           | Fulfilled _ => succeeded
           | Rejected _ => failed
           end
    end.
Proof.
  intros Hwf Hkm Hsusp. cbv zeta.
  unfold attemptKeyboardRecovery. rewrite Hkm, Hsusp.
  destruct (keyboardListener km && negb (fallbackMode km)).
  { simpl. split; [done|].
    split; [done|].
    split; [apply (clear_timer_handle KeyboardRecovery)|].
    by apply (outstanding_clear_timer KeyboardRecovery). }
  simpl.
  set (n := keyboardRecoveryAttempts w + 1).
  set (w1 := set_collaborators _ _ _ _).
  assert (Hwf1 : timers_wf w1) by (subst w1; auto with wf).
  assert (Hkm1 : keyboardMonitor w1 = Some (monitorAfter r1))
    by (subst w1; simpl; by rewrite Hkm).
  assert (Hfail : forall w2,
            timers_wf w2 -> systemSuspended w2 = false ->
            is_Some (keyboardMonitor w2) ->
            keyboardRecoveryAttempts w2 = n ->
            nextTimerId w2 = nextTimerId w ->
            keyboardRecoveryAttempts (keyboardRecovery_failed n w2) = n
            /\ (if n <? 5
                then keyboardRecoveryTimer (keyboardRecovery_failed n w2)
                     = Some (nextTimerId w)
                     /\ outstanding KeyboardRecovery
                          (keyboardRecovery_failed n w2)
                        = [{| tid := nextTimerId w; tkind := KeyboardRecovery;
                              tdelay := Z.min (2000 * 2 ^ (n - 1)) 60000 |}]
                else keyboardRecoveryTimer (keyboardRecovery_failed n w2)
                     = None
                     /\ outstanding KeyboardRecovery
                          (keyboardRecovery_failed n w2) = [])).
  { intros w2 Hwf2 Hs2 Hkm2 Ha2 Hn2.
    destruct (keyboardRecovery_failed_outcome n w2 Hwf2 Hs2 Hkm2)
      as (E1 & E2).
    rewrite E1, Ha2. rewrite Hn2 in E2. done. }
  unfold keyboardRecovery_afterStop.
  destruct (outcome r1) as [ports|e]; [|simpl; split; [done|];
    apply Hfail; [exact Hwf1|exact Hsusp|exact (mk_is_Some _ _ Hkm1)|reflexivity..]].
  rewrite Hkm1. simpl.
  split; [unfold keyboardRecovery_afterStart; by destruct (outcome r2)|].
  set (w2 := set_collaborators _ _ _ w1).
  assert (Hwf2 : timers_wf w2) by (subst w2; auto with wf).
  assert (Hkm2 : keyboardMonitor w2 = Some (monitorAfter r2))
    by (subst w2; cbn [keyboardMonitor set_collaborators]; by rewrite Hkm1).
  unfold keyboardRecovery_afterStart. destruct (outcome r2); simpl.
  - by apply keyboardRecovery_succeeded_outcome.
  - apply Hfail; [exact Hwf2|exact Hsusp|exact (mk_is_Some _ _ Hkm2)|reflexivity..].
Qed.

(** X9: [cleanupPowerHandlers] leaves nothing behind: both retry states
    have no handle and a zero counter, the suspended flag is down and, in
    a well-formed queue, no retry timer of either kind is left armed; the
    remembered port is not touched.  Running it again (it runs on
    ['before-quit'] and again on ['will-quit']) changes nothing. *)
Theorem cleanup_clears_both_retry_states (w : World) :
  timers_wf w ->
  let w' := cleanupPowerHandlers w in
  timers w' = []
  /\ resumeReconnectTimer w' = None /\ keyboardRecoveryTimer w' = None
  /\ resumeReconnectAttempts w' = 0 /\ keyboardRecoveryAttempts w' = 0
  /\ systemSuspended w' = false
  /\ pendingResumePort w' = pendingResumePort w
  /\ cleanupPowerHandlers w' = w'.
Proof.
  intros Hwf w'.
  set (w1 := clearResumeReconnectTimer w).
  set (w2 := clearKeyboardRecoveryTimer w1).
  assert (Hwf1 : timers_wf w1)
    by (by apply (timers_wf_clear_timer ResumeReconnect)).
  assert (Hwf2 : timers_wf w2)
    by (by apply (timers_wf_clear_timer KeyboardRecovery)).
  assert (Hk2 : keyboardRecoveryTimer w2 = None)
    by apply (clear_timer_handle KeyboardRecovery).
  assert (Hr2 : resumeReconnectTimer w2 = None).
  { etrans;
      [apply (handle_of_clear_timer_other KeyboardRecovery ResumeReconnect)|];
      [done|]. apply (clear_timer_handle ResumeReconnect). }
  assert (Ht2 : timers w2 = []).
  { destruct (timers w2) as [|t l] eqn:E; [done|exfalso].
    destruct Hwf2 as (_ & _ & Hh & _).
    assert (Hin : t ∈ timers w2) by (rewrite E; left).
    specialize (Hh t Hin). destruct (tkind t); simpl in Hh; congruence. }
  assert (Hp2 : pendingResumePort w2 = pendingResumePort w).
  { subst w2 w1.
    by rewrite (pendingResumePort_clear_timer KeyboardRecovery),
      (pendingResumePort_clear_timer ResumeReconnect). }
  change w' with
    (set_keyboardRecoveryAttempts 0
       (set_resumeReconnectAttempts 0 (set_systemSuspended false w2))).
  simpl. repeat (split; [done|]).
  unfold cleanupPowerHandlers, clearResumeReconnectTimer. simpl.
  rewrite Hr2. unfold clearKeyboardRecoveryTimer. simpl. by rewrite Hk2.
Qed.

(** One more fallback notice replaces the recovery timer by a fresh one. *)
Lemma on_keyboard_fallback_outcome (data : string) (w : World) :
  timers_wf w -> systemSuspended w = false -> is_Some (keyboardMonitor w) ->
  let w' := on_keyboard_fallback data w in
  timers_wf w'
  /\ systemSuspended w' = false
  /\ is_Some (keyboardMonitor w')
  /\ mainWindow w' = mainWindow w
  /\ keyboardRecoveryAttempts w' = keyboardRecoveryAttempts w
  /\ nextTimerId w' = S (nextTimerId w)
  /\ keyboardRecoveryTimer w' = Some (nextTimerId w)
  /\ outstanding KeyboardRecovery w'
     = [{| tid := nextTimerId w; tkind := KeyboardRecovery;
           tdelay := KEYBOARD_RECOVERY_BASE_DELAY_MS |}]
  /\ uiLog w'
     = uiLog w ++ (if mainWindow w then [UiKeyboardFallback data] else []).
Proof.
  intros Hwf Hs Hkm w'. subst w'. unfold on_keyboard_fallback.
  set (d := KEYBOARD_RECOVERY_BASE_DELAY_MS).
  set (w1 := ui_send (UiKeyboardFallback data) w).
  assert (Hwf1 : timers_wf w1) by (subst w1; auto with wf).
  assert (Hs1 : systemSuspended w1 = false)
    by (subst w1; unfold ui_send; by destruct (mainWindow w)).
  assert (Hkm1 : keyboardMonitor w1 = keyboardMonitor w)
    by (subst w1; unfold ui_send; by destruct (mainWindow w)).
  assert (Hm1 : mainWindow w1 = mainWindow w)
    by (subst w1; unfold ui_send; by destruct (mainWindow w) eqn:E).
  assert (Ha1 : keyboardRecoveryAttempts w1 = keyboardRecoveryAttempts w)
    by (subst w1; unfold ui_send; by destruct (mainWindow w)).
  assert (Hn1 : nextTimerId w1 = nextTimerId w)
    by (subst w1; unfold ui_send; by destruct (mainWindow w)).
  assert (Hu1 : uiLog w1
                = uiLog w
                  ++ (if mainWindow w then [UiKeyboardFallback data] else [])).
  { subst w1. unfold ui_send. destruct (mainWindow w); [done|].
    by rewrite app_nil_r. }
  assert (Hg : can_schedule KeyboardRecovery w1 = true).
  { simpl. rewrite Hs1, Hkm1. simpl. by rewrite bool_decide_true. }
  destruct (schedule_open KeyboardRecovery d w1 Hg) as (_ & Hn & Hh & _).
  simpl in Hn, Hh. clearbody w1.
  split; [by apply (timers_wf_schedule KeyboardRecovery)|].
  split; [by rewrite <- Hs1; apply (systemSuspended_schedule KeyboardRecovery)|].
  split.
  { unfold scheduleKeyboardRecovery. destruct (_ || _); simpl;
      [by rewrite Hkm1|].
    by rewrite (keyboardMonitor_clear_timer KeyboardRecovery), Hkm1. }
  split.
  { rewrite <- Hm1. unfold scheduleKeyboardRecovery,
      clearKeyboardRecoveryTimer.
    destruct (_ || _); [done|]. by destruct (keyboardRecoveryTimer w1). }
  split.
  { rewrite <- Ha1.
    apply (attempts_of_schedule KeyboardRecovery KeyboardRecovery). }
  split; [by rewrite Hn, Hn1|]. split; [by rewrite Hh, Hn1|].
  split.
  { rewrite <- Hn1. by apply (outstanding_schedule KeyboardRecovery). }
  rewrite <- Hu1. apply (uiLog_schedule KeyboardRecovery).
Qed.

(** X10: fallback notices do not pile up timers.  After any number of
    ['keyboard-fallback'] events in a row (at least one), with the system
    awake, exactly one recovery timer is armed: the one of the last notice,
    with the base delay of 2000 ms.  The counter is not touched, and every
    notice reached the window if there is one. *)
Theorem repeated_fallbacks_arm_one_timer
    (notices : list string) (w : World) :
  timers_wf w -> systemSuspended w = false -> is_Some (keyboardMonitor w) ->
  notices <> [] ->
  let w' := history ((fun d => (KeyboardFallback d, [])) <$> notices) w in
  outstanding KeyboardRecovery w'
  = [{| tid := (nextTimerId w + length notices - 1)%nat;
        tkind := KeyboardRecovery; tdelay := 2000 |}]
  /\ keyboardRecoveryTimer w'
     = Some (nextTimerId w + length notices - 1)%nat
  /\ keyboardRecoveryAttempts w' = keyboardRecoveryAttempts w
  /\ uiLog w'
     = uiLog w
       ++ (if mainWindow w then UiKeyboardFallback <$> notices else []).
Proof.
  intros Hwf Hs Hkm Hne w'. subst w'.
  induction notices as [|d notices IH] using rev_ind; [done|].
  rewrite fmap_app. unfold history. rewrite foldl_app. simpl.
  fold (history ((fun d => (KeyboardFallback d, [])) <$> notices) w).
  set (w1 := history _ w) in *. unfold occurs. simpl.
  assert (Hinv : timers_wf w1 /\ systemSuspended w1 = false
                 /\ is_Some (keyboardMonitor w1)
                 /\ mainWindow w1 = mainWindow w
                 /\ nextTimerId w1 = (nextTimerId w + length notices)%nat
                 /\ keyboardRecoveryAttempts w1 = keyboardRecoveryAttempts w
                 /\ uiLog w1
                    = uiLog w
                      ++ (if mainWindow w
                          then UiKeyboardFallback <$> notices else [])).
  { subst w1. clear IH Hne.
    induction notices as [|d' notices IH] using rev_ind.
    - simpl. rewrite Nat.add_0_r. split_and!; try done.
      destruct (mainWindow w); simpl; by rewrite app_nil_r.
    - rewrite fmap_app. unfold history. rewrite foldl_app. simpl.
      fold (history ((fun d => (KeyboardFallback d, [])) <$> notices) w).
      set (w1 := history _ w) in *. unfold occurs. simpl.
      destruct IH as (Hwf1 & Hs1 & Hkm1 & Hm1 & Hn1 & Ha1 & Hu1).
      destruct (on_keyboard_fallback_outcome d' w1 Hwf1 Hs1 Hkm1)
        as (Hwf2 & Hs2 & Hkm2 & Hm2 & Ha2 & Hn2 & _ & _ & Hu2).
      rewrite length_app. simpl.
      repeat (split; [done || congruence || lia|]).
      rewrite Hu2, Hu1, Hm1, fmap_app. destruct (mainWindow w); simpl.
      + by rewrite <- app_assoc.
      + by rewrite app_nil_r. }
  destruct Hinv as (Hwf1 & Hs1 & Hkm1 & Hm1 & Hn1 & Ha1 & Hu1).
  destruct (on_keyboard_fallback_outcome d w1 Hwf1 Hs1 Hkm1)
    as (_ & _ & _ & _ & Ha2 & _ & Hh2 & Ho2 & Hu2).
  rewrite length_app. simpl.
  replace (nextTimerId w + (length notices + 1) - 1)%nat
    with (nextTimerId w1) by lia.
  split; [exact Ho2|]. split; [exact Hh2|]. split; [congruence|].
  rewrite Hu2, Hu1, Hm1, fmap_app. destruct (mainWindow w); simpl.
  - by rewrite <- app_assoc.
  - by rewrite app_nil_r.
Qed.

End KeyboardFacts.

Section ManualRestart.
Import Supervisor.

#[local] Arguments splice_session : simpl never.
#[local] Arguments scheduleKeyboardRecovery : simpl never.
#[local] Arguments clearKeyboardRecoveryTimer : simpl never.

(** Scheduling a recovery from a world in which the counter is zero. *)
Lemma recovery_scheduled (w : World) (log : list UiMessage) :
  timers_wf w -> systemSuspended w = false -> is_Some (keyboardMonitor w) ->
  let w' :=
    set_uiLog log
      (scheduleKeyboardRecovery KEYBOARD_RECOVERY_BASE_DELAY_MS w) in
  uiLog w' = log
  /\ uiLog (scheduleKeyboardRecovery KEYBOARD_RECOVERY_BASE_DELAY_MS w)
     = uiLog w
  /\ keyboardRecoveryAttempts w' = keyboardRecoveryAttempts w
  /\ keyboardRecoveryTimer w' = Some (nextTimerId w)
  /\ outstanding KeyboardRecovery w'
     = [{| tid := nextTimerId w; tkind := KeyboardRecovery;
           tdelay := 2000 |}].
Proof.
  intros Hwf Hs Hkm. cbv zeta.
  set (d := KEYBOARD_RECOVERY_BASE_DELAY_MS).
  assert (Hg : can_schedule KeyboardRecovery w = true).
  { simpl. rewrite Hs. simpl. by rewrite bool_decide_true. }
  destruct (schedule_open KeyboardRecovery d w Hg) as (_ & _ & Hh & _).
  split; [done|].
  split; [exact (uiLog_schedule KeyboardRecovery d w)|].
  split; [exact (attempts_of_schedule KeyboardRecovery KeyboardRecovery d w)|].
  split; [exact Hh|].
  exact (outstanding_schedule KeyboardRecovery d w Hwf Hg).
Qed.

(** X11: the manual restart requested over IPC, run to its end while the
    system is awake.  The counter is reset to zero whatever happens.  The
    reply reports success exactly when the stop and the start both
    fulfilled and the restarted listener is not in fallback mode; then no
    recovery timer is left.  In every other case (a rejected call, or a
    listener that came up in fallback mode) exactly one recovery timer is
    armed, with the base delay of 2000 ms. *)
Theorem manual_restart_outcome
    (w : World) (km : KeyboardMonitor) (r1 r2 : Reply) (rest : list Reply) :
  timers_wf w ->
  keyboardMonitor w = Some km ->
  systemSuspended w = false ->
  let w' := complete (r1 :: r2 :: rest) (ipc_restart_keyboard_monitoring w) in
  let restarted :=
    match outcome r1, outcome r2 with
    | Fulfilled _, Fulfilled _ => true
    | _, _ => false
    end in
  let success := restarted && negb (fallbackMode (monitorAfter r2)) in
  (exists fallback,
     uiLog w' = uiLog w ++ [IpcRestartReply success fallback])
  /\ keyboardRecoveryAttempts w' = 0
  /\ if success
     then keyboardRecoveryTimer w' = None
          /\ outstanding KeyboardRecovery w' = []
     else keyboardRecoveryTimer w' = Some (nextTimerId w)
          /\ outstanding KeyboardRecovery w'
             = [{| tid := nextTimerId w; tkind := KeyboardRecovery;
                   tdelay := 2000 |}].
Proof.
  intros Hwf Hkm Hsusp. cbv zeta.
  unfold ipc_restart_keyboard_monitoring. rewrite Hkm.
  set (w1 := clearKeyboardRecoveryTimer (set_keyboardRecoveryAttempts 0 w)).
  assert (Hwf1 : timers_wf w1) by (subst w1; auto with wf).
  assert (Hkm1 : keyboardMonitor w1 = Some km).
  { subst w1. by rewrite (keyboardMonitor_clear_timer KeyboardRecovery). }
  assert (Hs1 : systemSuspended w1 = false).
  { subst w1. by rewrite (systemSuspended_clear_timer KeyboardRecovery). }
  assert (Ha1 : keyboardRecoveryAttempts w1 = 0).
  { subst w1.
    by rewrite (attempts_of_clear_timer KeyboardRecovery KeyboardRecovery). }
  assert (Hn1 : nextTimerId w1 = nextTimerId w).
  { subst w1. by rewrite (nextTimerId_clear_timer KeyboardRecovery). }
  assert (Hu1 : uiLog w1 = uiLog w).
  { subst w1. by rewrite (uiLog_clear_timer KeyboardRecovery). }
  clearbody w1.
  assert (Hfail : forall w2,
            timers_wf w2 -> systemSuspended w2 = false ->
            is_Some (keyboardMonitor w2) ->
            keyboardRecoveryAttempts w2 = 0 ->
            nextTimerId w2 = nextTimerId w -> uiLog w2 = uiLog w ->
            let w' :=
              set_uiLog (uiLog w2 ++ [IpcRestartReply false false])
                (scheduleKeyboardRecovery
                   KEYBOARD_RECOVERY_BASE_DELAY_MS w2) in
            (exists fallback,
               uiLog w' = uiLog w ++ [IpcRestartReply false fallback])
            /\ keyboardRecoveryAttempts w' = 0
            /\ keyboardRecoveryTimer w' = Some (nextTimerId w)
            /\ outstanding KeyboardRecovery w'
               = [{| tid := nextTimerId w; tkind := KeyboardRecovery;
                     tdelay := 2000 |}]).
  { intros w2 Hwf2 Hs2 Hkm2 Ha2 Hn2 Hu2.
    destruct (recovery_scheduled w2
                (uiLog w2 ++ [IpcRestartReply false false]) Hwf2 Hs2 Hkm2)
      as (E1 & _ & E2 & E3 & E4).
    rewrite Hn2 in E3, E4. rewrite Ha2 in E2.
    cbv zeta. split; [exists false; simpl; by rewrite Hu2|]. done. }
  unfold restartKeyboardMonitoring. rewrite Hkm1. simpl.
  set (wA := set_collaborators _ _ _ w1).
  assert (HwfA : timers_wf wA) by (subst wA; auto with wf).
  assert (HkmA : keyboardMonitor wA = Some (monitorAfter r1))
    by (subst wA; cbn [keyboardMonitor set_collaborators]; by rewrite Hkm1).
  assert (HsA : systemSuspended wA = false) by exact Hs1.
  assert (HaA : keyboardRecoveryAttempts wA = 0) by exact Ha1.
  assert (HnA : nextTimerId wA = nextTimerId w) by exact Hn1.
  assert (HuA : uiLog wA = uiLog w) by exact Hu1.
  clearbody wA.
  destruct (outcome r1) as [ports1|e1]; simpl;
    [|exact (Hfail wA HwfA HsA (mk_is_Some _ _ HkmA) HaA HnA HuA)].
  rewrite Hkm1. simpl.
  set (wB := set_collaborators _ _ _ wA).
  assert (HwfB : timers_wf wB) by (subst wB; auto with wf).
  assert (HkmB : keyboardMonitor wB = Some (monitorAfter r2))
    by (subst wB; cbn [keyboardMonitor set_collaborators]; by rewrite HkmA).
  assert (HsB : systemSuspended wB = false) by exact HsA.
  assert (HaB : keyboardRecoveryAttempts wB = 0) by exact HaA.
  assert (HnB : nextTimerId wB = nextTimerId w) by exact HnA.
  assert (HuB : uiLog wB = uiLog w) by exact HuA.
  clearbody wB.
  destruct (outcome r2) as [ports2|e2]; simpl;
    [|exact (Hfail wB HwfB HsB (mk_is_Some _ _ HkmB) HaB HnB HuB)].
  rewrite HkmA.
  set (prev := currentSession km).
  replace (match prev with
           | Some _ | _ =>
               Done (clearKeyboardRecoveryTimer
                       (set_keyboardRecoveryAttempts 0
                          (splice_session prev wB)))
           end)
    with (Done (clearKeyboardRecoveryTimer
                  (set_keyboardRecoveryAttempts 0 (splice_session prev wB))))
    by (by destruct prev).
  simpl.
  set (w3 := clearKeyboardRecoveryTimer
               (set_keyboardRecoveryAttempts 0 (splice_session prev wB))).
  assert (Hwf3 : timers_wf w3) by (subst w3; auto 6 with wf).
  assert (Hfb3 : fallbackMode <$> keyboardMonitor w3
                 = Some (fallbackMode (monitorAfter r2))).
  { subst w3. rewrite (keyboardMonitor_clear_timer KeyboardRecovery).
    cbn [keyboardMonitor set_keyboardRecoveryAttempts].
    by rewrite keyboardMonitor_splice_session, HkmB. }
  assert (Hs3 : systemSuspended w3 = false).
  { subst w3. rewrite (systemSuspended_clear_timer KeyboardRecovery).
    cbn [systemSuspended set_keyboardRecoveryAttempts].
    by rewrite systemSuspended_splice_session. }
  assert (Ha3 : keyboardRecoveryAttempts w3 = 0).
  { subst w3.
    by rewrite (attempts_of_clear_timer KeyboardRecovery KeyboardRecovery). }
  assert (Hn3 : nextTimerId w3 = nextTimerId w).
  { subst w3. rewrite (nextTimerId_clear_timer KeyboardRecovery).
    cbn [nextTimerId set_keyboardRecoveryAttempts].
    by rewrite nextTimerId_splice_session. }
  assert (Hu3 : uiLog w3 = uiLog w).
  { subst w3. rewrite (uiLog_clear_timer KeyboardRecovery).
    cbn [uiLog set_keyboardRecoveryAttempts].
    by rewrite uiLog_splice_session. }
  assert (Hh3 : keyboardRecoveryTimer w3 = None)
    by (subst w3; apply (clear_timer_handle KeyboardRecovery)).
  assert (Ho3 : outstanding KeyboardRecovery w3 = []).
  { subst w3. apply (outstanding_clear_timer KeyboardRecovery).
    auto with wf. }
  clearbody w3.
  destruct (keyboardMonitor w3) as [km3|] eqn:Hkm3; [|done].
  simpl in Hfb3. injection Hfb3 as Hfb3. rewrite Hfb3.
  destruct (fallbackMode (monitorAfter r2)); simpl.
  - destruct (recovery_scheduled w3
                (uiLog (scheduleKeyboardRecovery
                          KEYBOARD_RECOVERY_BASE_DELAY_MS w3)
                 ++ [IpcRestartReply false true]))
      as (E1 & E0 & E2 & E3 & E4); [done|done|by rewrite Hkm3|].
    rewrite Hn3 in E3, E4. rewrite Ha3 in E2.
    split; [exists true; simpl; by rewrite E0, Hu3|]. done.
  - split; [exists false; by rewrite Hu3|]. done.
Qed.

End ManualRestart.

(* ===================================================================== *)
(** ** System monitor: life cycle, smoothing window, memory figures *)
(* ===================================================================== *)

Section SmoothingWindow.
Import SystemMonitor.
Context {A : Type}.
Implicit Types (window samples : list A).

Lemma push_samples_snoc (max : nat) samples (x : A) window :
  push_samples max (samples ++ [x]) window
  = push_sample max x (push_samples max samples window).
Proof. unfold push_samples. by rewrite foldl_app. Qed.

Lemma push_sample_bounded (max : nat) (x : A) window :
  (length window <= max)%nat -> (length (push_sample max x window) <= max)%nat.
Proof.
  intros Hlen. unfold push_sample.
  destruct (Nat.ltb_spec max (length (window ++ [x]))) as [Hlt|Hge]; [|done].
  rewrite length_app in Hlt. simpl in Hlt.
  destruct (window ++ [x]) eqn:E; simpl; [lia|].
  apply (f_equal length) in E. rewrite length_app in E. simpl in E. lia.
Qed.

(** X12: the smoothing window.  Starting from a window of at most
    [maxCpuSamples] readings (the constructor and [stopMonitoring] leave it
    empty), after any run of samples the window holds the most recent
    [maxCpuSamples] readings of everything seen, in order, and never more;
    with a positive bound it is not empty once a sample was pushed, so the
    mean is never taken over an empty array. *)
Theorem cpu_window_keeps_last_samples (max : nat) samples window :
  (length window <= max)%nat ->
  let window' := push_samples max samples window in
  window' = drop (length (window ++ samples) - max) (window ++ samples)
  /\ (length window' <= max)%nat
  /\ ((0 < max)%nat -> samples <> [] -> window' <> []).
Proof.
  intros Hlen. cbv zeta.
  assert (Hmain : push_samples max samples window
                  = drop (length (window ++ samples) - max)
                      (window ++ samples)).
  { induction samples as [|x samples IH] using rev_ind.
    - simpl. rewrite app_nil_r.
      by replace (length window - max)%nat with 0%nat by lia.
    - rewrite push_samples_snoc, IH. unfold push_sample.
      rewrite (app_assoc window samples [x]).
      set (all := window ++ samples).
      set (d := (length all - max)%nat).
      assert (Hd : (d <= length all)%nat) by lia.
      rewrite <- (drop_app_le all [x] d Hd).
      rewrite length_drop, length_app. simpl.
      destruct (Nat.ltb_spec max (length all + 1 - d)).
      + replace (tail (drop d (all ++ [x])))
          with (drop 1 (drop d (all ++ [x])))
          by (by destruct (drop d (all ++ [x]))).
        rewrite drop_drop. f_equal. lia.
      + f_equal. lia. }
  rewrite Hmain. split; [done|]. split.
  - rewrite length_drop. lia.
  - intros Hmax Hne Hnil.
    apply (f_equal length) in Hnil. rewrite length_drop, length_app in Hnil.
    simpl in Hnil. destruct samples; [done|]. simpl in Hnil. lia.
Qed.

End SmoothingWindow.

Section MonitorLifeCycle.
Import SystemMonitor.

Lemma monitor_inv_constructor (eventEmitter : string) :
  monitor_inv (constructor eventEmitter).
Proof.
  unfold monitor_inv, flag_matches_handle, window_is_bounded.
  split_and!; try (unfold constructor; by simplify_map_eq).
  - exists false. unfold constructor. by simplify_map_eq.
  - exists []. unfold constructor. split; [by simplify_map_eq|simpl; lia].
Qed.

(** Sampling keeps the invariant: it writes two data properties only. *)
Lemma monitor_inv_updateSystemStats (sample : option (string * Z))
    (o : gmap string value) :
  monitor_inv o -> monitor_inv (updateSystemStats_body sample o).
Proof.
  intros Hinv.
  pose proof Hinv as (Hstart & Hstop & Hact & [v Hown] & (b & Hflag & Hhandle)
                      & Hmax & window & Hwin & Hlen).
  unfold updateSystemStats_body. destruct sample as [[stats cpuUsage]|];
    [|exact Hinv].
  unfold field. rewrite Hwin, Hmax.
  split_and!; try by simplify_map_eq.
  - exists b. split; [by simplify_map_eq|].
    destruct b; [destruct Hhandle as [h Hh]; exists h|]; by simplify_map_eq.
  - eexists. split; [by simplify_map_eq|].
    by apply (push_sample_bounded 5).
Qed.

Lemma monitor_inv_perform (op : Op) (o : gmap string value) :
  monitor_inv o -> exists o', perform op o = Normal o' /\ monitor_inv o'.
Proof.
  intros Hinv.
  pose proof Hinv as (Hstart & Hstop & Hact & [v Hown] & (b & Hflag & Hhandle)
                      & Hmax & window & Hwin & Hlen).
  destruct op as [handle sample args| |sample]; simpl.
  - unfold startMonitoring_call, call, dispatch, get. rewrite Hstart. simpl.
    unfold startMonitoring_begin, field. rewrite Hflag. simpl.
    destruct b; [by eauto|].
    eexists. split; [reflexivity|].
    match goal with
    | |- monitor_inv (startMonitoring_finish _ (updateSystemStats_body _ ?x)) =>
        assert (Hx : monitor_inv x)
    end.
    { split_and!; try by simplify_map_eq.
      - exists false. by simplify_map_eq.
      - exists window. by simplify_map_eq. }
    apply (monitor_inv_updateSystemStats sample) in Hx.
    destruct Hx as (Hstart' & Hstop' & Hact' & [v' Hown'] & _ & Hmax'
                    & window' & Hwin' & Hlen').
    unfold startMonitoring_finish.
    split_and!; try by simplify_map_eq.
    + exists true. split; [by simplify_map_eq|].
      exists handle. by simplify_map_eq.
    + exists window'. by simplify_map_eq.
  - unfold stopMonitoring_call, call, dispatch, get. rewrite Hstop. simpl.
    unfold stopMonitoring_body, field. rewrite Hflag. simpl.
    destruct b; simpl; [|by eauto].
    destruct Hhandle as [handle Hhandle]. rewrite Hhandle. simpl.
    eexists. split; [reflexivity|].
    split_and!; try by simplify_map_eq.
    + exists false. by simplify_map_eq.
    + exists []. split; [by simplify_map_eq|simpl; lia].
  - eexists. split; [reflexivity|]. by apply monitor_inv_updateSystemStats.
Qed.

Lemma monitor_inv_lifecycle (ops : list Op) (o : gmap string value) :
  monitor_inv o -> exists o', lifecycle ops o = Normal o' /\ monitor_inv o'.
Proof.
  revert o. induction ops as [|op ops IH]; intros o Hinv; simpl; [eauto|].
  destruct (monitor_inv_perform op o Hinv) as (o1 & -> & Hinv1).
  by apply IH.
Qed.

(** X13: the life of a monitor.  Whatever sequence of starts, stops and
    samplings (successful or not) runs on the monitor that the main
    process constructed, no call throws; at the end the monitor holds an
    interval handle exactly when its flag is up, its smoothing window holds
    at most five readings, and [monitor.updateInterval(...)] is still a
    type error, since nothing removes the number that the constructor
    stored under that name. *)
Theorem monitor_lifecycle
    (eventEmitter : string) (ops : list Op) (args : list value) :
  exists o,
    lifecycle ops (constructor eventEmitter) = Normal o
    /\ flag_matches_handle o
    /\ window_is_bounded o
    /\ call o "updateInterval" args
       = Throw (TypeError "updateInterval is not a function").
Proof.
  destruct (monitor_inv_lifecycle ops (constructor eventEmitter))
    as (o & Hrun & _ & _ & _ & [v Hown] & Hflag & _ & Hwin);
    [apply monitor_inv_constructor|].
  exists o. split; [done|]. split; [done|]. split; [done|].
  unfold call, dispatch, get. by rewrite Hown.
Qed.

(** X14: the settings handlers never change the monitor.  For a monitor in
    any state of its life and any [settings.updateInterval], the guarded
    call leaves the object as it was; an error is logged exactly when the
    setting is truthy and monitoring is active. *)
Theorem settings_never_change_the_monitor
    (eventEmitter : string) (ops : list Op) (setting : value) :
  exists o,
    lifecycle ops (constructor eventEmitter) = Normal o
    /\ apply_updateInterval (Some o) setting
       = Normal (Some o, truthy setting && truthy (field o "isMonitoring")).
Proof.
  destruct (monitor_inv_lifecycle ops (constructor eventEmitter))
    as (o & Hrun & _ & _ & Hact & [v Hown] & _);
    [apply monitor_inv_constructor|].
  exists o. split; [done|].
  unfold apply_updateInterval. destruct (truthy setting); [|done]. simpl.
  unfold call at 1, dispatch, get. rewrite Hact. simpl.
  destruct (truthy (field o "isMonitoring")); [|done].
  unfold call, dispatch, get. by rewrite Hown.
Qed.

End MonitorLifeCycle.

Section MemoryFigures.
Import SystemMonitor.

(** X15: the two used-byte figures of a sample.  With a positive total,
    the figure that the percentage is computed from lies between 0 and the
    total.  [memoryDetails.usedBytes] is that figure as long as no
    breakdown is attached, which is always so off the Mac.  With a
    breakdown attached (from [vm_stat], or from active + wired +
    compressed) the spread [...breakdownDetails] puts the breakdown's own
    figure in its place: positive, and not clamped, so it exceeds
    [memoryDetails.totalBytes] exactly when the breakdown adds up to more
    than the total. *)
Theorem memory_details_used_bytes
    (darwin : bool) (memoryInfo : MemoryInfo)
    (macBreakdown : option MacBreakdown) :
  0 < or0 (total memoryInfo) ->
  let raw := fst (raw_used_bytes darwin memoryInfo macBreakdown) in
  let source := snd (raw_used_bytes darwin memoryInfo macBreakdown) in
  let clamped := clamped_used_bytes darwin memoryInfo macBreakdown in
  let usedBytes := fst (memory_details darwin memoryInfo macBreakdown) in
  let totalBytes := snd (memory_details darwin memoryInfo macBreakdown) in
  totalBytes = or0 (total memoryInfo)
  /\ 0 <= clamped <= totalBytes
  /\ 0 <= usedBytes
  /\ (if has_breakdown source
      then darwin = true /\ usedBytes = raw /\ 0 < raw
           /\ clamped = Z.min raw totalBytes
      else usedBytes = clamped)
  /\ (totalBytes < usedBytes
      <-> has_breakdown source = true /\ totalBytes < raw).
Proof.
  intros Htotal. cbv zeta. unfold memory_details, clamped_used_bytes.
  destruct (Z.ltb_spec 0 (or0 (total memoryInfo))) as [_|]; [|lia].
  assert (Hsrc : has_breakdown
                   (snd (raw_used_bytes darwin memoryInfo macBreakdown))
                 = true ->
                 darwin = true
                 /\ 0 < fst (raw_used_bytes darwin memoryInfo macBreakdown)).
  { unfold raw_used_bytes.
    destruct (Z.ltb_spec 0 (or0 (total memoryInfo))) as [_|]; [|lia].
    destruct darwin; cycle 1.
    { destruct (used memoryInfo) as [u|]; [|done].
      by destruct (0 <? _). }
    destruct macBreakdown as [b|].
    - destruct (Z.ltb_spec 0 (SystemMonitor.usedBytes b)); [done|].
      destruct (Z.ltb_spec 0 (or0 (active memoryInfo) + or0 (wired memoryInfo)
                              + or0 (compressed memoryInfo))); done.
    - destruct (Z.ltb_spec 0 (or0 (active memoryInfo) + or0 (wired memoryInfo)
                              + or0 (compressed memoryInfo))); done. }
  destruct (raw_used_bytes darwin memoryInfo macBreakdown) as [raw source].
  simpl in *.
  destruct (has_breakdown source).
  - destruct (Hsrc eq_refl) as [-> Hraw]. simpl.
    split; [done|]. split; [lia|]. split; [lia|].
    split; [split_and!; [done|done|done|lia]|].
    split; [by intros|by intros [_ ?]].
  - simpl. split; [done|]. split; [lia|]. split; [lia|]. split; [done|].
    split; [lia|by intros [[=] _]].
Qed.

(** X16: off the Mac, cache and buffers are excluded while that leaves a
    positive figure.  With [used], [buffers], [cached] and [buffcache]
    non-negative and [used] within a positive total: if buffers and cache
    together stay below [used], the figure is [used - buffers - cached -
    buffcache]; if they reach it, the figure falls back to [used] itself,
    cache included. *)
Theorem cache_is_excluded_off_the_mac
    (memoryInfo : MemoryInfo) (macBreakdown : option MacBreakdown)
    (t u : Z) :
  total memoryInfo = Some t -> used memoryInfo = Some u ->
  0 <= u <= t -> 0 < t ->
  0 <= or0 (buffers memoryInfo) -> 0 <= or0 (cached memoryInfo) ->
  0 <= or0 (buffcache memoryInfo) ->
  let cache :=
    or0 (buffers memoryInfo) + or0 (cached memoryInfo)
    + or0 (buffcache memoryInfo) in
  memory_details false memoryInfo macBreakdown
  = (if cache <? u then u - cache else u, t).
Proof.
  intros Ht Hu Hrange Hpos Hb Hc Hbc cache.
  unfold memory_details, clamped_used_bytes, raw_used_bytes.
  rewrite Ht, Hu. simpl.
  destruct (Z.ltb_spec 0 t); [|lia].
  subst cache.
  destruct (Z.ltb_spec 0 (u - or0 (buffers memoryInfo)
                          - (or0 (cached memoryInfo)
                             + or0 (buffcache memoryInfo))));
    destruct (Z.ltb_spec (or0 (buffers memoryInfo) + or0 (cached memoryInfo)
                          + or0 (buffcache memoryInfo)) u);
    try lia; simpl; f_equal; lia.
Qed.

(** With non-negative page counts the wired figure lies between 0 and the
    used figure, and app memory is at least compressed memory. *)
Lemma mac_breakdown_bounds (p : PageCounts) :
  0 <= pageSize p -> 0 <= activePages p -> 0 <= speculativePages p ->
  0 <= wiredPages p -> 0 <= compressedPages p -> 0 <= inactivePages p ->
  0 <= fileBackedPages p -> 0 <= anonymousPages p ->
  let b := mac_breakdown p in
  0 <= wiredBytes b <= usedBytes b /\ compressedBytes b <= appBytes b.
Proof.
  intros Hps Ha Hs Hw Hc Hi Hf Han. cbv zeta. unfold mac_breakdown. simpl.
  set (ab := (activePages p + speculativePages p) * pageSize p).
  set (ib := inactivePages p * pageSize p).
  set (cb := compressedPages p * pageSize p).
  set (wb := wiredPages p * pageSize p).
  set (fb := fileBackedPages p * pageSize p).
  set (nb := anonymousPages p * pageSize p).
  assert (0 <= cb) by (subst cb; nia).
  assert (0 <= wb) by (subst wb; nia).
  assert (0 <= nb) by (subst nb; nia).
  clearbody ab ib cb wb fb nb.
  destruct ((nb + cb =? 0) && negb ((ab =? 0) && (ib =? 0))); lia.
Qed.

(** X17: the [vm_stat] arithmetic.  With non-negative page counts and page
    size, every byte figure is non-negative, the used figure is app memory
    plus wired memory, and app memory is anonymous plus compressed memory
    unless that is zero, in which case it is what active and inactive
    memory exceed file-backed memory by (the compressed term that the code
    adds in this case is then zero). *)
Theorem mac_breakdown_used_bytes (p : PageCounts) :
  0 <= pageSize p -> 0 <= activePages p -> 0 <= speculativePages p ->
  0 <= wiredPages p -> 0 <= compressedPages p -> 0 <= inactivePages p ->
  0 <= fileBackedPages p -> 0 <= anonymousPages p ->
  let b := mac_breakdown p in
  usedBytes b = appBytes b + wiredBytes b
  /\ appBytes b
     = (if anonymousBytes b + compressedBytes b =? 0
        then Z.max 0 (activeBytes b + inactiveBytes b - fileBackedBytes b)
        else anonymousBytes b + compressedBytes b)
  /\ 0 <= wiredBytes b <= usedBytes b
  /\ compressedBytes b <= appBytes b.
Proof.
  intros Hps Ha Hs Hw Hc Hi Hf Han b.
  destruct (mac_breakdown_bounds p Hps Ha Hs Hw Hc Hi Hf Han) as [Hw' Hc'].
  split; [reflexivity|]. split; [|by split].
  subst b. unfold mac_breakdown. simpl.
  set (ab := (activePages p + speculativePages p) * pageSize p).
  set (ib := inactivePages p * pageSize p).
  set (cb := compressedPages p * pageSize p).
  set (fb := fileBackedPages p * pageSize p).
  set (nb := anonymousPages p * pageSize p).
  assert (0 <= ab) by (subst ab; nia).
  assert (0 <= ib) by (subst ib; nia).
  assert (0 <= cb) by (subst cb; nia).
  assert (0 <= fb) by (subst fb; nia).
  assert (0 <= nb) by (subst nb; nia).
  clearbody ab ib cb fb nb.
  destruct (Z.eqb_spec (nb + cb) 0) as [Hz|Hnz]; simpl; [|done].
  assert (cb = 0) by lia. assert (nb = 0) by lia. subst cb nb.
  destruct (Z.eqb_spec ab 0) as [->|], (Z.eqb_spec ib 0) as [->|];
    simpl; lia.
Qed.

End MemoryFigures.

(* ===================================================================== *)
(** ** Stats multiplexer: what reaches the window and the device *)
(* ===================================================================== *)

Section ForwardingFacts.
Import StatsMultiplexer.
Context {SystemStats TypingStats : Type}.
Implicit Types (st : State SystemStats TypingStats)
               (evs : list (Event SystemStats TypingStats)).

Lemma run_cons e evs st : run (e :: evs) st = run evs (step e st).
Proof. reflexivity. Qed.

Lemma forwarded_step e st :
  forwarded (step e st)
  = forwarded st
    ++ (if mainWindow st then option_list (message_of e) else []).
Proof.
  destruct e; simpl; try by rewrite app_nil_r.
  - by destruct (mainWindow st); rewrite ?app_nil_r.
  - by destruct (mainWindow st); rewrite ?app_nil_r.
  - unfold stats_tick.
    destruct (esp32SerialManager st) as [[[] ?]|], (mainWindow st); simpl;
      by rewrite app_nil_r.
  - by destruct (mainWindow st); rewrite ?app_nil_r.
  - by destruct (mainWindow st); rewrite ?app_nil_r.
Qed.

(** X18: forwarding to the window.  Over any trace, what is forwarded is
    appended to what was forwarded before, and it is a subsequence of the
    snapshots emitted, in the order of emission: nothing is forwarded
    twice, reordered or made up.  If the window is alive at the start and
    is never reported gone, every emitted snapshot is forwarded. *)
Theorem forwarding_keeps_order evs st :
  exists l,
    forwarded (run evs st) = forwarded st ++ l
    /\ sublist l (omap message_of evs)
    /\ (mainWindow st = true ->
        (forall e, e ∈ evs -> e <> WindowIs false) ->
        l = omap message_of evs).
Proof.
  revert st. induction evs as [|e evs IH]; intros st.
  - exists []. simpl. by rewrite app_nil_r.
  - destruct (IH (step e st)) as (l & Hl & Hsub & Hall).
    rewrite run_cons, Hl, forwarded_step, <- app_assoc.
    eexists. split; [reflexivity|]. split.
    + simpl. destruct (mainWindow st), (message_of e); simpl;
        by (try apply sublist_skip; try apply sublist_cons).
    + intros Hwin Hnever. rewrite Hwin. simpl.
      rewrite Hall.
      * by destruct (message_of e).
      * destruct e as [| | | |[]]; simpl; try done.
        -- unfold stats_tick.
           by destruct (esp32SerialManager st) as [[[] ?]|].
        -- exfalso. apply (Hnever (WindowIs false)); [left|done].
      * intros e' Hin. apply Hnever. by right.
Qed.

Lemma sent_step e st :
  sent (step e st) = sent st
  \/ sent (step e st) = sent st ++ [(lastSystemStats st, lastTypingStats st)].
Proof.
  destruct e; simpl; auto.
  unfold stats_tick. destruct (esp32SerialManager st) as [[[] ?]|]; auto.
Qed.

(** X19: what is sent to the device.  Every pair that a trace adds to the
    payloads sent consists of a system snapshot and a typing snapshot that
    were each either emitted in the trace or held when it began. *)
Theorem sent_pairs_were_emitted evs st (p : SystemStats * TypingStats) :
  p ∈ sent (run evs st) ->
  p ∈ sent st
  \/ ((p.1 = lastSystemStats st \/ SystemStatsEmitted p.1 ∈ evs)
      /\ (p.2 = lastTypingStats st \/ TypingStatsEmitted p.2 ∈ evs)).
Proof.
  revert st. induction evs as [|e evs IH]; intros st Hin; [by left|].
  rewrite run_cons in Hin. destruct (IH _ Hin) as [Hold|[Hs Ht]].
  - destruct (sent_step e st) as [E|E]; rewrite E in Hold; [by left|].
    apply elem_of_app in Hold as [Hold| ->%list_elem_of_singleton];
      [by left|].
    right. simpl. auto.
  - right. split.
    + destruct Hs as [Hs|Hs]; [|right; by right].
      destruct e; simpl in Hs; try (by left).
      * right. rewrite Hs. left.
      * left. rewrite Hs. unfold stats_tick.
        by destruct (esp32SerialManager st) as [[[] ?]|].
    + destruct Ht as [Ht|Ht]; [|right; by right].
      destruct e; simpl in Ht; try (by left).
      * right. rewrite Ht. left.
      * left. rewrite Ht. unfold stats_tick.
        by destruct (esp32SerialManager st) as [[[] ?]|].
Qed.

End ForwardingFacts.

(* ===================================================================== *)
(** ** The helper binary of the key listener: results *)
(* ===================================================================== *)

Section MacKeyServerFacts.
Import MacKeyServer.
Context (statFails chmodFails : string -> bool).

(** [0o755] contains execute bits, so a mode or-ed with it has some. *)
Lemma lor_755_has_execute (mode : Z) :
  Z.land (Z.lor mode (octal [7; 5; 5])) (octal [1; 1; 1]) <> 0.
Proof.
  intros H. apply (f_equal (fun z => Z.testbit z 0)) in H.
  rewrite Z.land_spec, Z.lor_spec in H. simpl in H.
  rewrite orb_true_r in H. discriminate H.
Qed.

Lemma ensure_candidates_spec (candidatePaths : list string) (h : Host) :
  macKeyServerReady h = false ->
  let h' := ensure_candidates statFails chmodFails candidatePaths h in
  (macKeyServerReady h' = true
   <-> exists c, c ∈ candidatePaths /\ usable statFails chmodFails h c)
  /\ (files h' = files h
      \/ exists c mode,
           c ∈ candidatePaths
           /\ files h !! c = Some mode
           /\ Z.land mode (octal [1; 1; 1]) = 0
           /\ files h' = <[c := Z.lor mode (octal [7; 5; 5])]> (files h))
  /\ (macKeyServerReady h' = true ->
      exists c mode',
        c ∈ candidatePaths
        /\ files h' !! c = Some mode'
        /\ Z.land mode' (octal [1; 1; 1]) <> 0)
  /\ (macKeyServerReady h' = false -> h' = h).
Proof.
  intros Hready. cbv zeta.
  induction candidatePaths as [|c rest IH]; simpl.
  { rewrite Hready. split_and!; [|by left|done..]. split; [done|].
    intros (c & Hin & _). inversion Hin. }
  destruct IH as (IHiff & IHfiles & IHexec & IHsame).
  assert (Hskip :
    ~ usable statFails chmodFails h c ->
    (macKeyServerReady (ensure_candidates statFails chmodFails rest h) = true
     <-> exists c', c' ∈ c :: rest /\ usable statFails chmodFails h c')
    /\ (files (ensure_candidates statFails chmodFails rest h) = files h
        \/ exists c' mode,
             c' ∈ c :: rest
             /\ files h !! c' = Some mode
             /\ Z.land mode (octal [1; 1; 1]) = 0
             /\ files (ensure_candidates statFails chmodFails rest h)
                = <[c' := Z.lor mode (octal [7; 5; 5])]> (files h))
    /\ (macKeyServerReady (ensure_candidates statFails chmodFails rest h)
        = true ->
        exists c' mode',
          c' ∈ c :: rest
          /\ files (ensure_candidates statFails chmodFails rest h) !! c'
             = Some mode'
          /\ Z.land mode' (octal [1; 1; 1]) <> 0)
    /\ (macKeyServerReady (ensure_candidates statFails chmodFails rest h)
        = false ->
        ensure_candidates statFails chmodFails rest h = h)).
  { intros Hnot. split; [|split; [|split; [|done]]].
    - rewrite IHiff. split.
      + intros (c' & Hin & Hu). exists c'. split; [by right|done].
      + intros (c' & [->|Hin]%elem_of_cons & Hu); [done|]. by exists c'.
    - destruct IHfiles as [?|(c' & m & Hin & ?)]; [by left|right].
      exists c', m. split; [by right|done].
    - intros Hr. destruct (IHexec Hr) as (c' & m & Hin & ?).
      exists c', m. split; [by right|done]. }
  destruct (String.eqb_spec c "") as [->|Hne].
  { apply Hskip. by intros (? & _). }
  destruct (files h !! c) as [mode|] eqn:Hmode; cycle 1.
  { apply Hskip. intros (_ & _ & m & Hm & _). congruence. }
  destruct (statFails c) eqn:Hstat.
  { apply Hskip. intros (_ & ? & _). congruence. }
  destruct (Z.eqb_spec (Z.land mode (octal [1; 1; 1])) 0) as [Hbits|Hbits];
    simpl.
  - destruct (chmodFails c) eqn:Hchmod.
    { apply Hskip. intros (_ & _ & m & Hm & [?|?]); congruence. }
    simpl. split; [|split; [|split; [|done]]].
    + split; [|done]. intros _. exists c. split; [left|].
      split; [done|]. split; [done|]. exists mode. auto.
    + right. exists c, mode. split; [left|done].
    + intros _. exists c, (Z.lor mode (octal [7; 5; 5])).
      split; [left|]. split; [by rewrite lookup_insert_eq|].
      apply lor_755_has_execute.
  - split; [|split; [|split; [|done]]].
    + split; [|done]. intros _. exists c. split; [left|].
      split; [done|]. split; [done|]. exists mode. auto.
    + by left.
    + intros _. exists c, mode. split; [left|done].
Qed.

(** X20: when the helper binary counts as ready.  On a Mac, with the flag
    still down, the function raises the flag exactly when some candidate
    path is not empty, exists, can be examined and either has an execute
    bit already or can be given the mode [0o755]; and whenever the flag is
    raised, a candidate with an execute bit exists afterwards. *)
Theorem mac_key_server_ready_iff_usable_candidate
    (candidatePaths : list string) (h : Host) :
  macKeyServerReady h = false ->
  let h' :=
    ensureMacKeyServerExecutable statFails chmodFails true candidatePaths h in
  (macKeyServerReady h' = true
   <-> exists c, c ∈ candidatePaths /\ usable statFails chmodFails h c)
  /\ (macKeyServerReady h' = true ->
      exists c mode',
        c ∈ candidatePaths
        /\ files h' !! c = Some mode'
        /\ Z.land mode' (octal [1; 1; 1]) <> 0).
Proof.
  intros Hready. cbv zeta. unfold ensureMacKeyServerExecutable.
  rewrite Hready. simpl.
  destruct (ensure_candidates_spec candidatePaths h Hready)
    as (Hiff & _ & Hexec & _).
  done.
Qed.

(** X21: what the function changes.  On any platform and host, it changes
    the mode of at most one file: a candidate none of whose execute bits
    was set, whose mode becomes [mode | 0o755]; no file is created or
    removed.  Off the Mac, or with the flag up, it changes nothing; and
    calling it a second time (with the same failures) changes nothing
    more. *)
Theorem mac_key_server_changes_one_mode_at_most
    (darwin : bool) (candidatePaths : list string) (h : Host) :
  let ensure :=
    ensureMacKeyServerExecutable statFails chmodFails darwin candidatePaths in
  (files (ensure h) = files h
   \/ exists c mode,
        c ∈ candidatePaths
        /\ files h !! c = Some mode
        /\ Z.land mode (octal [1; 1; 1]) = 0
        /\ files (ensure h) = <[c := Z.lor mode (octal [7; 5; 5])]> (files h))
  /\ dom (files (ensure h)) = dom (files h)
  /\ (negb darwin || macKeyServerReady h = true -> ensure h = h)
  /\ ensure (ensure h) = ensure h.
Proof.
  cbv zeta. unfold ensureMacKeyServerExecutable.
  destruct (negb darwin || macKeyServerReady h) eqn:Hguard.
  { rewrite Hguard. by auto. }
  apply orb_false_iff in Hguard as [Hd Hready]. rewrite Hd. simpl.
  destruct (ensure_candidates_spec candidatePaths h Hready)
    as (_ & Hfiles & _ & Hsame).
  split; [done|]. split.
  { destruct Hfiles as [->|(c & m & _ & Hm & _ & ->)]; [done|].
    apply dom_insert_lookup_L. eauto. }
  split; [done|].
  destruct (macKeyServerReady (ensure_candidates _ _ _ h)) eqn:Hr; [done|].
  simpl. by rewrite !(Hsame eq_refl).
Qed.

End MacKeyServerFacts.

(* ===================================================================== *)
(** ** The interval timers: results *)
(* ===================================================================== *)

Section IntervalFacts.
Import Intervals.

Lemma intervals_inv_initial : intervals_inv initial.
Proof.
  split_and!; simpl.
  - intros h i. by rewrite lookup_empty.
  - intros h p. rewrite lookup_empty. split; [done|by intros [[=] _]].
  - intros h p. rewrite lookup_empty. split; [done|by intros [[=] _]].
  - done.
Qed.

Lemma intervals_inv_ensureStatsInterval (s : State) :
  intervals_inv s -> intervals_inv (ensureStatsInterval s).
Proof.
  intros Hinv. pose proof Hinv as (Hlt & Hstats & Htime & Hmon).
  unfold ensureStatsInterval.
  destruct (statsInterval s) eqn:Hs; [done|].
  assert (Hfresh : running s !! nextHandle s = None).
  { destruct (running s !! nextHandle s) eqn:E; [|done].
    specialize (Hlt _ _ E). lia. }
  split_and!; simpl.
  - intros h i [[<- <-]|[Hne Hi]]%lookup_insert_Some; [lia|].
    specialize (Hlt _ _ Hi). lia.
  - intros h p. rewrite lookup_insert_Some. split.
    + intros [[<- [= <-]]|[Hne Hi]]; [done|].
      apply Hstats in Hi as [? _]. congruence.
    + intros [[= <-] ->]. by left.
  - intros h p. rewrite lookup_insert_Some, <- Htime. split.
    + by intros [[_ [=]]|[_ Hi]].
    + intros Hi. right. split; [|done]. intros <-. congruence.
  - intros h Hm. destruct (Hmon h Hm) as [Hh Hown]. split; [lia|].
    intros i [[<- <-]|[Hne Hi]]%lookup_insert_Some; [lia|]. by apply Hown.
Qed.

Lemma intervals_inv_ensureTimeUpdateTimer (s : State) :
  intervals_inv s -> intervals_inv (ensureTimeUpdateTimer s).
Proof.
  intros Hinv. pose proof Hinv as (Hlt & Hstats & Htime & Hmon).
  unfold ensureTimeUpdateTimer.
  destruct (timeUpdateTimer s) eqn:Hs; [done|].
  assert (Hfresh : running s !! nextHandle s = None).
  { destruct (running s !! nextHandle s) eqn:E; [|done].
    specialize (Hlt _ _ E). lia. }
  split_and!; simpl.
  - intros h i [[<- <-]|[Hne Hi]]%lookup_insert_Some; [lia|].
    specialize (Hlt _ _ Hi). lia.
  - intros h p. rewrite lookup_insert_Some, <- Hstats. split.
    + by intros [[_ [=]]|[_ Hi]].
    + intros Hi. right. split; [|done]. intros <-. congruence.
  - intros h p. rewrite lookup_insert_Some. split.
    + intros [[<- [= <-]]|[Hne Hi]]; [done|].
      apply Htime in Hi as [? _]. congruence.
    + intros [[= <-] ->]. by left.
  - intros h Hm. destruct (Hmon h Hm) as [Hh Hown]. split; [lia|].
    intros i [[<- <-]|[Hne Hi]]%lookup_insert_Some; [lia|]. by apply Hown.
Qed.

Lemma intervals_inv_startMonitoring_called (awaited : bool) (interval : Z)
    (s : State) :
  intervals_inv s -> intervals_inv (startMonitoring_called awaited interval s).
Proof.
  intros Hinv. unfold startMonitoring_called.
  destruct (isMonitoring s); [|exact Hinv].
  destruct awaited; [|done]. by apply intervals_inv_ensureTimeUpdateTimer.
Qed.

Lemma intervals_inv_startMonitoring_resumed (i : nat) (s : State) :
  intervals_inv s -> intervals_inv (startMonitoring_resumed i s).
Proof.
  intros Hinv. unfold startMonitoring_resumed.
  destruct (starting s !! i) as [awaited|]; [|done].
  cbn [setInterval].
  match goal with
  | |- intervals_inv (if awaited then ensureTimeUpdateTimer ?x else ?x) =>
      assert (Hs2 : intervals_inv x)
  end.
  { destruct Hinv as (Hlt & Hstats & Htime & Hmon).
    assert (Hfresh : running s !! nextHandle s = None).
    { destruct (running s !! nextHandle s) eqn:E; [|done].
      specialize (Hlt _ _ E). lia. }
    split_and!; simpl.
    - intros h j [[<- <-]|[Hne Hj]]%lookup_insert_Some; [lia|].
      specialize (Hlt _ _ Hj). lia.
    - intros h p. rewrite lookup_insert_Some, <- Hstats. split.
      + by intros [[_ [=]]|[_ Hj]].
      + intros Hj. right. split; [|done]. intros <-. congruence.
    - intros h p. rewrite lookup_insert_Some, <- Htime. split.
      + by intros [[_ [=]]|[_ Hj]].
      + intros Hj. right. split; [|done]. intros <-. congruence.
    - intros h [= <-]. split; [lia|]. intros j.
      rewrite lookup_insert_eq. by intros [= <-]. }
  destruct awaited; [|done]. by apply intervals_inv_ensureTimeUpdateTimer.
Qed.

(** Clearing an interval that is not one of [main.js]. *)
Lemma intervals_inv_clear_other (h : nat) (s : State) :
  intervals_inv s ->
  (forall i, running s !! h = Some i -> i.1 = Monitor) ->
  intervals_inv (clearInterval h s).
Proof.
  intros (Hlt & Hstats & Htime & Hmon) Hh.
  split_and!; simpl.
  - intros h' i [_ Hi]%lookup_delete_Some. by apply (Hlt h' i).
  - intros h' p. rewrite lookup_delete_Some, <- Hstats. split; [by intros []|].
    intros Hi. split; [|done]. intros <-. by specialize (Hh _ Hi).
  - intros h' p. rewrite lookup_delete_Some, <- Htime. split; [by intros []|].
    intros Hi. split; [|done]. intros <-. by specialize (Hh _ Hi).
  - intros h' Hm. destruct (Hmon h' Hm) as [Hlow Hown]. split; [done|].
    intros i [_ Hi]%lookup_delete_Some. by apply Hown.
Qed.

Lemma intervals_inv_stopMonitoring (s : State) :
  intervals_inv s -> intervals_inv (stopMonitoring s).
Proof.
  intros Hinv. unfold stopMonitoring.
  destruct (isMonitoring s); [|done]. cbn [negb].
  assert (Hs1 : intervals_inv
                  match monitoringInterval s with
                  | Some h => clearInterval h s
                  | None => s
                  end).
  { destruct (monitoringInterval s) as [h|] eqn:Hm; [|done].
    apply intervals_inv_clear_other; [done|].
    intros i. by apply (proj2 (proj2 (proj2 Hinv))). }
  destruct Hs1 as (Hlt & Hstats & Htime & _).
  split_and!; simpl; [done..|]. by intros h [=].
Qed.

(** Clearing the interval that one of the two variables holds. *)
Lemma delete_held (s : State) (h : nat) (o : Owner) (period : Z) :
  running s !! h = Some (o, period) ->
  (forall h' o' p,
     o' <> o ->
     delete h (running s) !! h' = Some (o', p)
     <-> running s !! h' = Some (o', p)).
Proof.
  intros Hh h' o' p Ho. rewrite lookup_delete_Some. split; [by intros []|].
  intros Hi. split; [|done]. intros <-. congruence.
Qed.

Lemma clear_statsInterval_spec (s : State) (h : nat) :
  intervals_inv s -> statsInterval s = Some h ->
  let s' := set_statsInterval None (clearInterval h s) in
  intervals_inv s'
  /\ (forall h' o p,
        o <> StatsForwarding ->
        running s' !! h' = Some (o, p) <-> running s !! h' = Some (o, p))
  /\ (forall h' p, running s' !! h' <> Some (StatsForwarding, p)).
Proof.
  intros (Hlt & Hstats & Htime & Hmon) Hs s'.
  assert (Hh : running s !! h = Some (StatsForwarding, 1000))
    by (by apply Hstats).
  pose proof (delete_held s h _ _ Hh) as Hother.
  assert (Hgone : forall h' p,
            running s' !! h' <> Some (StatsForwarding, p)).
  { subst s'. simpl. intros h' p [Hne Hi]%lookup_delete_Some.
    apply Hstats in Hi as [Hi _]. congruence. }
  split; [|split; [intros h' o p Ho; by apply Hother|exact Hgone]].
  split_and!; subst s'; simpl.
  - intros h' i [_ Hi]%lookup_delete_Some. by apply (Hlt h' i).
  - intros h' p. split; [by intros ?%Hgone|by intros [[=] _]].
  - intros h' p. by rewrite Hother, Htime.
  - intros h' Hm. destruct (Hmon h' Hm) as [Hlow Hown]. split; [done|].
    intros i [_ Hi]%lookup_delete_Some. by apply Hown.
Qed.

Lemma clear_timeUpdateTimer_spec (s : State) (h : nat) :
  intervals_inv s -> timeUpdateTimer s = Some h ->
  let s' := set_timeUpdateTimer None (clearInterval h s) in
  intervals_inv s'
  /\ (forall h' o p,
        o <> TimeUpdate ->
        running s' !! h' = Some (o, p) <-> running s !! h' = Some (o, p))
  /\ (forall h' p, running s' !! h' <> Some (TimeUpdate, p)).
Proof.
  intros (Hlt & Hstats & Htime & Hmon) Hs s'.
  assert (Hh : running s !! h = Some (TimeUpdate, 60000))
    by (by apply Htime).
  pose proof (delete_held s h _ _ Hh) as Hother.
  assert (Hgone : forall h' p,
            running s' !! h' <> Some (TimeUpdate, p)).
  { subst s'. simpl. intros h' p [Hne Hi]%lookup_delete_Some.
    apply Htime in Hi as [Hi _]. congruence. }
  split; [|split; [intros h' o p Ho; by apply Hother|exact Hgone]].
  split_and!; subst s'; simpl.
  - intros h' i [_ Hi]%lookup_delete_Some. by apply (Hlt h' i).
  - intros h' p. by rewrite Hother, Hstats.
  - intros h' p. split; [by intros ?%Hgone|by intros [[=] _]].
  - intros h' Hm. destruct (Hmon h' Hm) as [Hlow Hown]. split; [done|].
    intros i [_ Hi]%lookup_delete_Some. by apply Hown.
Qed.

(** What ['will-quit'] leaves running is what the monitor installed, and
    all of it. *)
Lemma will_quit_spec (s : State) :
  intervals_inv s ->
  intervals_inv (will_quit s)
  /\ (forall h p,
        running (will_quit s) !! h = Some (Monitor, p)
        <-> running s !! h = Some (Monitor, p))
  /\ (forall h i, running (will_quit s) !! h = Some i -> i.1 = Monitor).
Proof.
  intros Hinv. unfold will_quit.
  set (s1 := match statsInterval s with
             | Some h => set_statsInterval None (clearInterval h s)
             | None => s
             end).
  assert (H1 : intervals_inv s1
               /\ (forall h' o p,
                     o <> StatsForwarding ->
                     running s1 !! h' = Some (o, p)
                     <-> running s !! h' = Some (o, p))
               /\ (forall h' p,
                     running s1 !! h' <> Some (StatsForwarding, p))).
  { subst s1. destruct (statsInterval s) as [h|] eqn:Hs.
    - by apply clear_statsInterval_spec.
    - split; [done|]. split; [done|]. intros h' p Hi.
      apply (proj1 (proj2 Hinv)) in Hi as [Hi _]. congruence. }
  clearbody s1. destruct H1 as (Hinv1 & Hother1 & Hgone1).
  set (s2 := match timeUpdateTimer s1 with
             | Some h => set_timeUpdateTimer None (clearInterval h s1)
             | None => s1
             end).
  assert (H2 : intervals_inv s2
               /\ (forall h' o p,
                     o <> TimeUpdate ->
                     running s2 !! h' = Some (o, p)
                     <-> running s1 !! h' = Some (o, p))
               /\ (forall h' p, running s2 !! h' <> Some (TimeUpdate, p))).
  { subst s2. destruct (timeUpdateTimer s1) as [h|] eqn:Hs.
    - by apply clear_timeUpdateTimer_spec.
    - split; [done|]. split; [done|]. intros h' p Hi.
      apply (proj1 (proj2 (proj2 Hinv1))) in Hi as [Hi _]. congruence. }
  clearbody s2. destruct H2 as (Hinv2 & Hother2 & Hgone2).
  split; [done|]. split.
  - intros h p. by rewrite Hother2, Hother1.
  - intros h [[] p] Hi; [|by apply Hgone2 in Hi|done].
    apply Hother2 in Hi; [|done]. by apply Hgone1 in Hi.
Qed.

Lemma intervals_inv_step (e : Event) (s : State) :
  intervals_inv s -> intervals_inv (step e s).
Proof.
  intros Hinv. destruct e; simpl.
  - by apply intervals_inv_ensureTimeUpdateTimer,
      intervals_inv_ensureStatsInterval.
  - by apply intervals_inv_startMonitoring_called.
  - by apply intervals_inv_startMonitoring_called.
  - by apply intervals_inv_startMonitoring_resumed.
  - by apply intervals_inv_stopMonitoring.
  - destruct (isMonitoring s); [|done]. by apply intervals_inv_stopMonitoring.
  - by apply will_quit_spec.
Qed.

Lemma intervals_inv_run (evs : list Event) (s : State) :
  intervals_inv s -> intervals_inv (run evs s).
Proof.
  revert s. induction evs as [|e evs IH]; intros s Hinv; [done|].
  apply IH. by apply intervals_inv_step.
Qed.

(** *** Starts that do not overlap *)

Lemma monitor_is_held_ensureTimeUpdateTimer (s : State) :
  intervals_inv s -> monitor_is_held s ->
  monitor_is_held (ensureTimeUpdateTimer s).
Proof.
  intros (Hlt & _) Hall. pose proof Hall as (Hnone & Hheld & Hflag).
  unfold ensureTimeUpdateTimer.
  destruct (timeUpdateTimer s); [done|].
  split_and!; simpl; [done| |done].
  intros h p. rewrite lookup_insert_Some, <- Hheld. split.
  - by intros [[_ [=]]|[_ Hi]].
  - intros Hi. right. split; [|done]. intros <-.
    specialize (Hlt _ _ Hi). lia.
Qed.

Lemma monitor_is_held_ensureStatsInterval (s : State) :
  intervals_inv s -> monitor_is_held s ->
  monitor_is_held (ensureStatsInterval s).
Proof.
  intros (Hlt & _) Hall. pose proof Hall as (Hnone & Hheld & Hflag).
  unfold ensureStatsInterval.
  destruct (statsInterval s); [done|].
  split_and!; simpl; [done| |done].
  intros h p. rewrite lookup_insert_Some, <- Hheld. split.
  - by intros [[_ [=]]|[_ Hi]].
  - intros Hi. right. split; [|done]. intros <-.
    specialize (Hlt _ _ Hi). lia.
Qed.

Lemma monitor_is_held_stopMonitoring (s : State) :
  monitor_is_held s ->
  monitor_is_held (stopMonitoring s)
  /\ (forall h p, running (stopMonitoring s) !! h <> Some (Monitor, p)).
Proof.
  intros Hall. pose proof Hall as (Hnone & Hheld & Hflag).
  unfold stopMonitoring.
  destruct (isMonitoring s) eqn:Hm; cbn [negb].
  - destruct (proj1 Hflag eq_refl) as [h Hh]. rewrite Hh. simpl.
    assert (Hgone : forall h' p,
              delete h (running s) !! h' <> Some (Monitor, p)).
    { intros h' p [Hne Hi]%lookup_delete_Some.
      apply Hheld in Hi as [? _]. congruence. }
    split; [|exact Hgone]. split_and!; simpl; [done| |].
    + intros h' p. split; [by intros ?%Hgone|by intros [[=] _]].
    + split; [done|]. by intros [? [=]].
  - split; [done|]. intros h p Hi. apply Hheld in Hi as [Hh _].
    assert (is_Some (monitoringInterval s)) as ?%Hflag by eauto.
    congruence.
Qed.

Lemma monitor_is_held_start (awaited : bool) (interval : Z) (s : State) :
  intervals_inv s -> monitor_is_held s ->
  monitor_is_held
    (startMonitoring_resumed 0 (startMonitoring_called awaited interval s)).
Proof.
  intros Hinv Hall. pose proof Hall as (Hnone & Hheld & Hflag).
  unfold startMonitoring_called.
  destruct (isMonitoring s) eqn:Hm.
  - (* answered at once; nothing is suspended *)
    assert (Hs1 : monitor_is_held
                    (if awaited then ensureTimeUpdateTimer s else s)).
    { destruct awaited; [|done].
      by apply monitor_is_held_ensureTimeUpdateTimer. }
    unfold startMonitoring_resumed. by rewrite (proj1 Hs1).
  - unfold startMonitoring_resumed. simpl. rewrite Hnone. simpl.
    assert (Hnoh : monitoringInterval s = None).
    { pose proof (proj2 Hflag) as Hc.
      destruct (monitoringInterval s) eqn:E; [|done].
      specialize (Hc ltac:(eauto)). congruence. }
    match goal with
    | |- monitor_is_held (if awaited then ensureTimeUpdateTimer ?x else ?x) =>
        assert (Hs2 : intervals_inv x /\ monitor_is_held x)
    end.
    { split.
      - destruct Hinv as (Hlt & Hstats & Htime & Hmon).
        assert (Hfresh : running s !! nextHandle s = None).
        { destruct (running s !! nextHandle s) eqn:E; [|done].
          specialize (Hlt _ _ E). lia. }
        split_and!; simpl.
        + intros h j [[<- <-]|[Hne Hj]]%lookup_insert_Some; [lia|].
          specialize (Hlt _ _ Hj). lia.
        + intros h p. rewrite lookup_insert_Some, <- Hstats. split.
          * by intros [[_ [=]]|[_ Hj]].
          * intros Hj. right. split; [|done]. intros <-. congruence.
        + intros h p. rewrite lookup_insert_Some, <- Htime. split.
          * by intros [[_ [=]]|[_ Hj]].
          * intros Hj. right. split; [|done]. intros <-. congruence.
        + intros h [= <-]. split; [lia|]. intros j.
          rewrite lookup_insert_eq. by intros [= <-].
      - split_and!; simpl; [done| |by eauto].
        intros h p. rewrite lookup_insert_Some. split.
        + intros [[<- [= <-]]|[_ Hi]]; [done|].
          apply Hheld in Hi as [? _]. congruence.
        + intros [[= <-] ->]. by left. }
    destruct Hs2 as [Hinv2 Hheld2]. destruct awaited; [|done].
    by apply monitor_is_held_ensureTimeUpdateTimer.
Qed.

Lemma monitor_is_held_will_quit (s : State) :
  intervals_inv s -> monitor_is_held s -> monitor_is_held (will_quit s).
Proof.
  intros Hinv Hall. pose proof Hall as (Hnone & Hheld & Hflag).
  destruct (will_quit_spec s Hinv) as (_ & Hkeep & _).
  assert (E : starting (will_quit s) = starting s
              /\ monitoringInterval (will_quit s) = monitoringInterval s
              /\ updateInterval (will_quit s) = updateInterval s
              /\ isMonitoring (will_quit s) = isMonitoring s).
  { unfold will_quit.
    destruct (statsInterval s), (timeUpdateTimer s) eqn:Ht; simpl;
      rewrite ?Ht; done. }
  destruct E as (E1 & E2 & E3 & E4).
  split_and!; [congruence| |by rewrite E2, E4].
  intros h p. by rewrite Hkeep, E2, E3.
Qed.

Lemma serve_spec (r : Request) (s : State) :
  intervals_inv s -> monitor_is_held s ->
  intervals_inv (run (serve r) s) /\ monitor_is_held (run (serve r) s).
Proof.
  intros Hinv Hheld.
  split; [by apply intervals_inv_run|].
  destruct r; simpl.
  - apply monitor_is_held_ensureTimeUpdateTimer;
      [by apply intervals_inv_ensureStatsInterval|].
    by apply monitor_is_held_ensureStatsInterval.
  - by apply monitor_is_held_start.
  - by apply monitor_is_held_start.
  - by apply monitor_is_held_stopMonitoring.
  - destruct (isMonitoring s); [|done].
    by apply monitor_is_held_stopMonitoring.
  - by apply monitor_is_held_will_quit.
Qed.

Lemma serve_all_spec (rs : list Request) (s : State) :
  intervals_inv s -> monitor_is_held s ->
  intervals_inv (run (serve_all rs) s)
  /\ monitor_is_held (run (serve_all rs) s).
Proof.
  revert s. induction rs as [|r rs IH]; intros s Hinv Hheld; [done|].
  unfold serve_all, run. rewrite fmap_cons. simpl. rewrite foldl_app.
  destruct (serve_spec r s Hinv Hheld). by apply IH.
Qed.

Lemma monitor_is_held_initial : monitor_is_held initial.
Proof.
  split_and!; simpl; [done| |].
  - intros h p. rewrite lookup_empty. split; [done|by intros [[=] _]].
  - split; [done|]. by intros [? [=]].
Qed.

(** X22: the interval timers.  Under any interleaving of the set-up, of
    starts (requested or made at launch) that suspend and resume, of stops
    and of the two quit handlers: a 1000 ms stats interval runs exactly
    under the handle that [statsInterval] holds and a 60000 ms time-update
    interval exactly under the one that [timeUpdateTimer] holds, so of
    either kind at most one runs and none is leaked; ['will-quit'] stops
    these two and leaves every interval of the monitor running.  When
    starts are served one at a time, an interval of the monitor runs
    exactly under the handle that [monitoringInterval] holds, with the
    period that [updateInterval] holds, the flag is up exactly when a
    handle is held, and ['before-quit'] followed by ['will-quit'] leaves no
    interval running. *)
Theorem at_most_one_interval_of_each_kind
    (evs : list Event) (rs : list Request) :
  let s := run evs initial in
  let q := run (serve_all rs) initial in
  (forall h p,
     running s !! h = Some (StatsForwarding, p)
     <-> statsInterval s = Some h /\ p = 1000)
  /\ (forall h p,
        running s !! h = Some (TimeUpdate, p)
        <-> timeUpdateTimer s = Some h /\ p = 60000)
  /\ (forall h p,
        running (step WillQuit s) !! h = Some (Monitor, p)
        <-> running s !! h = Some (Monitor, p))
  /\ (forall h i, running (step WillQuit s) !! h = Some i -> i.1 = Monitor)
  /\ (forall h p,
        running q !! h = Some (Monitor, p)
        <-> monitoringInterval q = Some h /\ p = updateInterval q)
  /\ (isMonitoring q = true <-> is_Some (monitoringInterval q))
  /\ running (run [BeforeQuit; WillQuit] q) = ∅.
Proof.
  intros s q.
  pose proof (intervals_inv_run evs initial intervals_inv_initial) as Hs.
  fold s in Hs.
  destruct (serve_all_spec rs initial intervals_inv_initial
              monitor_is_held_initial) as [Hq Hheld].
  fold q in Hq, Hheld.
  destruct (will_quit_spec s Hs) as (_ & Hkeep & Honly).
  destruct Hs as (_ & Hstats & Htime & _).
  pose proof Hheld as (Hnone & Hmon & Hflag).
  split_and!; try done.
  apply map_eq. intros h. rewrite lookup_empty.
  set (q1 := step BeforeQuit q).
  assert (Hq1 : intervals_inv q1) by (by apply intervals_inv_step).
  assert (Hgone : forall h p, running q1 !! h <> Some (Monitor, p)).
  { subst q1. simpl. pose proof (proj2 Hflag) as Hup.
    destruct (isMonitoring q) eqn:Hm.
    - exact (proj2 (monitor_is_held_stopMonitoring q Hheld)).
    - intros h' p Hi. apply Hmon in Hi as [Hh _].
      specialize (Hup ltac:(eauto)). congruence. }
  destruct (will_quit_spec q1 Hq1) as (_ & Hkeep1 & Honly1).
  change (running (will_quit q1) !! h = None).
  destruct (running (will_quit q1) !! h) as [[o p]|] eqn:Hi; [|done].
  pose proof (Honly1 _ _ Hi) as Ho. simpl in Ho. subst o.
  apply Hkeep1 in Hi. by apply Hgone in Hi.
Qed.

(** Two starts that overlap (the one made at launch is still waiting for
    its first sample when ['start-monitoring'] arrives) install two
    intervals; the handle of the first is overwritten, and neither a stop
    nor the two quit handlers clear it. *)
Example overlapping_starts_leak_an_interval :
  let s := run [SetupEventForwarding; AutoStart; StartRequested 1000;
                FirstSampleTaken 0; FirstSampleTaken 0;
                BeforeQuit; WillQuit] initial in
  running s !! 2%nat = Some (Monitor, 1000)
  /\ isMonitoring s = false
  /\ monitoringInterval s = None.
Proof. by vm_compute. Qed.

End IntervalFacts.

(* ===================================================================== *)
(** ** The settings form: results *)
(* ===================================================================== *)

Section RendererFacts.
Import Js Renderer.

Lemma digit_cases (d : Z) :
  0 <= d <= 9 ->
  d = 0 \/ d = 1 \/ d = 2 \/ d = 3 \/ d = 4 \/ d = 5 \/ d = 6 \/ d = 7
  \/ d = 8 \/ d = 9.
Proof. lia. Qed.

(** A printed digit reads back as itself; it is neither white space nor a
    sign. *)
Lemma digit_char_reads_back (d : Z) :
  0 <= d <= 9 ->
  digit_of (digit_char d) = Some d
  /\ is_white_space (digit_char d) = false
  /\ (code (digit_char d) =? 45) = false
  /\ (code (digit_char d) =? 43) = false.
Proof.
  intros Hd. destruct (digit_cases d Hd) as [->|[->|[->|[->|[->|[->|[->|[->
    |[->| ->]]]]]]]]]; by vm_compute.
Qed.

(** Reading what was printed: the digits of [n], printed in front of
    [printed], contribute [n]. *)
Lemma print_digits_S (fuel : nat) (n : Z) (printed : string) :
  print_digits (S fuel) n printed
  = if n <? 10 then String (digit_char (n mod 10)) printed
    else print_digits fuel (n / 10) (String (digit_char (n mod 10)) printed).
Proof. reflexivity. Qed.

Lemma digits_value_print_digits (fuel : nat) (n : Z) (printed : string) :
  0 <= n < 10 ^ Z.of_nat (S fuel) ->
  digits_value (print_digits (S fuel) n printed) None
  = digits_value printed (Some n).
Proof.
  revert n printed. induction fuel as [|fuel IH]; intros n printed Hn.
  all: assert (Hmod : 0 <= n mod 10 <= 9)
         by (pose proof (Z.mod_pos_bound n 10); lia).
  all: destruct (digit_char_reads_back _ Hmod) as (Hread & _).
  all: rewrite print_digits_S.
  all: destruct (Z.ltb_spec n 10) as [Hlt|Hge].
  - cbn [digits_value]. rewrite Hread. simpl.
    by rewrite Z.mod_small by lia.
  - change (10 ^ Z.of_nat 1) with 10 in Hn. lia.
  - cbn [digits_value]. rewrite Hread. simpl.
    by rewrite Z.mod_small by lia.
  - rewrite IH.
    + cbn [digits_value]. rewrite Hread. simpl. do 2 f_equal.
      pose proof (Z.div_mod n 10). lia.
    + rewrite Nat2Z.inj_succ, Z.pow_succ_r in Hn by lia.
      split; [apply Z.div_pos; lia|].
      apply Z.div_lt_upper_bound; lia.
Qed.

(** What is printed for a natural number begins with a digit. *)
Lemma print_digits_head (fuel : nat) (n : Z) (printed : string) :
  0 <= n ->
  exists d rest,
    0 <= d <= 9 /\ print_digits (S fuel) n printed = String (digit_char d) rest.
Proof.
  revert n printed. induction fuel as [|fuel IH]; intros n printed Hn.
  - exists (n mod 10). eexists.
    split; [pose proof (Z.mod_pos_bound n 10); lia|].
    simpl. by destruct (n <? 10).
  - cbn [print_digits]. destruct (Z.ltb_spec n 10).
    + exists (n mod 10). eexists.
      split; [pose proof (Z.mod_pos_bound n 10); lia|done].
    + apply IH. apply Z.div_pos; lia.
Qed.

Lemma parseInt_number_to_string (n : Z) :
  - 10 ^ 21 < n < 10 ^ 21 -> parseInt (number_to_string n) = Some n.
Proof.
  intros Hn. unfold number_to_string.
  destruct (Z.ltb_spec n 0) as [Hneg|Hpos].
  - unfold parseInt. cbn [skip_white_space].
    replace (is_white_space (Ascii.ascii_of_N 45)) with false by done.
    replace (code (Ascii.ascii_of_N 45) =? 45) with true by done.
    rewrite (digits_value_print_digits 20) by (simpl; lia).
    simpl. f_equal. lia.
  - destruct (print_digits_head 20 n "" Hpos) as (d & rest & Hd & Hprint).
    destruct (digit_char_reads_back d Hd) as (_ & Hws & Hminus & Hplus).
    unfold parseInt. rewrite Hprint. cbn [skip_white_space].
    rewrite Hws, Hminus, Hplus, <- Hprint.
    by rewrite (digits_value_print_digits 20) by (simpl; lia).
Qed.

(** X23: the display-sleep setting survives the form.  An integer setting
    (of a size that [String] prints without an exponent) that is shown in
    the field and parsed again by [applyAppSettings] comes back clamped
    to [0, 120], and unchanged if it lies in that range. *)
Theorem display_sleep_round_trip (setting : Z) :
  - 10 ^ 21 < setting < 10 ^ 21 ->
  displaySleep_round_trip setting = Z.max 0 (Z.min 120 setting)
  /\ (0 <= setting <= 120 -> displaySleep_round_trip setting = setting).
Proof.
  intros Hn. unfold displaySleep_round_trip, parsedDisplaySleep.
  rewrite parseInt_number_to_string by done. simpl. lia.
Qed.

(** X24: applying twice is applying once.  Whatever the field holds, the
    value that [applyAppSettings] computes lies in [0, 120]; it is 0 when
    the field does not start (after white space and a sign) with a digit;
    and when it is written back to the field and parsed again, as the next
    click on Apply or Save does, the same value results. *)
Theorem display_sleep_is_normalised (value : string) :
  let parsed := parsedDisplaySleep value in
  0 <= parsed <= 120
  /\ (parseInt value = None -> parsed = 0)
  /\ parsedDisplaySleep (number_to_string parsed) = parsed.
Proof.
  cbv zeta. split; [unfold parsedDisplaySleep; lia|].
  split; [by unfold parsedDisplaySleep; intros ->|].
  set (parsed := parsedDisplaySleep value).
  assert (Hr : 0 <= parsed <= 120) by (unfold parsed, parsedDisplaySleep; lia).
  unfold parsedDisplaySleep at 1.
  rewrite parseInt_number_to_string by lia. simpl. lia.
Qed.

End RendererFacts.

(* ===================================================================== *)
(** ** Reading the output of [vm_stat]: results *)
(* ===================================================================== *)

Section VmStatFacts.
Import Js VmStat.

Lemma digit_of_nonneg (c : Ascii.ascii) (d : Z) :
  digit_of c = Some d -> 0 <= d.
Proof.
  unfold digit_of, is_digit.
  destruct (Z.leb_spec 48 (code c)); simpl; [|done].
  destruct (_ <=? 57); [|done]. intros [= <-]. lia.
Qed.

(** Digits never read as a negative number. *)
Lemma digits_value_nonneg (s : string) (read : option Z) (v : Z) :
  0 <= default 0 read -> digits_value s read = Some v -> 0 <= v.
Proof.
  revert read. induction s as [|c s IH]; intros read Hread; simpl.
  - intros ->. exact Hread.
  - destruct (digit_of c) as [d|] eqn:Hd.
    + apply IH. simpl. pose proof (digit_of_nonneg c d Hd). lia.
    + intros ->. exact Hread.
Qed.

Lemma count_char_is_plain (c : Ascii.ascii) :
  is_count_char c = true ->
  is_white_space c = false /\ (code c =? 45) = false
  /\ (code c =? 43) = false.
Proof.
  unfold is_count_char, is_digit, is_white_space.
  destruct (Z.leb_spec 48 (code c)), (Z.leb_spec (code c) 57),
    (Z.eqb_spec (code c) 46), (Z.leb_spec 9 (code c)),
    (Z.leb_spec (code c) 13), (Z.eqb_spec (code c) 32),
    (Z.eqb_spec (code c) 160), (Z.eqb_spec (code c) 45),
    (Z.eqb_spec (code c) 43); simpl; intros Hcc; try done; lia.
Qed.

(** What [parseInt] makes of digits and full stops is not negative. *)
Lemma parseInt_count_chars_nonneg (s : string) :
  all_count_chars s = true -> 0 <= default 0 (parseInt s).
Proof.
  destruct s as [|c s]; [done|]. simpl. intros [Hc _]%andb_true_iff.
  destruct (count_char_is_plain c Hc) as (Hws & Hminus & Hplus).
  unfold parseInt. cbn [skip_white_space]. rewrite Hws, Hminus, Hplus.
  destruct (digits_value (String c s) None) as [v|] eqn:Hv; [|done].
  simpl. by apply (digits_value_nonneg (String c s) None).
Qed.

Lemma all_count_chars_take_while (s : string) :
  all_count_chars (take_while is_count_char s) = true.
Proof.
  induction s as [|c s IH]; [done|]. simpl.
  destruct (is_count_char c) eqn:Hc; [|done]. simpl. by rewrite Hc.
Qed.

Lemma all_count_chars_digits (s : string) :
  all_count_chars (take_while is_digit s) = true.
Proof.
  induction s as [|c s IH]; [done|]. simpl.
  destruct (is_digit c) eqn:Hc; [|done]. simpl.
  unfold is_count_char. by rewrite Hc.
Qed.

Lemma all_count_chars_remove_first_dot (s : string) :
  all_count_chars s = true -> all_count_chars (remove_first_dot s) = true.
Proof.
  induction s as [|c s IH]; [done|]. simpl.
  intros [Hc Hs]%andb_true_iff.
  destruct (code c =? 46); [done|]. simpl. by rewrite Hc, IH.
Qed.

Lemma match_count_count_chars (line capture : string) :
  match_count line = Some capture -> all_count_chars capture = true.
Proof.
  induction line as [|c line IH]; [done|]. simpl.
  destruct (code c =? 58); [|done].
  destruct (String.eqb _ ""); [done|]. intros [= <-].
  apply all_count_chars_take_while.
Qed.

Lemma exact_Some (n m : Z) :
  exact n = Some m -> m = n /\ Z.abs n <= 2 ^ 53.
Proof.
  unfold exact. destruct (Z.leb_spec (Z.abs n) (2 ^ 53)); [|done].
  by intros [= <-].
Qed.

Lemma parsePages_nonneg (lines : list string) (label : string) (n : Z) :
  parsePages lines label = Some n -> 0 <= n.
Proof.
  unfold parsePages. destruct (List.find _ lines) as [line|];
    [|by intros [= <-]].
  destruct (match_count line) as [capture|] eqn:Hm; [|by intros [= <-]].
  intros [-> _]%exact_Some.
  apply parseInt_count_chars_nonneg, all_count_chars_remove_first_dot.
  by apply (match_count_count_chars line).
Qed.

Lemma match_page_size_count_chars (line digits : string) :
  match_page_size line = Some digits -> all_count_chars digits = true.
Proof.
  induction line as [|c line IH]; simpl.
  - unfold match_page_size_here. simpl. done.
  - destruct (match_page_size_here (String c line)) as [d|] eqn:Hhere;
      [|done].
    intros [= <-]. unfold match_page_size_here in Hhere.
    destruct (startsWith _ _); [|done].
    destruct (_ && _); [|done]. injection Hhere as <-.
    apply all_count_chars_digits.
Qed.

Lemma pageSize_of_nonneg (lines : list string) (n : Z) :
  pageSize_of lines = Some n -> 0 <= n.
Proof.
  unfold pageSize_of. destruct lines as [|first lines]; [by intros [= <-]|].
  destruct (match_page_size first) as [digits|] eqn:Hm;
    [|by intros [= <-]].
  intros [-> _]%exact_Some.
  by apply parseInt_count_chars_nonneg, (match_page_size_count_chars first).
Qed.

(** X25: what is read from [vm_stat] is never negative.  Whatever the
    text, as long as the page size, the eight page counts and the byte
    figures computed from them are numbers that a double holds exactly:
    page size and counts are non-negative integers (garbage reads as 0, a
    missing page size as 4096); so in the breakdown the wired figure lies
    between 0 and the used figure, and app memory is at least compressed
    memory. *)
Theorem vm_stat_figures_are_never_negative
    (stdout : string) (b : SystemMonitor.MacBreakdown) :
  getMacMemoryBreakdown stdout = Some b ->
  exists p,
    pageCounts_of stdout = Some p
    /\ b = SystemMonitor.mac_breakdown p
    /\ (0 <= SystemMonitor.pageSize p
        /\ 0 <= SystemMonitor.activePages p
        /\ 0 <= SystemMonitor.speculativePages p
        /\ 0 <= SystemMonitor.wiredPages p
        /\ 0 <= SystemMonitor.compressedPages p
        /\ 0 <= SystemMonitor.inactivePages p
        /\ 0 <= SystemMonitor.fileBackedPages p
        /\ 0 <= SystemMonitor.purgeablePages p
        /\ 0 <= SystemMonitor.anonymousPages p)
    /\ 0 <= SystemMonitor.wiredBytes b <= SystemMonitor.usedBytes b
    /\ SystemMonitor.compressedBytes b <= SystemMonitor.appBytes b.
Proof.
  unfold getMacMemoryBreakdown. intros Hb.
  destruct (pageCounts_of stdout) as [p|] eqn:Hp; [|done]. simpl in Hb.
  destruct (arithmetic_is_exact p); [|done]. injection Hb as <-.
  exists p. split; [done|]. split; [done|].
  unfold pageCounts_of in Hp.
  repeat match type of Hp with
  | _ ≫= _ = Some _ =>
      apply bind_Some in Hp as (? & ? & Hp)
  end.
  injection Hp as <-.
  repeat match goal with
  | H : pageSize_of _ = Some _ |- _ => apply pageSize_of_nonneg in H
  | H : parsePages _ _ = Some _ |- _ => apply parsePages_nonneg in H
  end.
  split; [simpl; by split_and!|].
  by apply mac_breakdown_bounds.
Qed.

Lemma startsWith_append (label rest : string) :
  startsWith label (label +:+ rest) = true.
Proof.
  induction label as [|c label IH]; [by destruct rest|]. simpl.
  by rewrite Ascii.eqb_refl.
Qed.

Lemma match_count_skips_label (label rest : string) :
  no_colon label = true -> match_count (label +:+ rest) = match_count rest.
Proof.
  induction label as [|c label IH]; [done|]. simpl.
  intros [Hc Hl]%andb_true_iff. apply negb_true_iff in Hc.
  rewrite Hc. by apply IH.
Qed.

Lemma match_count_colon (rest : string) :
  match_count (":" +:+ rest)
  = let capture := take_while is_count_char (skip_white_space rest) in
    if String.eqb capture "" then match_count rest else Some capture.
Proof. reflexivity. Qed.

Lemma skip_white_space_padding (padding rest : string) :
  all_white_space padding = true ->
  skip_white_space (padding +:+ rest) = skip_white_space rest.
Proof.
  induction padding as [|c padding IH]; [done|]. simpl.
  intros [Hc Hp]%andb_true_iff. rewrite Hc. by apply IH.
Qed.

(** The digits printed for a natural number are digits. *)
Lemma all_digits_print_digits (fuel : nat) (n : Z) (printed : string) :
  0 <= n -> all_digits printed = true ->
  all_digits (print_digits fuel n printed) = true.
Proof.
  revert n printed. induction fuel as [|fuel IH]; intros n printed Hn Hp;
    [done|].
  assert (Hmod : 0 <= n mod 10 <= 9)
    by (pose proof (Z.mod_pos_bound n 10); lia).
  assert (Hd : is_digit (digit_char (n mod 10)) = true).
  { destruct (digit_cases _ Hmod) as [->|[->|[->|[->|[->|[->|[->|[->
      |[->| ->]]]]]]]]]; by vm_compute. }
  rewrite print_digits_S. destruct (n <? 10).
  - simpl. by rewrite Hd.
  - apply IH; [apply Z.div_pos; lia|]. simpl. by rewrite Hd.
Qed.

Lemma digit_is_plain (c : Ascii.ascii) :
  is_digit c = true ->
  is_white_space c = false /\ is_count_char c = true
  /\ (code c =? 46) = false.
Proof.
  intros Hd.
  assert (Hc : is_count_char c = true) by (unfold is_count_char; by rewrite Hd).
  destruct (count_char_is_plain c Hc) as (Hws & _).
  split; [done|]. split; [done|].
  unfold is_digit in Hd. apply andb_true_iff in Hd as [H1 H2].
  apply Z.leb_le in H1. apply Z.leb_le in H2. apply Z.eqb_neq. lia.
Qed.

(** Digits followed by a full stop are captured whole, and lose the full
    stop again. *)
Lemma capture_of_digits (digits : string) :
  all_digits digits = true ->
  take_while is_count_char (digits +:+ ".") = digits +:+ "."
  /\ remove_first_dot (digits +:+ ".") = digits.
Proof.
  induction digits as [|c digits IH]; [done|]. simpl.
  intros [Hc Hd]%andb_true_iff.
  destruct (digit_is_plain c Hc) as (_ & Hcc & Hdot).
  destruct (IH Hd) as [IH1 IH2]. by rewrite Hcc, Hdot, IH1, IH2.
Qed.

Lemma find_after_misses {A} (p : A -> bool) (before after : list A) (x : A) :
  (forall y, y ∈ before -> p y = false) -> p x = true ->
  List.find p (before ++ x :: after) = Some x.
Proof.
  intros Hb Hx. induction before as [|y before IH]; simpl.
  - by rewrite Hx.
  - rewrite (Hb y) by left. apply IH. intros z Hz. apply Hb. by right.
Qed.

(** X26: [parsePages] reads what [vm_stat] prints.  For a label without a
    colon, the first line that starts with the label, when it has the shape
    [label: <padding>count.] with a count of at most 2^53 (which a double
    holds exactly), yields that count, whatever the other lines are. *)
Theorem parsePages_reads_the_count
    (label padding : string) (n : Z) (before after : list string) :
  no_colon label = true ->
  all_white_space padding = true ->
  0 <= n <= 2 ^ 53 ->
  (forall line, line ∈ before -> startsWith label line = false) ->
  parsePages (before ++ count_line label padding n :: after) label = Some n.
Proof.
  intros Hlabel Hpad Hn Hbefore. unfold parsePages, count_line.
  rewrite (find_after_misses _ before after) by
    (done || apply startsWith_append).
  rewrite match_count_skips_label by done.
  rewrite match_count_colon. cbv zeta.
  rewrite skip_white_space_padding by done.
  assert (Hdigits : all_digits (number_to_string n) = true).
  { unfold number_to_string. destruct (Z.ltb_spec n 0); [lia|].
    by apply all_digits_print_digits. }
  destruct (print_digits_head 20 n "") as (d & rest & Hd & Hprint); [lia|].
  assert (Hhead : number_to_string n = String (digit_char d) rest).
  { unfold number_to_string. by destruct (Z.ltb_spec n 0); [lia|]. }
  destruct (digit_char_reads_back d Hd) as (_ & Hws & _).
  assert (Hskip : skip_white_space (number_to_string n +:+ ".")
                  = number_to_string n +:+ ".").
  { rewrite Hhead. simpl. by rewrite Hws. }
  rewrite Hskip.
  destruct (capture_of_digits _ Hdigits) as [Htake Hremove].
  rewrite Htake.
  replace (String.eqb (number_to_string n +:+ ".") "") with false
    by (by rewrite Hhead).
  rewrite Hremove, parseInt_number_to_string by lia. simpl.
  unfold exact. destruct (Z.leb_spec (Z.abs n) (2 ^ 53)); [done|lia].
Qed.

(** A count that a double does not hold exactly is outside the model:
    2^53 + 1, which [parseInt] reads as 2^53. *)
Example parsePages_beyond_the_exact_range :
  parsePages [count_line "Pages active" "  " (2 ^ 53 + 1)] "Pages active"
  = None.
Proof. by vm_compute. Qed.

End VmStatFacts.

(* ===================================================================== *)
(** ** Supervisor: reconnecting until the supervisor gives up *)
(* ===================================================================== *)

Section GivingUp.
Import Supervisor.

Lemma esp32SerialManager_clear_timer (k : TimerKind) (w : World) :
  esp32SerialManager (clear_timer k w) = esp32SerialManager w.
Proof.
  destruct k; simpl;
    unfold clearResumeReconnectTimer, clearKeyboardRecoveryTimer;
    try destruct (resumeReconnectTimer w);
    try destruct (keyboardRecoveryTimer w); reflexivity.
Qed.

Lemma esp32SerialManager_schedule (k : TimerKind) (d : Z) (w : World) :
  esp32SerialManager (schedule k d w) = esp32SerialManager w.
Proof.
  destruct k; simpl;
    [unfold scheduleResumeReconnect | unfold scheduleKeyboardRecovery].
  - destruct (systemSuspended w); [done|].
    by rewrite <- (esp32SerialManager_clear_timer ResumeReconnect w).
  - destruct (_ || _); [done|].
    by rewrite <- (esp32SerialManager_clear_timer KeyboardRecovery w).
Qed.

Lemma esp32SerialManager_failed (k : TimerKind) (n : Z) (w : World) :
  esp32SerialManager (failed k n w) = esp32SerialManager w.
Proof.
  destruct (Z.lt_ge_cases n (limit_of k)).
  - rewrite failed_below_limit by done. apply esp32SerialManager_schedule.
  - rewrite failed_at_limit by done. apply esp32SerialManager_clear_timer.
Qed.

(** The armed timer is the one that [fire] finds under its handle. *)
Lemma find_armed_timer (t : Timer) (w : World) :
  timers_wf w -> t ∈ timers w ->
  List.find (fun t' => Nat.eqb (tid t') (tid t)) (timers w) = Some t.
Proof.
  intros (Hnd & _) Hin.
  destruct (List.find _ (timers w)) as [t'|] eqn:Hf.
  - destruct (find_tid _ _ _ Hf) as [Hin' Hid].
    f_equal. by apply (same_handle_same_timer (timers w)).
  - exfalso. apply list_elem_of_In in Hin.
    pose proof (List.find_none _ _ Hf t Hin) as Hno. simpl in Hno.
    by rewrite Nat.eqb_refl in Hno.
Qed.

(** A task that ends leaves the world in which it ends. *)
Lemma result_complete (replies : list Reply) (t : Task) (w : World) :
  result replies t = Some w -> complete replies t = w.
Proof.
  revert replies. induction t as [|?|c w0 k IH]; intros replies; simpl;
    [by intros [= ->]..|].
  destruct replies as [|r rest]; [done|]. apply IH.
Qed.

(** One more failed attempt. *)
Lemma reconnect_timer_fires_step (p : string) (n : Z) (w : World)
    (replies : list Reply) :
  p <> "" -> 0 <= n <= RESUME_RETRY_LIMIT ->
  reconnect_is_refused p replies = true ->
  reconnect_pending p n w ->
  reconnect_pending p (Z.min (n + 1) RESUME_RETRY_LIMIT)
    (reconnect_timer_fires w replies).
Proof.
  intros Hp Hn Hr Hinv.
  pose proof Hinv as (Hwf & Hs & (status & Hesp & Hconn) & Hpend & Hatt
                      & Harm).
  unfold reconnect_timer_fires.
  destruct (Z.ltb_spec n RESUME_RETRY_LIMIT) as [Hlt|Hge]; cycle 1.
  { destruct Harm as [Ho Hh]. rewrite Hh.
    by replace (Z.min (n + 1) RESUME_RETRY_LIMIT) with n by lia. }
  replace (Z.min (n + 1) RESUME_RETRY_LIMIT) with (n + 1) by lia.
  destruct Harm as (t & Ho & Hh & _). rewrite Hh.
  assert (Hin : t ∈ outstanding ResumeReconnect w) by (rewrite Ho; left).
  apply list_elem_of_filter in Hin as [Hkind Hin].
  apply andb_true_iff in Hr as [Hfail Hlast].
  (* the timer leaves the queue and the attempt starts *)
  set (w0 := clearTimeout (tid t) w).
  assert (Hwf0 : timers_wf w0) by (by apply timers_wf_clearTimeout).
  destruct (attemptResumeReconnect_fails p w0 status replies)
    as (w2 & r & Hr & Hres & Hwf2 & Hs2 & Hp2 & Ha2 & He2 & _);
    [done..|].
  rewrite Hr in Hlast. apply negb_true_iff in Hlast.
  assert (Hfire : occurs (TimerFires (tid t), replies) w
                  = resumeReconnect_failed (n + 1) w2).
  { unfold occurs. cbn [fst snd handler]. unfold fire.
    rewrite (find_armed_timer t w Hwf Hin), Hkind.
    rewrite complete_catch_log. fold w0.
    apply result_complete. rewrite Hres. do 2 f_equal.
    subst w0. simpl. by rewrite Hatt. }
  rewrite Hfire.
  assert (Ha2' : resumeReconnectAttempts w2 = n + 1)
    by (rewrite Ha2; subst w0; simpl; by rewrite Hatt).
  clearbody w0. clear Hres Hfire.
  change (resumeReconnect_failed (n + 1) w2)
    with (failed ResumeReconnect (n + 1) w2).
  split; [by apply timers_wf_failed|].
  split; [by rewrite systemSuspended_failed|].
  split; [exists (statusAfter r); by rewrite esp32SerialManager_failed|].
  split; [by rewrite pendingResumePort_failed|].
  split; [by rewrite (attempts_of_failed ResumeReconnect ResumeReconnect)|].
  destruct (Z.ltb_spec (n + 1) RESUME_RETRY_LIMIT) as [Hlt'|Hge'].
  - destruct (failed_arms_backoff ResumeReconnect (n + 1) w2)
      as [Hh' Ho']; [done|done|by simpl; rewrite Hs2|].
    eexists. split; [exact Ho'|]. split; [exact Hh'|]. done.
  - rewrite failed_at_limit by done. split.
    + by apply outstanding_clear_timer.
    + apply (clear_timer_handle ResumeReconnect).
Qed.

Lemma reconnect_timer_keeps_firing_spec (p : string)
    (rs : list (list Reply)) (n : Z) (w : World) :
  p <> "" -> 0 <= n <= RESUME_RETRY_LIMIT ->
  forallb (reconnect_is_refused p) rs = true ->
  reconnect_pending p n w ->
  reconnect_pending p
    (Z.min (n + Z.of_nat (length rs)) RESUME_RETRY_LIMIT)
    (reconnect_timer_keeps_firing rs w).
Proof.
  intros Hp. revert n w. induction rs as [|r rs IH]; intros n w Hn Hrs Hinv.
  - replace (Z.min (n + Z.of_nat (length (@nil (list Reply))))
               RESUME_RETRY_LIMIT)
      with n by (simpl; lia).
    exact Hinv.
  - simpl in Hrs. apply andb_true_iff in Hrs as [Hr Hrs].
    replace (Z.min (n + Z.of_nat (length (r :: rs))) RESUME_RETRY_LIMIT)
      with (Z.min (Z.min (n + 1) RESUME_RETRY_LIMIT
                   + Z.of_nat (length rs)) RESUME_RETRY_LIMIT)
      by (simpl length; lia).
    apply IH; [lia|done|]. by apply reconnect_timer_fires_step.
Qed.

(** X27: reconnecting until the supervisor gives up.  Start where the
    resume handler leaves off: awake, a port remembered, the device not
    connected, the counter at zero and one reconnect timer armed.  Let the
    timer keep firing, every attempt run to its end and fail, in whichever
    of its three ways (the port query is rejected, the port is not listed,
    the port is listed and the connection is rejected), with the device
    still disconnected when the attempt ends.  Then after [k] failures the
    counter is [min(k, 10)]; while that is below 10, exactly one timer is
    armed, with delay [min(1000 * 2^(k-1), 30000)]; from the tenth failure
    on no timer is armed and the handle is cleared, so nothing fires any
    more; the port stays remembered throughout. *)
Theorem reconnect_gives_up_after_ten_failures
    (p : string) (rs : list (list Reply)) (w : World)
    (status : ConnectionStatus) (t : Timer) :
  timers_wf w -> systemSuspended w = false ->
  esp32SerialManager w = Some status -> isConnected status = false ->
  pendingResumePort w = Some p -> p <> "" ->
  resumeReconnectAttempts w = 0 ->
  outstanding ResumeReconnect w = [t] ->
  forallb (reconnect_is_refused p) rs = true -> rs <> [] ->
  let w' := reconnect_timer_keeps_firing rs w in
  let k := Z.of_nat (length rs) in
  resumeReconnectAttempts w' = Z.min k 10
  /\ pendingResumePort w' = Some p
  /\ if k <? 10
     then exists h,
            resumeReconnectTimer w' = Some h
            /\ outstanding ResumeReconnect w'
               = [{| tid := h; tkind := ResumeReconnect;
                     tdelay := Z.min (1000 * 2 ^ (k - 1)) 30000 |}]
     else resumeReconnectTimer w' = None
          /\ outstanding ResumeReconnect w' = [].
Proof.
  intros Hwf Hs Hesp Hconn Hpend Hp Hatt Ho Hrs Hne w' k.
  assert (Hinv : reconnect_pending p 0 w).
  { split_and!; try done; [by eauto|]. simpl.
    exists t. split; [done|]. split; [|lia].
    apply (outstanding_handle ResumeReconnect w t Hwf). rewrite Ho. left. }
  pose proof (reconnect_timer_keeps_firing_spec p rs 0 w Hp
                ltac:(unfold RESUME_RETRY_LIMIT; lia) Hrs Hinv)
    as (_ & _ & _ & Hpend' & Hatt' & Harm').
  fold w' in Hpend', Hatt', Harm'.
  replace (0 + Z.of_nat (length rs)) with k in * by (subst k; lia).
  assert (Hk : 0 < k) by (subst k; destruct rs; [done|simpl; lia]).
  unfold RESUME_RETRY_LIMIT in *.
  split; [done|]. split; [done|].
  destruct (Z.ltb_spec k 10) as [Hlt|Hge].
  - rewrite Z.min_l in Harm' by lia.
    destruct (Z.ltb_spec k 10); [|lia].
    destruct Harm' as ([h k' d] & Ho' & Hh' & Hd').
    assert (Hin : {| tid := h; tkind := k'; tdelay := d |}
                    ∈ outstanding ResumeReconnect w') by (rewrite Ho'; left).
    apply list_elem_of_filter in Hin as [Hkind _]. simpl in *. subst k'.
    exists h. split; [done|]. rewrite Ho'. by rewrite (Hd' Hk).
  - rewrite Z.min_r in Harm' by lia. simpl in Harm'. by destruct Harm'.
Qed.

End GivingUp.

(* ===================================================================== *)
(** ** Further instances on concrete inputs *)
(* ===================================================================== *)

Section FurtherInstances.
Import Supervisor Examples.

Lemma timers_wf_armed_and_connected : timers_wf armed_and_connected.
Proof. apply wf_set_collaborators, timers_wf_both_armed. Qed.

(** X2 on a machine that falls asleep with a recovery timer armed and is
    kept busy while it sleeps. *)
Lemma nothing_is_armed_while_suspended_witness :
  let s := turns falls_asleep (boot disconnected broken_monitor true) in
  let s' := turns busy_while_asleep s in
  forallb (fun t => negb (wakes t)) busy_while_asleep = true
  /\ systemSuspended (world s) = true
  /\ systemSuspended (world s') = true
  /\ nextTimerId (world s') = nextTimerId (world s)
  /\ (forall t, t ∈ timers (world s') -> t ∈ timers (world s)).
Proof.
  intros s s'. split; [reflexivity|]. split; [reflexivity|].
  exact (nothing_is_armed_while_suspended falls_asleep busy_while_asleep
           disconnected broken_monitor true eq_refl eq_refl).
Defined.

(** X3 on the recovery timer of a world with both timers armed: the
    attempt fails and re-arms, the reconnect side stays as it was. *)
Lemma keyboard_events_leave_the_device_side_witness :
  let replies := [reply refused disconnected broken_monitor] in
  let w' := occurs (TimerFires 1, replies) both_armed in
  timers_wf both_armed
  /\ keyboard_event (TimerFires 1) both_armed = true
  /\ pendingResumePort w' = pendingResumePort both_armed
  /\ systemSuspended w' = systemSuspended both_armed
  /\ resumeReconnectAttempts w' = resumeReconnectAttempts both_armed
  /\ resumeReconnectTimer w' = resumeReconnectTimer both_armed
  /\ outstanding ResumeReconnect w' = outstanding ResumeReconnect both_armed.
Proof.
  intros replies w'. split; [apply timers_wf_both_armed|].
  split; [reflexivity|].
  exact (keyboard_events_leave_the_device_side (TimerFires 1) replies
           both_armed timers_wf_both_armed eq_refl).
Defined.

(** X4 on the reconnect timer of the same world. *)
Lemma device_events_leave_the_keyboard_side_witness :
  let replies := [reply refused disconnected broken_monitor] in
  let w' := occurs (TimerFires 0, replies) both_armed in
  timers_wf both_armed
  /\ device_event (TimerFires 0) both_armed = true
  /\ systemSuspended w' = systemSuspended both_armed
  /\ keyboardRecoveryAttempts w' = keyboardRecoveryAttempts both_armed
  /\ keyboardRecoveryTimer w' = keyboardRecoveryTimer both_armed
  /\ outstanding KeyboardRecovery w'
     = outstanding KeyboardRecovery both_armed.
Proof.
  intros replies w'. split; [apply timers_wf_both_armed|].
  split; [reflexivity|].
  exact (device_events_leave_the_keyboard_side (TimerFires 0) replies
           both_armed timers_wf_both_armed eq_refl).
Defined.

(** X5 with the device connected on COM3. *)
Lemma suspend_remembers_the_port_and_disconnects_witness :
  let replies := [reply ok disconnected healthy_monitor] in
  let w' := occurs (Suspend, replies) armed_and_connected in
  timers_wf armed_and_connected
  /\ esp32SerialManager armed_and_connected = Some (connected_on "COM3")
  /\ pendingResumePort w' = Some "COM3"
  /\ calls replies (on_suspend armed_and_connected) = [Disconnect]
  /\ systemSuspended w' = true
  /\ resumeReconnectAttempts w' = 0
  /\ outstanding ResumeReconnect w' = []
  /\ nextTimerId w' = nextTimerId armed_and_connected.
Proof.
  intros replies w'. split; [apply timers_wf_armed_and_connected|].
  split; [reflexivity|].
  exact (suspend_remembers_the_port_and_disconnects armed_and_connected
           (connected_on "COM3") replies timers_wf_armed_and_connected
           eq_refl).
Defined.

(** X6 on a world that remembers COM3: the timer gets the handle 2. *)
Lemma resume_arms_reconnect_iff_port_remembered_witness :
  let w' := occurs (Resume, restart_goes_well) both_armed in
  timers_wf both_armed
  /\ systemSuspended w' = false
  /\ resumeReconnectAttempts w' = 0
  /\ pendingResumePort w' = Some "COM3"
  /\ resumeReconnectTimer w' = Some 2%nat
  /\ outstanding ResumeReconnect w'
     = [{| tid := 2; tkind := ResumeReconnect; tdelay := 1000 |}].
Proof.
  intros w'. split; [apply timers_wf_both_armed|].
  exact (resume_arms_reconnect_iff_port_remembered both_armed
           restart_goes_well timers_wf_both_armed).
Defined.

(** X7: connected on COM3, asleep, awake again. *)
Lemma sleep_cycle_schedules_one_reconnect_witness :
  let asleep := [reply ok disconnected healthy_monitor] in
  let w' :=
    history [(Suspend, asleep); (Resume, restart_goes_well)]
      armed_and_connected in
  timers_wf armed_and_connected
  /\ esp32SerialManager armed_and_connected
     = Some {| isConnected := true; port := Some "COM3" |}
  /\ "COM3" <> ""
  /\ systemSuspended w' = false
  /\ pendingResumePort w' = Some "COM3"
  /\ resumeReconnectAttempts w' = 0
  /\ resumeReconnectTimer w' = Some 2%nat
  /\ outstanding ResumeReconnect w'
     = [{| tid := 2; tkind := ResumeReconnect; tdelay := 1000 |}].
Proof.
  intros asleep w'.
  assert (Hne : "COM3" <> "") by discriminate.
  split; [apply timers_wf_armed_and_connected|].
  split; [reflexivity|]. split; [exact Hne|].
  exact (sleep_cycle_schedules_one_reconnect armed_and_connected "COM3"
           asleep restart_goes_well timers_wf_armed_and_connected eq_refl
           Hne).
Defined.

(** X8 on a recovery attempt whose stop and start go well. *)
Lemma keyboard_recovery_attempt_witness :
  let r1 := reply ok disconnected stopped_monitor in
  let r2 := reply ok disconnected restarted_monitor in
  let t := attemptKeyboardRecovery both_armed in
  let w' := complete [r1; r2] t in
  timers_wf both_armed
  /\ keyboardMonitor both_armed = Some broken_monitor
  /\ systemSuspended both_armed = false
  /\ calls [r1; r2] t = [StopMonitoring; StartMonitoring]
  /\ keyboardRecoveryAttempts w' = 0
  /\ keyboardRecoveryTimer w' = None
  /\ outstanding KeyboardRecovery w' = [].
Proof.
  intros r1 r2 t w'. split; [apply timers_wf_both_armed|].
  split; [reflexivity|]. split; [reflexivity|].
  exact (keyboard_recovery_attempt both_armed broken_monitor r1 r2 []
           timers_wf_both_armed eq_refl eq_refl).
Defined.

(** X9 on a world with both timers armed. *)
Lemma cleanup_clears_both_retry_states_witness :
  let w' := cleanupPowerHandlers both_armed in
  timers_wf both_armed
  /\ timers w' = []
  /\ resumeReconnectTimer w' = None /\ keyboardRecoveryTimer w' = None
  /\ resumeReconnectAttempts w' = 0 /\ keyboardRecoveryAttempts w' = 0
  /\ systemSuspended w' = false
  /\ pendingResumePort w' = pendingResumePort both_armed
  /\ cleanupPowerHandlers w' = w'.
Proof.
  intros w'. split; [apply timers_wf_both_armed|].
  exact (cleanup_clears_both_retry_states both_armed timers_wf_both_armed).
Defined.

(** X10 on three fallback notices in a row. *)
Lemma repeated_fallbacks_arm_one_timer_witness :
  let notices := ["hook lost"; "still lost"; "lost again"] in
  let w := initial disconnected broken_monitor true in
  let w' := history ((fun d => (KeyboardFallback d, [])) <$> notices) w in
  timers_wf w
  /\ systemSuspended w = false
  /\ is_Some (keyboardMonitor w)
  /\ notices <> []
  /\ outstanding KeyboardRecovery w'
     = [{| tid := 2; tkind := KeyboardRecovery; tdelay := 2000 |}]
  /\ keyboardRecoveryTimer w' = Some 2%nat
  /\ keyboardRecoveryAttempts w' = 0
  /\ uiLog w' = UiKeyboardFallback <$> notices.
Proof.
  intros notices w w'.
  assert (H1 : timers_wf w) by apply timers_wf_initial.
  assert (H2 : systemSuspended w = false) by reflexivity.
  assert (H3 : is_Some (keyboardMonitor w)) by (by eexists).
  assert (H4 : notices <> []) by discriminate.
  repeat (split; [assumption|]).
  exact (repeated_fallbacks_arm_one_timer notices w H1 H2 H3 H4).
Defined.

(** X11 on a manual restart that goes well. *)
Lemma manual_restart_outcome_witness :
  let r1 := reply ok disconnected stopped_monitor in
  let r2 := reply ok disconnected restarted_monitor in
  let w' := complete [r1; r2] (ipc_restart_keyboard_monitoring both_armed) in
  timers_wf both_armed
  /\ keyboardMonitor both_armed = Some broken_monitor
  /\ systemSuspended both_armed = false
  /\ (exists fallback,
        uiLog w' = uiLog both_armed ++ [IpcRestartReply true fallback])
  /\ keyboardRecoveryAttempts w' = 0
  /\ keyboardRecoveryTimer w' = None
  /\ outstanding KeyboardRecovery w' = [].
Proof.
  intros r1 r2 w'. split; [apply timers_wf_both_armed|].
  split; [reflexivity|]. split; [reflexivity|].
  exact (manual_restart_outcome both_armed broken_monitor r1 r2 []
           timers_wf_both_armed eq_refl eq_refl).
Defined.

(** X12 on seven readings pushed into an empty window of five. *)
Lemma cpu_window_keeps_last_samples_witness :
  let window' := SystemMonitor.push_samples 5 cpu_readings [] in
  (length (@nil Z) <= 5)%nat
  /\ window' = [560; 410; 380; 900; 150]
  /\ (length window' <= 5)%nat
  /\ ((0 < 5)%nat -> cpu_readings <> [] -> window' <> []).
Proof.
  intros window'.
  assert (H : (length (@nil Z) <= 5)%nat) by (simpl; lia).
  split; [exact H|].
  exact (cpu_window_keeps_last_samples 5 cpu_readings [] H).
Defined.

(** X15 on a Mac with 4 GB whose [vm_stat] counts add up to more: the
    percentage is computed from 4 GB, [memoryDetails.usedBytes] reads
    5898240000. *)
Lemma memory_details_used_bytes_witness :
  let b := Some (SystemMonitor.mac_breakdown mac_pages) in
  0 < SystemMonitor.or0 (SystemMonitor.total mac_memory)
  /\ SystemMonitor.memory_details true mac_memory b
     = (5898240000, 4000000000)
  /\ SystemMonitor.clamped_used_bytes true mac_memory b = 4000000000
  /\ (4000000000 < 5898240000
      <-> SystemMonitor.has_breakdown SystemMonitor.FromVmStat = true
          /\ 4000000000 < 5898240000).
Proof.
  intros b.
  assert (H : 0 < SystemMonitor.or0 (SystemMonitor.total mac_memory))
    by (simpl; lia).
  split; [exact H|]. split; [reflexivity|]. split; [reflexivity|].
  exact (proj2 (proj2 (proj2 (proj2
           (memory_details_used_bytes true mac_memory b H))))).
Defined.

(** X16 on the same host: 8 GB of the 16 GB count as used. *)
Lemma cache_is_excluded_off_the_mac_witness :
  SystemMonitor.total linux_memory = Some 16000000000
  /\ SystemMonitor.used linux_memory = Some 12000000000
  /\ 0 <= 12000000000 <= 16000000000
  /\ 0 < 16000000000
  /\ SystemMonitor.memory_details false linux_memory None
     = (8000000000, 16000000000).
Proof.
  assert (H1 : 0 <= 12000000000 <= 16000000000) by lia.
  assert (H2 : 0 < 16000000000) by lia.
  split; [reflexivity|]. split; [reflexivity|].
  split; [exact H1|]. split; [exact H2|].
  refine (cache_is_excluded_off_the_mac linux_memory None
            16000000000 12000000000 eq_refl eq_refl H1 H2 _ _ _);
    simpl; lia.
Defined.

(** X17 on the page counts of a Mac. *)
Lemma mac_breakdown_used_bytes_witness :
  let b := SystemMonitor.mac_breakdown mac_pages in
  SystemMonitor.usedBytes b = (230000 + 40000 + 90000) * 16384
  /\ SystemMonitor.usedBytes b
     = SystemMonitor.appBytes b + SystemMonitor.wiredBytes b
  /\ 0 <= SystemMonitor.wiredBytes b <= SystemMonitor.usedBytes b.
Proof.
  intros b. split; [reflexivity|].
  destruct (mac_breakdown_used_bytes mac_pages) as (H1 & _ & H3 & _);
    [simpl; lia..|].
  split; [exact H1|exact H3].
Defined.

(** X19 on the pair sent at the tick of the example trace. *)
Lemma sent_pairs_were_emitted_witness :
  (10, 60) ∈ StatsMultiplexer.sent (StatsMultiplexer.run mux_trace mux_start)
  /\ ((10, 60) ∈ StatsMultiplexer.sent mux_start
      \/ ((10 = StatsMultiplexer.lastSystemStats mux_start
           \/ StatsMultiplexer.SystemStatsEmitted 10 ∈ mux_trace)
          /\ (60 = StatsMultiplexer.lastTypingStats mux_start
              \/ StatsMultiplexer.TypingStatsEmitted 60 ∈ mux_trace))).
Proof.
  assert (H : (10, 60) ∈ StatsMultiplexer.sent
                           (StatsMultiplexer.run mux_trace mux_start))
    by (simpl; left).
  split; [exact H|].
  exact (sent_pairs_were_emitted mux_trace mux_start (10, 60) H).
Defined.

(** X20 on a packaged application whose binary lacks the execute bits. *)
Lemma mac_key_server_ready_iff_usable_candidate_witness :
  let h' :=
    MacKeyServer.ensureMacKeyServerExecutable never_fails never_fails true
      key_server_paths packaged_host in
  MacKeyServer.macKeyServerReady packaged_host = false
  /\ (MacKeyServer.macKeyServerReady h' = true
      <-> exists c,
            c ∈ key_server_paths
            /\ MacKeyServer.usable never_fails never_fails packaged_host c)
  /\ MacKeyServer.macKeyServerReady h' = true.
Proof.
  intros h'. split; [reflexivity|].
  split; [|reflexivity].
  exact (proj1 (mac_key_server_ready_iff_usable_candidate never_fails
                  never_fails key_server_paths packaged_host eq_refl)).
Defined.

(** X23 on a setting of 45 minutes. *)
Lemma display_sleep_round_trip_witness :
  - 10 ^ 21 < 45 < 10 ^ 21
  /\ Renderer.displaySleep_round_trip 45 = 45.
Proof.
  assert (H : - 10 ^ 21 < 45 < 10 ^ 21) by lia.
  split; [exact H|].
  apply (proj2 (display_sleep_round_trip 45 H)). lia.
Defined.

(** X25 on the head of what [vm_stat] prints. *)
Lemma vm_stat_figures_are_never_negative_witness :
  let b := SystemMonitor.mac_breakdown mac_pages in
  VmStat.getMacMemoryBreakdown vm_stat_output = Some b
  /\ VmStat.pageCounts_of vm_stat_output = Some mac_pages
  /\ 0 <= SystemMonitor.wiredBytes b <= SystemMonitor.usedBytes b
  /\ SystemMonitor.compressedBytes b <= SystemMonitor.appBytes b.
Proof.
  intros b.
  assert (H : VmStat.getMacMemoryBreakdown vm_stat_output = Some b)
    by (by vm_compute).
  split; [exact H|]. split; [by vm_compute|].
  destruct (vm_stat_figures_are_never_negative vm_stat_output b H)
    as (p & _ & _ & _ & Hw & Hc).
  by split.
Defined.

(** X26 on the line for the active pages, between other lines. *)
Lemma parsePages_reads_the_count_witness :
  let padding := "                            " in
  VmStat.no_colon "Pages active" = true
  /\ VmStat.all_white_space padding = true
  /\ 0 <= 200000 <= 2 ^ 53
  /\ VmStat.parsePages
       (["Mach Virtual Memory Statistics: (page size of 16384 bytes)";
         "Pages free:                               12345."]
        ++ VmStat.count_line "Pages active" padding 200000
           :: ["Pages inactive:                          180000."])
       "Pages active"
     = Some 200000.
Proof.
  intros padding.
  assert (H : 0 <= 200000 <= 2 ^ 53) by lia.
  split; [reflexivity|]. split; [reflexivity|]. split; [exact H|].
  apply (parsePages_reads_the_count "Pages active" padding 200000);
    [reflexivity|reflexivity|exact H|].
  intros line Hin. set_unfold. by destruct Hin as [->|[->|[]]].
Defined.

(** X27 on three attempts after a wake-up that fail in the three ways:
    the fourth attempt is armed 4000 ms later. *)
Lemma reconnect_gives_up_after_ten_failures_witness :
  let w' := reconnect_timer_keeps_firing three_failures woken_up in
  timers_wf woken_up
  /\ systemSuspended woken_up = false
  /\ esp32SerialManager woken_up = Some disconnected
  /\ pendingResumePort woken_up = Some "COM3"
  /\ resumeReconnectAttempts woken_up = 0
  /\ outstanding ResumeReconnect woken_up
     = [{| tid := 0; tkind := ResumeReconnect; tdelay := 1000 |}]
  /\ forallb (reconnect_is_refused "COM3") three_failures = true
  /\ resumeReconnectAttempts w' = 3
  /\ pendingResumePort w' = Some "COM3"
  /\ exists h,
       resumeReconnectTimer w' = Some h
       /\ outstanding ResumeReconnect w'
          = [{| tid := h; tkind := ResumeReconnect; tdelay := 4000 |}].
Proof.
  intros w'.
  assert (H1 : timers_wf woken_up) by apply timers_wf_reachable.
  assert (H2 : "COM3" <> "") by discriminate.
  assert (H3 : three_failures <> []) by discriminate.
  split; [exact H1|]. do 6 (split; [reflexivity|]).
  exact (reconnect_gives_up_after_ten_failures "COM3" three_failures
           woken_up disconnected
           {| tid := 0; tkind := ResumeReconnect; tdelay := 1000 |}
           H1 eq_refl eq_refl eq_refl eq_refl H2 eq_refl eq_refl eq_refl H3).
Defined.

End FurtherInstances.
